(** * SysMon: a shallow embedding of [sysmon.py] and its specification

    [sysmon.py] samples three kernel text files ([/proc/stat],
    [/proc/net/dev], [/proc/meminfo]) and prints a short report.  The
    functions of the module are embedded here as programs of a small
    state-and-exception monad over an explicit [World]: the text each file
    serves at each read, the table of open file objects, the time slept and
    the text printed.

    Interpreter.  The module docstring names its platform (Ubuntu 14.04
    LTS); the builtins are modelled as CPython 3.4, the Python 3 of that
    platform, runs them on ASCII text:
    - [open(path, 'r')] is text mode with universal newlines;
    - [str.split()] splits on runs of the ASCII white space of [str.isspace];
    - [int()] and [float()] skip TAB, LF, VT, FF, CR and the space around
      an ASCII literal, take no digit-group underscores (those came with
      3.6), and [int()] has no length limit (that came with 3.11);
    - in a [%]-format a flag may stand between the two percent signs of an
      escaped percent, so ["% %"] writes one [%] (rejected from 3.7 on);
    - [float] is IEEE 754 binary64, round to nearest even, taken from the
      executable specification [SpecFloat] of the standard library;
    - objects are reference counted: a file object held by a local only is
      closed when the function returns, and is kept, open, by the frame of
      an exception that leaves the function.
    Where the model does not cover the interpreter (bytes outside ASCII, a
    regular expression outside the fragment of [Module Re]) a run ends in
    [OutOfScope] rather than in a guessed result. *)

From Stdlib Require Import ZArith List String Ascii Bool Lia DecimalString.
From Stdlib Require Import Floats.SpecFloat.
Import ListNotations.
Local Open Scope string_scope.
Local Open Scope Z_scope.

(** ** Exceptions and outcomes *)

(** Which builtin rejected a literal with [ValueError]. *)
Inductive conversion := int_literal | float_literal.

(** The exceptions the module can raise.  None is caught anywhere in
    [sysmon.py], so each of them ends the program. *)
Inductive exn :=
| IOError (path : string)                       (* open(): no such source *)
| IndexError                                    (* list index out of range *)
| ValueError (c : conversion) (literal : string)
| ValueError_closed_file                        (* I/O operation on closed file *)
| ValueError_sleep                              (* sleep length must be non-negative *)
| ZeroDivisionError                             (* float division by zero *)
| OverflowError                                 (* int too large to convert to float *)
| TypeError                                     (* a %-format and its arguments disagree *)
| ValueError_format                             (* incomplete format *)
| UnboundLocalError (name : string)
| KeyError (key : string)
| re_error.                                     (* re.compile rejected the pattern *)

Inductive outcome (A : Type) :=
| Ok (a : A)
| Raise (e : exn)
| OutOfScope.
Arguments Ok {A} a.
Arguments Raise {A} e.
Arguments OutOfScope {A}.

Definition obind {A B} (o : outcome A) (k : A -> outcome B) : outcome B :=
  match o with
  | Ok a => k a
  | Raise e => Raise e
  | OutOfScope => OutOfScope
  end.

(** ** The world: kernel files, file objects, clock, standard output *)

(** A file object: the path it was opened on and what is left to read of
    the text fetched at its last read from offset 0 ([None]: the position is
    0 and nothing is fetched yet). *)
Record handle := mkHandle { h_path : string; h_rest : option string }.

(** [files p = Some f]: the source [p] exists and [f n] is the text it
    serves to the [n]-th read from offset 0 that the program makes of it
    (kernel counters change between reads).  [served p] counts those reads. *)
Record World := mkWorld {
  files : string -> option (nat -> string);
  served : string -> nat;
  handles : list (nat * handle);
  next_fd : nat;
  clock : Z;
  stdout : string
}.

Definition Py (A : Type) : Type := World -> outcome A * World.

Definition ret {A} (a : A) : Py A := fun w => (Ok a, w).
Definition raise {A} (e : exn) : Py A := fun w => (Raise e, w).
Definition lift {A} (o : outcome A) : Py A := fun w => (o, w).

(** An exception leaves the world as it is at the point of the raise: no
    [try]/[finally] and no [with] block exists in the module. *)
Definition bind {A B} (m : Py A) (k : A -> Py B) : Py B :=
  fun w =>
    match m w with
    | (Ok a, w') => k a w'
    | (Raise e, w') => (Raise e, w')
    | (OutOfScope, w') => (OutOfScope, w')
    end.

Declare Scope py_scope.
Delimit Scope py_scope with py.
Notation "x <- m ;; k" := (bind m (fun x => k))
  (at level 61, m at next level, right associativity) : py_scope.
Notation "m ;;; k" := (bind m (fun _ => k))
  (at level 61, right associativity) : py_scope.
Local Open Scope py_scope.

(** ** Text files *)

Definition is_ascii7 (c : ascii) : bool := (nat_of_ascii c <? 128)%nat.

Fixpoint all_ascii7 (s : string) : bool :=
  match s with
  | EmptyString => true
  | String c s' => is_ascii7 c && all_ascii7 s'
  end.

Definition LF : ascii := ascii_of_nat 10.
Definition CR : ascii := ascii_of_nat 13.

(** Universal newlines: ["\r\n"] and a lone ["\r"] are read as ["\n"]. *)
Fixpoint universal_newlines (s : string) : string :=
  match s with
  | EmptyString => EmptyString
  | String c s' =>
      if Ascii.eqb c CR then
        match s' with
        | String c' s'' =>
            if Ascii.eqb c' LF then universal_newlines s'
            else String LF (universal_newlines s')
        | EmptyString => String LF EmptyString
        end
      else String c (universal_newlines s')
  end.

(** The first line of [s], its ["\n"] included, and what follows it. *)
Fixpoint cut_line (s : string) : string * string :=
  match s with
  | EmptyString => (EmptyString, EmptyString)
  | String c s' =>
      if Ascii.eqb c LF then (String c EmptyString, s')
      else let (l, r) := cut_line s' in (String c l, r)
  end.

(** All the lines of [s], each with its ["\n"] (the last may lack it). *)
Fixpoint split_lines (s : string) : list string :=
  match s with
  | EmptyString => []
  | String c s' =>
      if Ascii.eqb c LF then String c EmptyString :: split_lines s'
      else match split_lines s' with
           | l :: ls => String c l :: ls
           | [] => [String c EmptyString]
           end
  end.

Definition upd {A} (f : string -> A) (p : string) (a : A) : string -> A :=
  fun q => if String.eqb q p then a else f q.

Fixpoint lookup_handle (fd : nat) (hs : list (nat * handle)) : option handle :=
  match hs with
  | [] => None
  | (n, h) :: hs' => if Nat.eqb n fd then Some h else lookup_handle fd hs'
  end.

Fixpoint remove_handle (fd : nat) (hs : list (nat * handle)) : list (nat * handle) :=
  match hs with
  | [] => []
  | (n, h) :: hs' =>
      if Nat.eqb n fd then remove_handle fd hs' else (n, h) :: remove_handle fd hs'
  end.

(** The changes a call makes to the world. *)
Definition with_handles (hs : list (nat * handle)) (w : World) : World :=
  mkWorld (files w) (served w) hs (next_fd w) (clock w) (stdout w).

Definition set_handle (fd : nat) (h : handle) (w : World) : World :=
  with_handles ((fd, h) :: remove_handle fd (handles w)) w.

Definition opened (path : string) (w : World) : World :=
  mkWorld (files w) (served w) ((next_fd w, mkHandle path None) :: handles w)
          (S (next_fd w)) (clock w) (stdout w).

Definition fetched (path : string) (w : World) : World :=
  mkWorld (files w) (upd (served w) path (S (served w path)))
          (handles w) (next_fd w) (clock w) (stdout w).

Definition slept (secs : Z) (w : World) : World :=
  mkWorld (files w) (served w) (handles w) (next_fd w) (clock w + secs) (stdout w).

Definition printed (text : string) (w : World) : World :=
  mkWorld (files w) (served w) (handles w) (next_fd w) (clock w)
          (stdout w ++ text ++ String LF EmptyString).

(** [open(path, 'r')]: a new file object positioned at offset 0. *)
Definition open (path : string) : Py nat :=
  fun w =>
    match files w path with
    | None => (Raise (IOError path), w)
    | Some _ => (Ok (next_fd w), opened path w)
    end.

(** What is left to read through [fd]; at offset 0 the source is asked for
    its current text, which counts as one more read of it. *)
Definition pending (fd : nat) : Py string :=
  fun w =>
    match lookup_handle fd (handles w) with
    | None => (Raise ValueError_closed_file, w)
    | Some h =>
        match h_rest h with
        | Some rest => (Ok rest, w)
        | None =>
            match files w (h_path h) with
            | None => (Raise (IOError (h_path h)), w)
            | Some f =>
                let text := f (served w (h_path h)) in
                if all_ascii7 text
                then (Ok (universal_newlines text), fetched (h_path h) w)
                else (OutOfScope, fetched (h_path h) w)
            end
        end
    end.

Definition set_rest (fd : nat) (rest : option string) : Py unit :=
  fun w =>
    match lookup_handle fd (handles w) with
    | None => (Raise ValueError_closed_file, w)
    | Some h => (Ok tt, set_handle fd (mkHandle (h_path h) rest) w)
    end.

(** [f.readline()] *)
Definition readline (fd : nat) : Py string :=
  text <- pending fd ;;
  let (line, rest) := cut_line text in
  set_rest fd (Some rest) ;;;
  ret line.

(** [f.readlines()] *)
Definition readlines (fd : nat) : Py (list string) :=
  text <- pending fd ;;
  set_rest fd (Some EmptyString) ;;;
  ret (split_lines text).

(** [f.seek(0)] *)
Definition seek0 (fd : nat) : Py unit := set_rest fd None.

(** [f.close()]; closing a closed file object is allowed. *)
Definition close (fd : nat) : Py unit :=
  fun w => (Ok tt, with_handles (remove_handle fd (handles w)) w).

(** The end of a file object that nothing refers to any more.  CPython
    counts references: when a function returns, its frame lets go of its
    locals, and a file object that only a local held is deallocated, which
    closes it.  An exception keeps the frame, and the locals with it, for as
    long as it propagates; nothing in [sysmon.py] catches one, so a file
    object that was open at a raise stays open. *)
Definition dealloc (fd : nat) : Py unit := close fd.

(** [time.sleep(secs)] *)
Definition time_sleep (secs : Z) : Py unit :=
  fun w => if secs <? 0 then (Raise ValueError_sleep, w) else (Ok tt, slept secs w).

(** [print(text)] *)
Definition print (text : string) : Py unit :=
  fun w => (Ok tt, printed text w).

(** ** Strings: [str.split], [int], [float] *)

(** [str.isspace] on ASCII: TAB, LF, VT, FF, CR, the separators 0x1c-0x1f
    and the space. *)
Definition isspace (c : ascii) : bool :=
  let n := nat_of_ascii c in
  ((9 <=? n) && (n <=? 13) || (28 <=? n) && (n <=? 32))%nat.

(** [s.split()]: the maximal runs of non-space characters, in order. *)
Fixpoint py_split (s : string) : list string :=
  match s with
  | EmptyString => []
  | String c s' =>
      if isspace c then py_split s'
      else match s' with
           | EmptyString => [String c EmptyString]
           | String c' _ =>
               if isspace c' then String c EmptyString :: py_split s'
               else match py_split s' with
                    | t :: ts => String c t :: ts
                    | [] => [String c EmptyString]
                    end
           end
  end.

(** The white space that [int()] and [float()] skip before and after an
    ASCII literal: TAB, LF, VT, FF, CR and the space (C's [isspace], which
    is what [Py_ISSPACE] tests).  The separators 0x1c-0x1f, white space for
    [str.isspace] and so for [str.split], are not skipped: [int] of a
    string that starts with 0x1c is a [ValueError]. *)
Definition c_isspace (c : ascii) : bool :=
  let n := nat_of_ascii c in
  ((9 <=? n) && (n <=? 13) || (n =? 32))%nat.

Fixpoint lstrip (s : string) : string :=
  match s with
  | EmptyString => EmptyString
  | String c s' => if c_isspace c then lstrip s' else s
  end.

Fixpoint rstrip (s : string) : string :=
  match s with
  | EmptyString => EmptyString
  | String c s' =>
      match rstrip s' with
      | EmptyString => if c_isspace c then EmptyString else String c EmptyString
      | r => String c r
      end
  end.

(** A literal without the white space around it. *)
Definition strip (s : string) : string := rstrip (lstrip s).

Definition digit_of (c : ascii) : option Z :=
  let n := nat_of_ascii c in
  if ((48 <=? n) && (n <=? 57))%nat then Some (Z.of_nat n - 48) else None.

(** The longest run of decimal digits at the head of [s]: its value on top
    of [acc], its length on top of [n], and the text after it. *)
Fixpoint span_digits (acc : Z) (n : nat) (s : string) : Z * nat * string :=
  match s with
  | EmptyString => (acc, n, EmptyString)
  | String c s' =>
      match digit_of c with
      | Some d => span_digits (10 * acc + d) (S n) s'
      | None => (acc, n, s)
      end
  end.

(** A non-empty string of decimal digits only. *)
Definition digits (s : string) : option Z :=
  match span_digits 0 0 s with
  | (v, S _, EmptyString) => Some v
  | _ => None
  end.

(** An optional sign, split off. *)
Definition split_sign (s : string) : bool * string :=
  match s with
  | String "+" r => (false, r)
  | String "-" r => (true, r)
  | _ => (false, s)
  end.

(** [int(s)], base 10: white space around, an optional sign, digits. *)
Definition py_int (s : string) : outcome Z :=
  let (neg, body) := split_sign (strip s) in
  match digits body with
  | Some v => Ok (if neg then - v else v)
  | None => Raise (ValueError int_literal s)
  end.

(** *** binary64 *)

Definition prec : Z := 53.
Definition emax : Z := 1024.
Definition float : Type := spec_float.

Definition f_add : float -> float -> float := SFadd prec emax.
Definition f_sub : float -> float -> float := SFsub prec emax.
Definition f_mul : float -> float -> float := SFmul prec emax.

Definition is_zero (x : float) : bool :=
  match x with S754_zero _ => true | _ => false end.

Definition is_finite (x : float) : bool :=
  match x with S754_zero _ | S754_finite _ _ _ => true | _ => false end.

(** [x / y] on Python floats: a zero divisor raises, it does not give an
    infinity or a NaN. *)
Definition f_div (x y : float) : outcome float :=
  if is_zero y then Raise ZeroDivisionError else Ok (SFdiv prec emax x y).

(** The binary64 nearest to [m * 10^e10] ([m >= 0]), ties to even; [neg]
    gives the sign. *)
Definition float_of_decimal (neg : bool) (m e10 : Z) : float :=
  if 0 <=? e10 then
    match m * 10 ^ e10 with
    | Zpos p => binary_round prec emax neg p 0
    | _ => S754_zero neg
    end
  else
    match m with
    | Zpos _ =>
        let '(q, e, l) := SFdiv_core_binary prec emax m 0 (10 ^ (- e10)) 0 in
        binary_round_aux prec emax neg q e l
    | _ => S754_zero neg
    end.

(** [float(n)] of a Python int: correctly rounded; too large an int is an
    error, not an infinity. *)
Definition float_of_int (n : Z) : outcome float :=
  match binary_normalize prec emax n 0 false with
  | S754_infinity _ => Raise OverflowError
  | x => Ok x
  end.

Definition lower (c : ascii) : ascii :=
  let n := nat_of_ascii c in
  if ((65 <=? n) && (n <=? 90))%nat then ascii_of_nat (n + 32) else c.

Fixpoint lowercase (s : string) : string :=
  match s with
  | EmptyString => EmptyString
  | String c s' => String (lower c) (lowercase s')
  end.

(** A decimal literal without sign: digits with an optional fraction (one
    of the two parts may be empty) and an optional exponent.  The result
    [(m, e)] stands for [m * 10^e]. *)
Definition parse_decimal (s : string) : option (Z * Z) :=
  let '(ip, ni, r1) := span_digits 0 0 s in
  let '(m, nf, r2) :=
    match r1 with
    | String "." r => span_digits ip 0 r
    | _ => (ip, 0%nat, r1)
    end in
  if (ni + nf =? 0)%nat then None
  else
    match r2 with
    | EmptyString => Some (m, - Z.of_nat nf)
    | String c r3 =>
        if Ascii.eqb (lower c) "e" then
          let (eneg, r4) := split_sign r3 in
          match span_digits 0 0 r4 with
          | (ev, S _, EmptyString) =>
              Some (m, (if eneg then - ev else ev) - Z.of_nat nf)
          | _ => None
          end
        else None
    end.

(** [float(s)] *)
Definition py_float (s : string) : outcome float :=
  let (neg, body) := split_sign (strip s) in
  let name := lowercase body in
  if String.eqb name "inf" || String.eqb name "infinity" then Ok (S754_infinity neg)
  else if String.eqb name "nan" then Ok S754_nan
  else match parse_decimal body with
       | Some (m, e) => Ok (float_of_decimal neg m e)
       | None => Raise (ValueError float_literal s)
       end.

(** ** [re.search] *)

(** The fragment of the [re] pattern language that is modelled: literal
    characters, [.], a backslash before a character that is neither a
    letter nor a digit, the postfix operators [*], [+], [?] on a single
    character, alternation and groups.  A pattern with anything else (a
    character class, an anchor, a counted repeat, a backslash class, a
    group extension, a repeated group, a repeat after a repeat) is
    [OutOfScope]; a pattern that [re.compile] rejects inside the fragment
    raises [re_error]. *)
Module Re.

Inductive regex :=
| Fail                       (* matches nothing *)
| Empty                      (* matches the empty string *)
| Lit (c : ascii)
| Dot                        (* any character except a newline *)
| Cat (r s : regex)
| Alt (r s : regex)
| Star (r : regex).

Fixpoint nullable (r : regex) : bool :=
  match r with
  | Fail | Lit _ | Dot => false
  | Empty | Star _ => true
  | Cat r1 r2 => nullable r1 && nullable r2
  | Alt r1 r2 => nullable r1 || nullable r2
  end.

(** What [r] can still match after reading [c]. *)
Fixpoint deriv (c : ascii) (r : regex) : regex :=
  match r with
  | Fail | Empty => Fail
  | Lit d => if Ascii.eqb c d then Empty else Fail
  | Dot => if Ascii.eqb c LF then Fail else Empty
  | Cat r1 r2 =>
      if nullable r1 then Alt (Cat (deriv c r1) r2) (deriv c r2)
      else Cat (deriv c r1) r2
  | Alt r1 r2 => Alt (deriv c r1) (deriv c r2)
  | Star r1 => Cat (deriv c r1) (Star r1)
  end.

(** Some prefix of [s] matches [r]. *)
Fixpoint match_here (r : regex) (s : string) : bool :=
  match s with
  | EmptyString => nullable r
  | String c s' => nullable r || match_here (deriv c r) s'
  end.

(** Some substring of [s] matches [r]. *)
Fixpoint search_regex (r : regex) (s : string) : bool :=
  match s with
  | EmptyString => nullable r
  | String _ s' => match_here r s || search_regex r s'
  end.

(** *** Parsing a pattern *)

(** An element of a sequence: [Simple] can still take a postfix operator,
    [Closed] (a group, or an element that has one) is not followed by one
    inside the fragment. *)
Inductive item := Simple (r : regex) | Closed (r : regex).

Definition item_regex (i : item) : regex :=
  match i with Simple r | Closed r => r end.

(** One nesting level: the alternatives already closed by [|] and the
    sequence being read, both latest first; [f_fresh] holds between an
    opening parenthesis and the next character. *)
Record frame := mkFrame { f_alts : list regex; f_seq : list item; f_fresh : bool }.

Record pstate := mkPstate { p_stack : list frame; p_cur : frame; p_esc : bool }.

Definition regex_of_seq (seq : list item) : regex :=
  fold_left (fun acc i => Cat (item_regex i) acc) seq Empty.

Definition regex_of_frame (f : frame) : regex :=
  fold_left (fun acc r => Alt r acc) (f_alts f) (regex_of_seq (f_seq f)).

Definition push_item (i : item) (st : pstate) : pstate :=
  let f := p_cur st in
  mkPstate (p_stack st) (mkFrame (f_alts f) (i :: f_seq f) false) false.

Definition is_alnum (c : ascii) : bool :=
  let n := nat_of_ascii c in
  ((48 <=? n) && (n <=? 57) || (65 <=? n) && (n <=? 90) || (97 <=? n) && (n <=? 122))%nat.

(** A postfix operator applied to the last element read. *)
Definition repeat_last (op : regex -> regex) (st : pstate) : outcome pstate :=
  let f := p_cur st in
  match f_seq f with
  | [] => Raise re_error                       (* nothing to repeat *)
  | Simple r :: seq =>
      Ok (mkPstate (p_stack st) (mkFrame (f_alts f) (Closed (op r) :: seq) false) false)
  | Closed _ :: _ => OutOfScope
  end.

Definition step (st : pstate) (c : ascii) : outcome pstate :=
  if negb (is_ascii7 c) then OutOfScope
  else if p_esc st then
    if is_alnum c then OutOfScope else Ok (push_item (Simple (Lit c)) st)
  else
    let f := p_cur st in
    match c with
    | "\"%char => Ok (mkPstate (p_stack st) (mkFrame (f_alts f) (f_seq f) false) true)
    | "."%char => Ok (push_item (Simple Dot) st)
    | "*"%char => repeat_last Star st
    | "+"%char => repeat_last (fun r => Cat r (Star r)) st
    | "?"%char =>
        if f_fresh f then OutOfScope             (* a group extension *)
        else repeat_last (fun r => Alt r Empty) st
    | "|"%char =>
        Ok (mkPstate (p_stack st)
                     (mkFrame (regex_of_seq (f_seq f) :: f_alts f) [] false) false)
    | "("%char =>
        Ok (mkPstate (f :: p_stack st) (mkFrame [] [] true) false)
    | ")"%char =>
        match p_stack st with
        | [] => Raise re_error                   (* unbalanced parenthesis *)
        | outer :: stack =>
            Ok (mkPstate stack
                  (mkFrame (f_alts outer) (Closed (regex_of_frame f) :: f_seq outer) false)
                  false)
        end
    | "["%char | "{"%char | "^"%char | "$"%char => OutOfScope
    | _ => Ok (push_item (Simple (Lit c)) st)
    end.

Fixpoint parse_from (st : pstate) (p : string) : outcome regex :=
  match p with
  | EmptyString =>
      if p_esc st then Raise re_error            (* pattern ends in a backslash *)
      else match p_stack st with
           | [] => Ok (regex_of_frame (p_cur st))
           | _ :: _ => Raise re_error            (* missing closing parenthesis *)
           end
  | String c p' => obind (step st c) (fun st' => parse_from st' p')
  end.

Definition compile (pattern : string) : outcome regex :=
  parse_from (mkPstate [] (mkFrame [] [] false) false) pattern.

(** [re.search(pattern, s)], as the truth value an [if] takes of it. *)
Definition search (pattern s : string) : outcome bool :=
  obind (compile pattern) (fun r => Ok (search_regex r s)).

End Re.

(** ** The samplers of [sysmon.py] *)

(** [l[n]] on a list, for an index that is not negative. *)
Definition item_at {A} (l : list A) (n : nat) : outcome A :=
  match nth_error l n with
  | Some a => Ok a
  | None => Raise IndexError
  end.

(** [float(l[n])] and [int(l[n])] *)
Definition float_item (l : list string) (n : nat) : outcome float :=
  obind (item_at l n) py_float.
Definition int_item (l : list string) (n : nat) : outcome Z :=
  obind (item_at l n) py_int.

(** The float of the int literal [1] and of [100], and [1000.0]. *)
Definition f_1 : float := S754_finite false 4503599627370496 (-52).
Definition f_100 : float := S754_finite false 7036874417766400 (-46).
Definition f_1000 : float := S754_finite false 8796093022208000 (-43).

(** [get_cpu_utilisation(sleep_time)], with [sleep_time] a whole number of
    seconds (the default, the only value the module passes, is 1). *)
Definition get_cpu_utilisation (sleep_time : Z) : Py float :=
  f <- open "/proc/stat" ;;
  (* get first reading *)
  line <- readline f ;;
  let cpu_stats := py_split line in
  idle_reading_1 <- lift (float_item cpu_stats 4) ;;
  c1 <- lift (float_item cpu_stats 1) ;;
  c2 <- lift (float_item cpu_stats 2) ;;
  c3 <- lift (float_item cpu_stats 3) ;;
  c4 <- lift (float_item cpu_stats 4) ;;
  c5 <- lift (float_item cpu_stats 5) ;;
  let total_reading_1 := f_add (f_add (f_add (f_add c1 c2) c3) c4) c5 in
  (* wait for specified period of time *)
  time_sleep sleep_time ;;;
  seek0 f ;;;
  (* get second reading *)
  line <- readline f ;;
  let cpu_stats := py_split line in
  idle_reading_2 <- lift (float_item cpu_stats 4) ;;
  c1 <- lift (float_item cpu_stats 1) ;;
  c2 <- lift (float_item cpu_stats 2) ;;
  c3 <- lift (float_item cpu_stats 3) ;;
  c4 <- lift (float_item cpu_stats 4) ;;
  c5 <- lift (float_item cpu_stats 5) ;;
  let total_reading_2 := f_add (f_add (f_add (f_add c1 c2) c3) c4) c5 in
  close f ;;;
  q <- lift (f_div (f_sub idle_reading_2 idle_reading_1)
                   (f_sub total_reading_2 total_reading_1)) ;;
  let cpu_utilisation := f_sub f_1 q in
  ret cpu_utilisation.

(** The loop [for line in lines: if re.search(interface, line):
    network_stats = line.split()]: [network_stats] is what the variable
    holds when the loop is entered, the result is what it holds after the
    loop.  No [break]: every line is tried. *)
Fixpoint scan_interface (interface : string) (lines : list string)
         (network_stats : list string) : outcome (list string) :=
  match lines with
  | [] => Ok network_stats
  | line :: rest =>
      obind (Re.search interface line) (fun found =>
      scan_interface interface rest (if found then py_split line else network_stats))
  end.

(** [get_network_interface_traffic(interface, sleep_time)].  Before each
    loop [network_stats] is the list of lines itself, and it stays so when
    no line matches. *)
Definition get_network_interface_traffic (interface : string) (sleep_time : Z) : Py Z :=
  f <- open "/proc/net/dev" ;;
  (* get first reading *)
  network_stats <- readlines f ;;
  network_stats <- lift (scan_interface interface network_stats network_stats) ;;
  interface_reading_1 <- lift (int_item network_stats 9) ;;
  (* wait for specified period of time *)
  time_sleep sleep_time ;;;
  seek0 f ;;;
  (* get second reading *)
  network_stats <- readlines f ;;
  network_stats <- lift (scan_interface interface network_stats network_stats) ;;
  interface_reading_2 <- lift (int_item network_stats 9) ;;
  close f ;;;
  let bytes_per_seconds := interface_reading_2 - interface_reading_1 in
  ret bytes_per_seconds.

(** The loop of [get_memory_usage]; [total_memory] and [free_memory] are
    unbound ([None]) until a line matches. *)
Fixpoint scan_meminfo (lines : list string)
         (total_memory free_memory : option (list string))
  : outcome (option (list string) * option (list string)) :=
  match lines with
  | [] => Ok (total_memory, free_memory)
  | line :: rest =>
      obind (Re.search "MemTotal:" line) (fun is_total =>
      let total_memory := if is_total then Some (py_split line) else total_memory in
      obind (Re.search "MemFree" line) (fun is_free =>
      let free_memory := if is_free then Some (py_split line) else free_memory in
      scan_meminfo rest total_memory free_memory))
  end.

(** Reading a local variable. *)
Definition local {A} (name : string) (v : option A) : outcome A :=
  match v with
  | Some a => Ok a
  | None => Raise (UnboundLocalError name)
  end.

(** A dict with string keys, as the list of its items in insertion order. *)
Definition dict : Type := list (string * Z).

Fixpoint dict_get (d : dict) (key : string) : outcome Z :=
  match d with
  | [] => Raise (KeyError key)
  | (k, v) :: d' => if String.eqb k key then Ok v else dict_get d' key
  end.

(** [get_memory_usage()].  The function has no [f.close()]: its file
    object is open until the function returns, and is closed then by the
    interpreter, [f] having been the only reference to it.  (The two other
    samplers have closed theirs by the time they return.) *)
Definition get_memory_usage : Py dict :=
  f <- open "/proc/meminfo" ;;
  memory_stats <- readlines f ;;
  vars <- lift (scan_meminfo memory_stats None None) ;;
  let (total_memory, free_memory) := (vars : option (list string) * option (list string)) in
  in_use <- lift (obind (local "total_memory" total_memory) (fun t =>
                  obind (int_item t 1) (fun total =>
                  obind (local "free_memory" free_memory) (fun fr =>
                  obind (int_item fr 1) (fun free => Ok (total - free)))))) ;;
  free <- lift (obind (local "free_memory" free_memory) (fun fr => int_item fr 1)) ;;
  let memory_usage := [("memory_in_use", in_use); ("free_memory", free)] in
  dealloc f ;;;
  ret memory_usage.

(** ** Text of numbers: [str(int)], ["%.Nf"], [str(float)] *)

(** [str(n)] of an int. *)
Definition str_int (n : Z) : string := NilZero.string_of_int (Z.to_int n).

Fixpoint zeros (n : nat) : string :=
  match n with
  | O => EmptyString
  | S n' => String "0" (zeros n')
  end.

(** The digits of [n >= 0], padded with zeros on the left to [width]. *)
Definition zero_padded (width : nat) (n : Z) : string :=
  let d := str_int n in
  zeros (width - String.length d) ++ d.

(** [num / den] rounded to the nearest integer, ties to even
    ([0 <= num], [0 < den]). *)
Definition div_nearest_even (num den : Z) : Z :=
  let q := num / den in
  let r := num mod den in
  match 2 * r ?= den with
  | Lt => q
  | Gt => q + 1
  | Eq => if Z.even q then q else q + 1
  end.

Definition sign_text (neg : bool) : string := if neg then "-" else "".

(** The magnitude [m * 2^e] printed with [p] digits after the point. *)
Definition fixed_digits (p : nat) (m : positive) (e : Z) : string :=
  let scale := 10 ^ Z.of_nat p in
  let n := if 0 <=? e then Zpos m * 2 ^ e * scale
           else div_nearest_even (Zpos m * scale) (2 ^ (- e)) in
  match p with
  | O => str_int n
  | _ => str_int (n / scale) ++ "." ++ zero_padded p (n mod scale)
  end.

(** ["%.pf" % x] *)
Definition format_f (p : nat) (x : float) : string :=
  match x with
  | S754_nan => "nan"
  | S754_infinity neg => sign_text neg ++ "inf"
  | S754_zero neg =>
      sign_text neg ++ "0" ++ match p with O => "" | _ => "." ++ zeros p end
  | S754_finite neg m e => sign_text neg ++ fixed_digits p m e
  end.

(** Number of decimal digits of [n > 0]. *)
Definition ndigits (n : Z) : Z := Z.of_nat (String.length (str_int n)).

(** [floor (log10 (num / den))] for [num, den > 0] with [num / den] not a
    negative power of ten. *)
Definition floor_log10 (num den : Z) : Z :=
  if den <=? num then ndigits (num / den) - 1
  else - ndigits (den / num).

(** The decimal [c * 10^(-s)] reads back as the binary64 [m * 2^e]. *)
Definition reads_back (m : positive) (e : Z) (c s : Z) : bool :=
  match float_of_decimal false c (- s) with
  | S754_finite _ m' e' => Pos.eqb m' m && Z.eqb e' e
  | _ => false
  end.

(** The [p]-digit decimals just below and just above [m * 2^e]: the one
    nearest to it among those that read back as it, if any, as [(c, s)]
    for [c * 10^(-s)]. *)
Definition candidate (m : positive) (e : Z) (p : Z) : option (Z * Z) :=
  let num := Zpos m * 2 ^ (Z.max e 0) in
  let den := 2 ^ (Z.max (- e) 0) in
  let s := p - 1 - floor_log10 num den in
  let num' := num * 10 ^ (Z.max s 0) in
  let den' := den * 10 ^ (Z.max (- s) 0) in
  let c := num' / den' in
  let r := num' mod den' in
  let lo := reads_back m e c s in
  let hi := reads_back m e (c + 1) s in
  if lo && hi then
    match 2 * r ?= den' with
    | Lt => Some (c, s)
    | Gt => Some (c + 1, s)
    | Eq => Some (if Z.even c then c else c + 1, s)
    end
  else if lo then Some (c, s)
  else if hi then Some (c + 1, s)
  else None.

(** The shortest decimal that reads back as [m * 2^e]; 17 digits always do. *)
Fixpoint shortest (m : positive) (e : Z) (p : Z) (fuel : nat) : Z * Z :=
  match candidate m e p with
  | Some cs => cs
  | None =>
      match fuel with
      | O => (0, 0)
      | S fuel' => shortest m e (p + 1) fuel'
      end
  end.

Fixpoint strip_zeros_rev (s : list ascii) : list ascii :=
  match s with
  | "0"%char :: s' => strip_zeros_rev s'
  | _ => s
  end.

(** [s] without its trailing zeros. *)
Definition strip_trailing_zeros (s : string) : string :=
  string_of_list_ascii (rev (strip_zeros_rev (rev (list_ascii_of_string s)))).

(** The exponent of the scientific form: a sign and at least two digits. *)
Definition exponent_text (x : Z) : string :=
  (if x <? 0 then "-" else "+") ++ zero_padded 2 (Z.abs x).

Definition substring_from (n : nat) (s : string) : string :=
  String.substring n (String.length s - n) s.

(** The magnitude [m * 2^e] in the form [repr] gives it. *)
Definition repr_digits (m : positive) (e : Z) : string :=
  let (c, s) := shortest m e 1 16 in
  let all := str_int c in
  let digs := strip_trailing_zeros all in
  let n := Z.of_nat (String.length digs) in
  let decpt := Z.of_nat (String.length all) - s in
  if (decpt <=? -4) || (16 <? decpt) then
    String.substring 0 1 digs
      ++ (if 1 <? n then "." ++ substring_from 1 digs else "")
      ++ "e" ++ exponent_text (decpt - 1)
  else if decpt <=? 0 then "0." ++ zeros (Z.to_nat (- decpt)) ++ digs
  else if n <=? decpt then digs ++ zeros (Z.to_nat (decpt - n)) ++ ".0"
  else String.substring 0 (Z.to_nat decpt) digs ++ "."
         ++ substring_from (Z.to_nat decpt) digs.

(** [str(x)] of a float (the same text as [repr(x)]). *)
Definition str_float (x : float) : string :=
  match x with
  | S754_nan => "nan"
  | S754_infinity neg => sign_text neg ++ "inf"
  | S754_zero neg => sign_text neg ++ "0.0"
  | S754_finite neg m e => sign_text neg ++ repr_digits m e
  end.

(** ** The [%] operator on a format string *)

Inductive pyval := PyInt (n : Z) | PyFloat (x : float) | PyStr (s : string).

(** Where the scan of the format stands: in plain text, after a [%] and
    the flags read so far, or in the digits of a precision. *)
Inductive fstate :=
| Text
| Flags (flags : list ascii)
| Precision (flags : list ascii) (p : nat).

Definition is_flag (c : ascii) : bool :=
  match c with
  | "#"%char | "0"%char | "-"%char | " "%char | "+"%char => true
  | _ => false
  end.

Definition only_zero_flags (flags : list ascii) : bool :=
  forallb (fun c => Ascii.eqb c "0") flags.

(** One conversion.  Modelled: an escaped percent (flags allowed between the
    two signs), [f] with an optional precision and no flag but [0], and
    [s] bare; no width anywhere.  The result is the text written and the
    arguments left. *)
Definition convert (flags : list ascii) (p : option nat) (c : ascii)
           (args : list pyval) : outcome (string * list pyval) :=
  match c with
  | "%"%char =>
      match p with
      | None => Ok ("%", args)
      | Some _ => OutOfScope
      end
  | "f"%char =>
      if only_zero_flags flags then
        match args with
        | [] => Raise TypeError                  (* not enough arguments *)
        | PyFloat x :: rest => Ok (format_f (match p with Some n => n | None => 6%nat end) x, rest)
        | PyInt n :: rest =>
            obind (float_of_int n) (fun x =>
            Ok (format_f (match p with Some n => n | None => 6%nat end) x, rest))
        | PyStr _ :: _ => Raise TypeError        (* a float is required *)
        end
      else OutOfScope
  | "s"%char =>
      match flags, p with
      | [], None =>
          match args with
          | [] => Raise TypeError
          | PyInt n :: rest => Ok (str_int n, rest)
          | PyFloat x :: rest => Ok (str_float x, rest)
          | PyStr s :: rest => Ok (s, rest)
          end
      | _, _ => OutOfScope
      end
  | _ => OutOfScope
  end.

Fixpoint format_from (st : fstate) (fmt : string) (args : list pyval) (out : string)
  : outcome string :=
  match fmt with
  | EmptyString =>
      match st with
      | Text =>
          match args with
          | [] => Ok out
          | _ :: _ => Raise TypeError            (* not all arguments converted *)
          end
      | _ => Raise ValueError_format
      end
  | String c fmt' =>
      match st with
      | Text =>
          if Ascii.eqb c "%" then format_from (Flags []) fmt' args out
          else format_from Text fmt' args (out ++ String c EmptyString)
      | Flags flags =>
          if is_flag c then format_from (Flags (c :: flags)) fmt' args out
          else if Ascii.eqb c "." then format_from (Precision flags 0) fmt' args out
          else match digit_of c with
               | Some _ => OutOfScope            (* a width *)
               | None =>
                   obind (convert flags None c args) (fun r =>
                   format_from Text fmt' (snd r) (out ++ fst r))
               end
      | Precision flags p =>
          match digit_of c with
          | Some d => format_from (Precision flags (10 * p + Z.to_nat d)) fmt' args out
          | None =>
              obind (convert flags (Some p) c args) (fun r =>
              format_from Text fmt' (snd r) (out ++ fst r))
          end
      end
  end.

(** [fmt % args] for a tuple [args]. *)
Definition py_format (fmt : string) (args : list pyval) : outcome string :=
  format_from Text fmt args EmptyString.

(** ** The reporter *)

Definition nl : string := String LF EmptyString.

(** The format string of [print_stats], as the source writes it. *)
Definition report_format : string :=
  "Current System Status is:" ++ nl ++ "CPU Utilisation: %0.2f% % " ++ nl
  ++ "Network Interface load: %s"
  ++ " bytes per second" ++ nl ++ "Memory in use: %s MB" ++ nl ++ "Memory free: %s MB".

(** [print_stats(network_adaptor)] *)
Definition print_stats (network_adaptor : string) : Py unit :=
  u <- get_cpu_utilisation 1 ;;
  let cpu_utilisation := f_mul u f_100 in
  usage <- get_memory_usage ;;
  in_use <- lift (dict_get usage "memory_in_use") ;;
  in_use <- lift (float_of_int in_use) ;;
  memory_used <- lift (f_div in_use f_1000) ;;
  usage <- get_memory_usage ;;
  free <- lift (dict_get usage "free_memory") ;;
  free <- lift (float_of_int free) ;;
  free_memory <- lift (f_div free f_1000) ;;
  traffic <- get_network_interface_traffic network_adaptor 1 ;;
  text <- lift (py_format report_format
                  [PyFloat cpu_utilisation; PyInt traffic;
                   PyFloat memory_used; PyFloat free_memory]) ;;
  print text.

(** * Vocabulary of the specification *)

(** The text the [k]-th coming read from offset 0 of [path] gets, when the
    source exists and that text is ASCII. *)
Definition text_at (w : World) (path : string) (k : nat) : option string :=
  match files w path with
  | Some f =>
      let text := f (served w path + k)%nat in
      if all_ascii7 text then Some (universal_newlines text) else None
  | None => None
  end.

(** The sum the sampler takes of the first five numeric fields. *)
Definition total_of (user nice system idle iowait : float) : float :=
  f_add (f_add (f_add (f_add user nice) system) idle) iowait.

(** [line] is a CPU statistics line: a label, then the numeric fields
    [user nice system idle iowait], then any further fields. *)
Definition cpu_line (line : string) (user nice system idle iowait : float) : Prop :=
  exists label us ni sy id io more,
    py_split line = label :: us :: ni :: sy :: id :: io :: more /\
    py_float us = Ok user /\ py_float ni = Ok nice /\ py_float sy = Ok system /\
    py_float id = Ok idle /\ py_float io = Ok iowait.

(** The last line of [lines] that passes [test], if any ([found] when none
    does): what a loop that overwrites its variable at each match, without
    [break], is left with. *)
Fixpoint last_matching (test : string -> bool) (lines : list string)
         (found : option string) : option string :=
  match lines with
  | [] => found
  | line :: rest => last_matching test rest (if test line then Some line else found)
  end.

(** ** Substrings and literal patterns *)

(** [sub] occurs in [s]. *)
Fixpoint contains (sub s : string) : bool :=
  match s with
  | EmptyString => String.prefix sub EmptyString
  | String _ s' => String.prefix sub s || contains sub s'
  end.

(** A character that stands for itself in a pattern. *)
Definition plain (c : ascii) : bool :=
  is_ascii7 c &&
  match c with
  | "\"%char | "."%char | "*"%char | "+"%char | "?"%char | "|"%char
  | "("%char | ")"%char | "["%char | "{"%char | "^"%char | "$"%char => false
  | _ => true
  end.

Fixpoint literal (pattern : string) : bool :=
  match pattern with
  | EmptyString => true
  | String c p => plain c && literal p
  end.

(** The regular expression of a literal pattern. *)
Fixpoint lits (pattern : string) : Re.regex :=
  match pattern with
  | EmptyString => Re.Empty
  | String c p => Re.Cat (Re.Lit c) (lits p)
  end.

(** [line] is the line of interface [name] in [/proc/net/dev]: its first
    field is the name with a colon. *)
Definition interface_line (name line : string) : Prop :=
  exists fields, py_split line = (name ++ ":") :: fields.



(** The scenario of the network sampler, as the specification words it: a
    line for [eth0] whose field 9 reads 1000 at the first scan and 1500 at
    the second, and a line for [lo], are all that is asked of the source. *)
Definition eth0_traffic_as_worded : Prop :=
  forall w sleep_time text1 text2 eth1 eth2 lo1 lo2 field1 field2,
    text_at w "/proc/net/dev" 0 = Some text1 ->
    text_at w "/proc/net/dev" 1 = Some text2 ->
    In eth1 (split_lines text1) -> interface_line "eth0" eth1 ->
    nth_error (py_split eth1) 9 = Some field1 -> py_int field1 = Ok 1000 ->
    In lo1 (split_lines text1) -> interface_line "lo" lo1 ->
    In eth2 (split_lines text2) -> interface_line "eth0" eth2 ->
    nth_error (py_split eth2) 9 = Some field2 -> py_int field2 = Ok 1500 ->
    In lo2 (split_lines text2) -> interface_line "lo" lo2 ->
    0 <= sleep_time ->
    fst (get_network_interface_traffic "eth0" sleep_time w) = Ok 500.

(** ** Errors of the specification *)

(** What a malformed line raises: a field that is missing, or a field that
    is not a number. *)
Definition parse_failure (e : exn) : Prop :=
  e = IndexError \/ exists c literal, e = ValueError c literal.

(** The text an exception carries has [name] in it. *)
Definition carries (e : exn) (name : string) : bool :=
  match e with
  | IOError text | ValueError _ text | UnboundLocalError text | KeyError text =>
      contains name text
  | _ => false
  end.

(** The requirement on a missing interface, as the specification words it:
    when no line of the source matches, the sampler fails with an error
    that is not a parse failure and that carries the interface name. *)
Definition interface_not_found_reported : Prop :=
  forall w interface sleep_time text,
    text_at w "/proc/net/dev" 0 = Some text ->
    Forall (fun l => Re.search interface l = Ok false) (split_lines text) ->
    exists e,
      fst (get_network_interface_traffic interface sleep_time w) = Raise e /\
      ~ parse_failure e /\ carries e interface = true.

(** ** Effects of a run *)

(** The file object [fd] is open on [path]. *)
Definition open_on (fd : nat) (path : string) (w : World) : Prop :=
  exists rest, lookup_handle fd (handles w) = Some (mkHandle path rest).

(** [w'] differs from [w] at most in the file object table and in the
    number of reads of [path]. *)
Definition reads_only (path : string) (w w' : World) : Prop :=
  files w' = files w /\ stdout w' = stdout w /\
  forall q, q <> path -> served w' q = served w q.

(** Exceptions that come from the file object, not from the text read. *)
Definition io_failure (e : exn) : Prop :=
  e = ValueError_closed_file \/ e = ValueError_sleep \/ exists p, e = IOError p.

(** The file object a sampler opens gets the descriptor [next_fd w]; the
    requirement on it, as the specification words it: however the sampler
    ends, that file object is closed. *)
Definition releases_source {A} (sampler : Py A) : Prop :=
  forall w,
    lookup_handle (next_fd w) (handles w) = None ->
    lookup_handle (next_fd w) (handles (snd (sampler w))) = None.

Definition sources_released : Prop :=
  (forall sleep_time, releases_source (get_cpu_utilisation sleep_time)) /\
  (forall interface sleep_time,
      releases_source (get_network_interface_traffic interface sleep_time)) /\
  releases_source get_memory_usage.

(** ** Relations between the world before and after a run *)

(** Every run of [m], however it ends, relates the world before it and the
    world after it by [R]. *)
Definition keeps {A} (R : World -> World -> Prop) (m : Py A) : Prop :=
  forall w o w', m w = (o, w') -> R w w'.

(** Nothing is printed. *)
Definition silent (w w' : World) : Prop := stdout w' = stdout w.

(** A run of [m] that does not return a value has printed nothing. *)
Definition silent_unless_returns {A} (m : Py A) : Prop :=
  forall w o w', m w = (o, w') -> (forall a, o <> Ok a) -> silent w w'.

(** A run of [m] that does not return a value relates the world before it
    and the world after it by [R]. *)
Definition keeps_unless_returns {A} (R : World -> World -> Prop) (m : Py A) : Prop :=
  forall w o w', m w = (o, w') -> (forall a, o <> Ok a) -> R w w'.

(** The sources are the same files. *)
Definition same_files (w w' : World) : Prop := files w' = files w.

(** A file object open on [path] under [fd] stays so. *)
Definition stays_open (fd : nat) (path : string) (w w' : World) : Prop :=
  open_on fd path w -> open_on fd path w'.

(** The file objects with a descriptor below [n] are untouched, and no
    descriptor is given back. *)
Definition older_untouched (n : nat) (w w' : World) : Prop :=
  (next_fd w <= next_fd w')%nat /\
  forall fd, (fd < n)%nat ->
             lookup_handle fd (handles w') = lookup_handle fd (handles w).

(** Every run of [m] that returns a value has slept [d] seconds in all. *)
Definition sleeps {A} (d : Z) (m : Py A) : Prop :=
  forall w a w', m w = (Ok a, w') -> clock w' = clock w + d.

(** Every run of [m] that returns a value has opened [n] file objects. *)
Definition opens {A} (n : nat) (m : Py A) : Prop :=
  forall w a w', m w = (Ok a, w') -> next_fd w' = (next_fd w + n)%nat.

(** ** The report *)

(** The total and the free memory that the memory sampler reads off the
    text of one snapshot of [/proc/meminfo]. *)
Definition meminfo_reading (text : string) : outcome (Z * Z) :=
  obind (scan_meminfo (split_lines text) None None) (fun vars =>
  obind (local "total_memory" (fst vars)) (fun t =>
  obind (int_item t 1) (fun total =>
  obind (local "free_memory" (snd vars)) (fun f =>
  obind (int_item f 1) (fun free => Ok (total, free)))))).

(** The report for a CPU percentage, a byte count and two memory figures
    in megabytes. *)
Definition report_text (cpu : float) (traffic : Z) (memory_used free_memory : float)
  : string :=
  "Current System Status is:" ++ nl
  ++ "CPU Utilisation: " ++ format_f 2 cpu ++ "% " ++ nl
  ++ "Network Interface load: " ++ str_int traffic ++ " bytes per second" ++ nl
  ++ "Memory in use: " ++ str_float memory_used ++ " MB" ++ nl
  ++ "Memory free: " ++ str_float free_memory ++ " MB".

(** Text that a format copies as it is. *)
Fixpoint no_percent (s : string) : bool :=
  match s with
  | EmptyString => true
  | String c s' => negb (Ascii.eqb c "%") && no_percent s'
  end.

(** A numeral with exactly two digits after the point. *)
Definition two_decimals (s : string) : Prop :=
  exists neg whole a b,
    0 <= whole /\ 0 <= a < 10 /\ 0 <= b < 10 /\
    s = sign_text neg ++ str_int whole ++ "." ++ str_int a ++ str_int b.

(** The requirement on the reporter, as the specification words it: one
    call of the memory sampler, so one read of [/proc/meminfo], for each
    report. *)
Definition memory_sampled_once : Prop :=
  forall network_adaptor w w',
    print_stats network_adaptor w = (Ok tt, w') ->
    served w' "/proc/meminfo" = S (served w "/proc/meminfo").

(** ** Checks on concrete sources *)

(** No line of [lines] is selected by a search for [pattern]. *)
Definition none_selected (pattern : string) (lines : list string) : bool :=
  forallb (fun l => match Re.search pattern l with Ok false => true | _ => false end)
          lines.

(** [sub] occurs in no line of [lines] but [line]. *)
Definition occurs_only_in (sub line : string) (lines : list string) : bool :=
  forallb (fun l => String.eqb l line || negb (contains sub l)) lines.

Definition among (line : string) (lines : list string) : bool :=
  existsb (String.eqb line) lines.

(** ** Example sources *)

(** A world with the three kernel files, nothing read or opened yet; file
    descriptors 0 to 2 are the standard streams. *)
Definition kernel (stat dev meminfo : nat -> string) : World :=
  mkWorld (fun path =>
             if String.eqb path "/proc/stat" then Some stat
             else if String.eqb path "/proc/net/dev" then Some dev
             else if String.eqb path "/proc/meminfo" then Some meminfo
             else None)
          (fun _ => O) [] 3 0 EmptyString.

(** [/proc/stat] of the end-to-end scenario of the specification. *)
Definition stat_scenario (n : nat) : string :=
  match n with
  | O => "cpu 100 0 100 700 100 0 0 0 0 0" ++ nl ++ "cpu0 100 0 100 700 100 0 0 0 0 0" ++ nl
  | _ => "cpu 120 0 120 740 120 0 0 0 0 0" ++ nl ++ "cpu0 120 0 120 740 120 0 0 0 0 0" ++ nl
  end.

(** [/proc/stat] with counters that do not move. *)
Definition stat_frozen (n : nat) : string :=
  "cpu 100 0 100 700 100 0 0 0 0 0" ++ nl.

(** [/proc/stat] cut short after three counters. *)
Definition stat_truncated (n : nat) : string := "cpu 100 0 100" ++ nl.

Definition dev_header : string :=
  "Inter-|   Receive                      |  Transmit" ++ nl ++
  " face |bytes packets errs drop fifo frame compressed multicast|bytes packets" ++ nl.

(** [/proc/net/dev] with [lo] and [eth0]; field 9 of the [eth0] line reads
    1000 at the first scan and 1500 afterwards. *)
Definition dev_scenario (n : nat) : string :=
  dev_header ++
  "    lo: 533834 5554 0 0 0 0 0 0 533834 5554 0 0 0 0 0 0" ++ nl ++
  "  eth0: 812345 7000 0 0 0 0 0 0 "
    ++ match n with O => "1000" | _ => "1500" end ++ " 40 0 0 0 0 0 0" ++ nl.

(** [/proc/net/dev] where the [eth0] line has lost its last fields. *)
Definition dev_truncated (n : nat) : string :=
  dev_header ++ "  eth0: 812345 7000 0" ++ nl.

(** [/proc/net/dev] with two lines a search for [eth0] selects. *)
Definition dev_two_matches (n : nat) : string :=
  dev_header ++
  "  eth0: 1 0 0 0 0 0 0 0 "
    ++ match n with O => "1000" | _ => "1500" end ++ " 0 0 0 0 0 0 0" ++ nl ++
  " veth0: 2 0 0 0 0 0 0 0 "
    ++ match n with O => "70" | _ => "99" end ++ " 0 0 0 0 0 0 0" ++ nl.

(** [/proc/net/dev] with [lo], [eth0] and, after them, a third interface
    [veth0]; field 9 of the [eth0] line reads 1000 and then 1500, that of
    the [veth0] line 70 and then 99. *)
Definition dev_with_veth0 (n : nat) : string :=
  dev_header ++
  "    lo: 533834 5554 0 0 0 0 0 0 533834 5554 0 0 0 0 0 0" ++ nl ++
  "  eth0: 812345 7000 0 0 0 0 0 0 "
    ++ match n with O => "1000" | _ => "1500" end ++ " 40 0 0 0 0 0 0" ++ nl ++
  " veth0: 2 0 0 0 0 0 0 0 "
    ++ match n with O => "70" | _ => "99" end ++ " 0 0 0 0 0 0 0" ++ nl.

(** [/proc/meminfo]; the free memory drops between the first read and the
    later ones. *)
Definition meminfo_scenario (n : nat) : string :=
  "MemTotal:       16384256 kB" ++ nl ++
  "MemFree:         " ++ match n with O => "8123456" | _ => "8000000" end ++ " kB" ++ nl ++
  "MemAvailable:   12000000 kB" ++ nl.

(** [/proc/meminfo] with a second line that a search for [MemFree] selects. *)
Definition meminfo_two_matches (n : nat) : string :=
  "MemTotal:       16384256 kB" ++ nl ++
  "MemFree:         8123456 kB" ++ nl ++
  "HugeMemFree:        2048 kB" ++ nl.

(** * Properties *)

Arguments f_add : simpl never.
Arguments f_sub : simpl never.
Arguments f_mul : simpl never.
Arguments f_div : simpl never.
Arguments py_float : simpl never.
Arguments py_int : simpl never.
Arguments py_split : simpl never.
Arguments universal_newlines : simpl never.
Arguments cut_line : simpl never.
Arguments split_lines : simpl never.

(** ** Checks on concrete sources, as propositions *)

Lemma none_selected_sound pattern lines :
  none_selected pattern lines = true ->
  Forall (fun l => Re.search pattern l = Ok false) lines.
Proof.
  unfold none_selected. intro H. apply Forall_forall. intros l Hin.
  rewrite forallb_forall in H. specialize (H l Hin).
  destruct (Re.search pattern l) as [[]| |]; trivial; discriminate.
Qed.

Lemma among_sound line lines : among line lines = true -> In line lines.
Proof.
  unfold among. intro H. apply existsb_exists in H. destruct H as (l & Hin & E).
  apply String.eqb_eq in E. now subst.
Qed.

Lemma occurs_only_in_others sub line lines :
  occurs_only_in sub line lines = true ->
  forall l, In l lines -> l <> line -> contains sub l = false.
Proof.
  unfold occurs_only_in. intros H l Hin Hne.
  rewrite forallb_forall in H. specialize (H l Hin).
  apply orb_prop in H. destruct H as [H|H].
  - apply String.eqb_eq in H. contradiction.
  - now apply negb_true_iff in H.
Qed.


(** ** File objects *)

Lemma lookup_handle_head fd h hs : lookup_handle fd ((fd, h) :: hs) = Some h.
Proof. simpl. now rewrite Nat.eqb_refl. Qed.

Lemma lookup_handle_removed fd hs : lookup_handle fd (remove_handle fd hs) = None.
Proof.
  induction hs as [|[n h] hs IH]; simpl; trivial.
  destruct (Nat.eqb n fd) eqn:E; simpl; trivial. now rewrite E.
Qed.

Lemma open_existing w path k text :
  text_at w path k = Some text ->
  open path w = (Ok (next_fd w), opened path w).
Proof.
  unfold text_at, open. destruct (files w path); [reflexivity | discriminate].
Qed.

Lemma pending_at_start w fd path text :
  lookup_handle fd (handles w) = Some (mkHandle path None) ->
  text_at w path 0 = Some text ->
  pending fd w = (Ok text, fetched path w).
Proof.
  unfold text_at, pending. intros -> H. simpl.
  destruct (files w path) as [f|]; [|discriminate].
  rewrite Nat.add_0_r in H.
  destruct (all_ascii7 (f (served w path))); [|discriminate].
  now inversion H.
Qed.

Lemma text_at_fetched w path k :
  text_at (fetched path w) path k = text_at w path (S k).
Proof.
  unfold text_at, fetched, upd. simpl. rewrite String.eqb_refl.
  now rewrite Nat.add_succ_r.
Qed.

Lemma text_at_later w w' path k k' :
  files w' = files w ->
  (served w' path + k' = served w path + k)%nat ->
  text_at w' path k' = text_at w path k.
Proof. unfold text_at. now intros -> ->. Qed.

(** Side conditions on the text a later read gets. *)
Ltac later_text H :=
  rewrite <- H; apply text_at_later;
  [ reflexivity
  | cbn [served fetched opened slept set_handle with_handles]; unfold upd;
    rewrite ?String.eqb_refl; lia ].

Lemma readline_at_start w fd path text :
  lookup_handle fd (handles w) = Some (mkHandle path None) ->
  text_at w path 0 = Some text ->
  readline fd w =
    (Ok (fst (cut_line text)),
     set_handle fd (mkHandle path (Some (snd (cut_line text)))) (fetched path w)).
Proof.
  intros Hh Ht. unfold readline, bind. rewrite (pending_at_start _ _ _ _ Hh Ht).
  destruct (cut_line text) as [line rest]. unfold set_rest.
  change (handles (fetched path w)) with (handles w). now rewrite Hh.
Qed.

Lemma readlines_at_start w fd path text :
  lookup_handle fd (handles w) = Some (mkHandle path None) ->
  text_at w path 0 = Some text ->
  readlines fd w =
    (Ok (split_lines text),
     set_handle fd (mkHandle path (Some EmptyString)) (fetched path w)).
Proof.
  intros Hh Ht. unfold readlines, bind. rewrite (pending_at_start _ _ _ _ Hh Ht).
  unfold set_rest. change (handles (fetched path w)) with (handles w). now rewrite Hh.
Qed.

Lemma seek0_open w fd path rest :
  lookup_handle fd (handles w) = Some (mkHandle path rest) ->
  seek0 fd w = (Ok tt, set_handle fd (mkHandle path None) w).
Proof. unfold seek0, set_rest. now intros ->. Qed.

Lemma time_sleep_ok w secs :
  0 <= secs -> time_sleep secs w = (Ok tt, slept secs w).
Proof.
  intro H. unfold time_sleep. destruct (Z.ltb_spec secs 0); [lia | reflexivity].
Qed.

(** ** The CPU sampler *)

(** The sampler up to its [f.close()]: with two CPU statistics lines it
    reaches the division with the file object closed. *)
Lemma get_cpu_utilisation_run w sleep_time text1 text2 u1 n1 s1 i1 io1 u2 n2 s2 i2 io2 :
  text_at w "/proc/stat" 0 = Some text1 ->
  text_at w "/proc/stat" 1 = Some text2 ->
  cpu_line (fst (cut_line text1)) u1 n1 s1 i1 io1 ->
  cpu_line (fst (cut_line text2)) u2 n2 s2 i2 io2 ->
  0 <= sleep_time ->
  exists w',
    lookup_handle (next_fd w) (handles w') = None /\
    get_cpu_utilisation sleep_time w =
      match f_div (f_sub i2 i1)
                  (f_sub (total_of u2 n2 s2 i2 io2) (total_of u1 n1 s1 i1 io1)) with
      | Ok q => (Ok (f_sub f_1 q), w')
      | Raise e => (Raise e, w')
      | OutOfScope => (OutOfScope, w')
      end.
Proof.
  intros T1 T2 (lb1 & a1 & b1 & c1 & d1 & e1 & m1 & S1 & A1 & B1 & C1 & D1 & E1)
         (lb2 & a2 & b2 & c2 & d2 & e2 & m2 & S2 & A2 & B2 & C2 & D2 & E2) Hs.
  unfold get_cpu_utilisation.
  unfold bind at 1. rewrite (open_existing _ _ _ _ T1).
  unfold bind at 1.
  rewrite (readline_at_start _ (next_fd w) "/proc/stat" text1);
    [| apply lookup_handle_head | exact T1].
  rewrite S1. unfold float_item, lift, bind at 1 2 3 4 5 6. simpl item_at. simpl obind.
  rewrite A1, B1, C1, D1, E1.
  unfold bind at 1. rewrite (time_sleep_ok _ _ Hs).
  unfold bind at 1.
  rewrite (seek0_open _ (next_fd w) "/proc/stat" (Some (snd (cut_line text1))));
    [| apply lookup_handle_head].
  unfold bind at 1.
  rewrite (readline_at_start _ (next_fd w) "/proc/stat" text2);
    [| apply lookup_handle_head | later_text T2].
  rewrite S2. unfold bind at 1 2 3 4 5 6. simpl item_at. simpl obind.
  rewrite A2, B2, C2, D2, E2.
  unfold bind, close, ret, total_of.
  eexists. split; [| destruct (f_div _ _); reflexivity].
  cbn [handles with_handles]. apply lookup_handle_removed.
Qed.

(** On finite floats Python's [x == y] leaves no difference: [x - y] is a
    zero. *)
Lemma equal_finite_difference x y :
  is_finite y = true -> SFeqb x y = true -> is_zero (f_sub x y) = true.
Proof.
  unfold SFeqb, f_sub.
  destruct x as [sx|sx| |sx mx ex], y as [sy|sy| |sy my ey]; simpl;
    try discriminate; intros _ H;
    try (now destruct sx, sy); try (now destruct sx); try (now destruct sy).
  assert (E : sx = sy /\ ex = ey /\ mx = my).
    { destruct sx, sy; try discriminate;
        destruct (Z.compare ex ey) eqn:Ce; try discriminate;
        apply Z.compare_eq in Ce;
        destruct (Pos.compare_cont Eq mx my) eqn:Cm; try discriminate;
        apply Pos.compare_eq in Cm; auto. }
  destruct E as (-> & -> & ->).
  rewrite Z.sub_diag. reflexivity.
Qed.

(** C1. For two CPU statistics lines read one interval apart, with idle the
    fourth numeric field after the label and total the sum of the first
    five numeric fields, [get_cpu_utilisation] returns
    [1 - (idle_2 - idle_1) / (total_2 - total_1)] (binary64 arithmetic, the
    total delta not zero); with the fields [100 0 100 700 100 ...] and then
    [120 0 120 740 120 ...] it returns the float [0.60]. *)
Theorem get_cpu_utilisation_formula :
  (forall w sleep_time text1 text2 u1 n1 s1 i1 io1 u2 n2 s2 i2 io2,
      text_at w "/proc/stat" 0 = Some text1 ->
      text_at w "/proc/stat" 1 = Some text2 ->
      cpu_line (fst (cut_line text1)) u1 n1 s1 i1 io1 ->
      cpu_line (fst (cut_line text2)) u2 n2 s2 i2 io2 ->
      0 <= sleep_time ->
      is_zero (f_sub (total_of u2 n2 s2 i2 io2) (total_of u1 n1 s1 i1 io1)) = false ->
      fst (get_cpu_utilisation sleep_time w) =
        Ok (f_sub f_1
              (SFdiv prec emax (f_sub i2 i1)
                 (f_sub (total_of u2 n2 s2 i2 io2) (total_of u1 n1 s1 i1 io1)))))
  /\
  (forall w sleep_time text1 text2,
      text_at w "/proc/stat" 0 = Some text1 ->
      text_at w "/proc/stat" 1 = Some text2 ->
      py_split (fst (cut_line text1)) =
        ["cpu"; "100"; "0"; "100"; "700"; "100"; "0"; "0"; "0"; "0"; "0"] ->
      py_split (fst (cut_line text2)) =
        ["cpu"; "120"; "0"; "120"; "740"; "120"; "0"; "0"; "0"; "0"; "0"] ->
      0 <= sleep_time ->
      fst (get_cpu_utilisation sleep_time w) = py_float "0.60").
Proof.
  assert (G : forall w sleep_time text1 text2 u1 n1 s1 i1 io1 u2 n2 s2 i2 io2,
      text_at w "/proc/stat" 0 = Some text1 ->
      text_at w "/proc/stat" 1 = Some text2 ->
      cpu_line (fst (cut_line text1)) u1 n1 s1 i1 io1 ->
      cpu_line (fst (cut_line text2)) u2 n2 s2 i2 io2 ->
      0 <= sleep_time ->
      is_zero (f_sub (total_of u2 n2 s2 i2 io2) (total_of u1 n1 s1 i1 io1)) = false ->
      fst (get_cpu_utilisation sleep_time w) =
        Ok (f_sub f_1
              (SFdiv prec emax (f_sub i2 i1)
                 (f_sub (total_of u2 n2 s2 i2 io2) (total_of u1 n1 s1 i1 io1))))).
  { intros w st text1 text2 u1 n1 s1 i1 io1 u2 n2 s2 i2 io2 T1 T2 L1 L2 Hs Hz.
    destruct (get_cpu_utilisation_run _ _ _ _ _ _ _ _ _ _ _ _ _ _ T1 T2 L1 L2 Hs)
      as (w' & _ & ->).
    unfold f_div. now rewrite Hz. }
  split; [exact G|].
  intros w st text1 text2 T1 T2 S1 S2 Hs.
  destruct (py_float "100") as [c100| |] eqn:E100; try discriminate.
  destruct (py_float "0") as [c0| |] eqn:E0; try discriminate.
  destruct (py_float "700") as [c700| |] eqn:E700; try discriminate.
  destruct (py_float "120") as [c120| |] eqn:E120; try discriminate.
  destruct (py_float "740") as [c740| |] eqn:E740; try discriminate.
  rewrite (G w st text1 text2 c100 c0 c100 c700 c100 c120 c0 c120 c740 c120 T1 T2);
    trivial.
  - vm_compute in E100, E0, E700, E120, E740.
    injection E100 as <-. injection E0 as <-. injection E700 as <-.
    injection E120 as <-. injection E740 as <-. vm_compute. reflexivity.
  - unfold cpu_line. rewrite S1. repeat eexists; first [eassumption | reflexivity].
  - unfold cpu_line. rewrite S2. repeat eexists; first [eassumption | reflexivity].
  - vm_compute in E100, E0, E700, E120, E740.
    injection E100 as <-. injection E0 as <-. injection E700 as <-.
    injection E120 as <-. injection E740 as <-. vm_compute. reflexivity.
Qed.

(** C4. When the two readings have equal totals the sampler ends in
    [ZeroDivisionError] (the fatal error of a zero total-time delta) and
    returns no value, so neither 0 nor a NaN nor an infinity. *)
Theorem get_cpu_utilisation_degenerate
        w sleep_time text1 text2 u1 n1 s1 i1 io1 u2 n2 s2 i2 io2 :
  text_at w "/proc/stat" 0 = Some text1 ->
  text_at w "/proc/stat" 1 = Some text2 ->
  cpu_line (fst (cut_line text1)) u1 n1 s1 i1 io1 ->
  cpu_line (fst (cut_line text2)) u2 n2 s2 i2 io2 ->
  0 <= sleep_time ->
  is_finite (total_of u1 n1 s1 i1 io1) = true ->
  SFeqb (total_of u2 n2 s2 i2 io2) (total_of u1 n1 s1 i1 io1) = true ->
  fst (get_cpu_utilisation sleep_time w) = Raise ZeroDivisionError /\
  forall v, fst (get_cpu_utilisation sleep_time w) <> Ok v.
Proof.
  intros T1 T2 L1 L2 Hs Hf He.
  destruct (get_cpu_utilisation_run _ _ _ _ _ _ _ _ _ _ _ _ _ _ T1 T2 L1 L2 Hs)
    as (w' & _ & ->).
  unfold f_div. rewrite (equal_finite_difference _ _ Hf He).
  split; [reflexivity | discriminate].
Qed.

(** C1, at the scenario of the specification. *)
Lemma get_cpu_utilisation_formula_witness :
  fst (get_cpu_utilisation 1 (kernel stat_scenario dev_scenario meminfo_scenario))
  = Ok (S754_finite false 5404319552844595 (-53)).
Proof.
  refine (eq_trans
            (proj2 get_cpu_utilisation_formula _ 1
               (universal_newlines (stat_scenario 0)) (universal_newlines (stat_scenario 1))
               _ _ _ _ _) _).
  - vm_compute; reflexivity.
  - vm_compute; reflexivity.
  - vm_compute; reflexivity.
  - vm_compute; reflexivity.
  - lia.
  - vm_compute; reflexivity.
Defined.

(** C4, at a source whose counters do not move. *)
Lemma get_cpu_utilisation_degenerate_witness :
  fst (get_cpu_utilisation 1 (kernel stat_frozen dev_scenario meminfo_scenario))
  = Raise ZeroDivisionError.
Proof.
  assert (L : cpu_line (fst (cut_line (universal_newlines (stat_frozen 0))))
                f_100 (S754_zero false) f_100
                (S754_finite false 6157265115545600 (-43)) f_100).
  { exists "cpu", "100", "0", "100", "700", "100", ["0"; "0"; "0"; "0"; "0"].
    repeat split; vm_compute; reflexivity. }
  refine (proj1 (get_cpu_utilisation_degenerate _ 1
            (universal_newlines (stat_frozen 0)) (universal_newlines (stat_frozen 1))
            _ _ _ _ _ _ _ _ _ _ _ _ L L _ _ _)).
  - vm_compute; reflexivity.
  - vm_compute; reflexivity.
  - lia.
  - vm_compute; reflexivity.
  - vm_compute; reflexivity.
Defined.

(** ** Loops that keep the last match *)

Lemma search_compiled pattern line b :
  Re.search pattern line = Ok b ->
  exists r, Re.compile pattern = Ok r /\ b = Re.search_regex r line.
Proof.
  unfold Re.search. destruct (Re.compile pattern) as [r| |]; simpl; try discriminate.
  intro H. exists r. split; [reflexivity | now inversion H].
Qed.

Lemma search_of_compiled pattern r line :
  Re.compile pattern = Ok r ->
  Re.search pattern line = Ok (Re.search_regex r line).
Proof. unfold Re.search. now intros ->. Qed.

Lemma last_matching_found test lines line :
  last_matching test lines (Some line) =
    match last_matching test lines None with
    | Some l => Some l
    | None => Some line
    end.
Proof.
  revert line. induction lines as [|l lines IH]; intro line; simpl; trivial.
  destruct (test l); [| apply IH].
  rewrite IH. now destruct (last_matching test lines None).
Qed.

Lemma last_matching_none test lines found :
  Forall (fun l => test l = false) lines ->
  last_matching test lines found = found.
Proof.
  intro H. revert found. induction H as [|l lines Hl _ IH]; intro found; simpl; trivial.
  rewrite Hl. apply IH.
Qed.

Lemma last_matching_last test pre line post found :
  test line = true ->
  Forall (fun l => test l = false) post ->
  last_matching test (pre ++ line :: post) found = Some line.
Proof.
  intros Hl Hp. revert found. induction pre as [|l pre IH]; intro found; simpl.
  - rewrite Hl. now apply last_matching_none.
  - apply IH.
Qed.

(** A list that holds [x] splits at the last place where [x] stands. *)
Lemma in_split_last (x : string) (l : list string) :
  In x l -> exists pre post, l = (pre ++ x :: post)%list /\ ~ In x post.
Proof.
  induction l as [|y l IH]; intro H; [destruct H|].
  destruct (in_dec string_dec x l) as [Hin|Hout].
  - destruct (IH Hin) as (pre & post & -> & Hn). now exists (y :: pre), post.
  - destruct H as [->|H]; [| contradiction]. now exists [], l.
Qed.

Lemma last_matching_only test lines line found :
  In line lines ->
  test line = true ->
  (forall l, In l lines -> test l = true -> l = line) ->
  last_matching test lines found = Some line.
Proof.
  intros Hin Ht Hu.
  destruct (in_split_last _ _ Hin) as (pre & post & -> & Hn).
  apply last_matching_last; trivial.
  apply Forall_forall. intros l Hl.
  destruct (test l) eqn:E; trivial.
  exfalso. apply Hn. rewrite <- (Hu l); trivial.
  apply in_or_app. right. now right.
Qed.

(** The loop of the network sampler leaves [network_stats] with the fields
    of the last matching line, or as it was. *)
Lemma scan_interface_last interface r lines network_stats :
  Re.compile interface = Ok r ->
  scan_interface interface lines network_stats =
    Ok match last_matching (Re.search_regex r) lines None with
       | Some line => py_split line
       | None => network_stats
       end.
Proof.
  intro C. revert network_stats.
  induction lines as [|l lines IH]; intro stats; simpl; trivial.
  rewrite (search_of_compiled _ _ l C). simpl. rewrite IH.
  destruct (Re.search_regex r l); trivial.
  rewrite last_matching_found. now destruct (last_matching _ lines None).
Qed.

Lemma scan_interface_no_match interface lines network_stats :
  Forall (fun l => Re.search interface l = Ok false) lines ->
  scan_interface interface lines network_stats = Ok network_stats.
Proof.
  intro H. revert network_stats.
  induction H as [|l lines Hl _ IH]; intro stats; simpl; trivial.
  rewrite Hl. simpl. apply IH.
Qed.

(** The loop of the memory sampler, likewise for each of its variables. *)
Lemma scan_meminfo_last rt rf lines total_memory free_memory :
  Re.compile "MemTotal:" = Ok rt ->
  Re.compile "MemFree" = Ok rf ->
  scan_meminfo lines total_memory free_memory =
    Ok (match last_matching (Re.search_regex rt) lines None with
        | Some line => Some (py_split line)
        | None => total_memory
        end,
        match last_matching (Re.search_regex rf) lines None with
        | Some line => Some (py_split line)
        | None => free_memory
        end).
Proof.
  intros Ct Cf. revert total_memory free_memory.
  induction lines as [|l lines IH]; intros t f; trivial.
  cbn [scan_meminfo last_matching].
  rewrite (search_of_compiled _ _ l Ct), (search_of_compiled _ _ l Cf).
  cbn [obind]. rewrite IH.
  destruct (Re.search_regex rt l), (Re.search_regex rf l);
    rewrite ?last_matching_found;
    destruct (last_matching (Re.search_regex rt) lines None),
             (last_matching (Re.search_regex rf) lines None); reflexivity.
Qed.

(** ** Literal patterns search for a substring *)

Lemma match_here_alt r1 r2 s :
  Re.match_here (Re.Alt r1 r2) s = Re.match_here r1 s || Re.match_here r2 s.
Proof.
  revert r1 r2. induction s as [|c s IH]; intros r1 r2; simpl; trivial.
  rewrite IH.
  destruct (Re.nullable r1), (Re.nullable r2), (Re.match_here (Re.deriv c r1) s);
    reflexivity.
Qed.

Lemma match_here_cat_fail r s : Re.match_here (Re.Cat Re.Fail r) s = false.
Proof. induction s as [|c s IH]; simpl; trivial. Qed.

Lemma match_here_cat_empty r s :
  Re.match_here (Re.Cat Re.Empty r) s = Re.match_here r s.
Proof.
  revert r. induction s as [|c s IH]; intro r; simpl; trivial.
  now rewrite match_here_alt, match_here_cat_fail.
Qed.

Lemma match_here_lits pattern s :
  Re.match_here (lits pattern) s = String.prefix pattern s.
Proof.
  revert s. induction pattern as [|c p IH]; intro s.
  - destruct s; reflexivity.
  - destruct s as [|d s]; simpl; trivial.
    destruct (ascii_dec c d) as [->|Hn].
    + rewrite Ascii.eqb_refl. now rewrite match_here_cat_empty.
    + destruct (Ascii.eqb_spec d c) as [->|_]; [congruence|].
      apply match_here_cat_fail.
Qed.

Lemma search_regex_lits pattern s :
  Re.search_regex (lits pattern) s = contains pattern s.
Proof.
  induction s as [|c s IH].
  - destruct pattern; reflexivity.
  - cbn [Re.search_regex contains]. now rewrite match_here_lits, IH.
Qed.

Lemma step_plain st c :
  plain c = true -> Re.p_esc st = false ->
  Re.step st c = Ok (Re.push_item (Re.Simple (Re.Lit c)) st).
Proof.
  unfold plain, Re.step. intros H ->.
  apply andb_prop in H. destruct H as [H7 H]. rewrite H7.
  destruct c as [[] [] [] [] [] [] [] []]; try discriminate; reflexivity.
Qed.

Lemma regex_of_seq_cons pattern seq :
  fold_left (fun acc i => Re.Cat (Re.item_regex i) acc)
            (rev (map (fun c => Re.Simple (Re.Lit c)) (list_ascii_of_string pattern)))
            seq
  = fold_right (fun c acc => Re.Cat (Re.Lit c) acc) seq (list_ascii_of_string pattern).
Proof.
  induction (list_ascii_of_string pattern) as [|c l IH]; simpl; trivial.
  rewrite fold_left_app. simpl. now rewrite IH.
Qed.

Lemma lits_fold pattern :
  lits pattern =
    fold_right (fun c acc => Re.Cat (Re.Lit c) acc) Re.Empty (list_ascii_of_string pattern).
Proof. induction pattern as [|c p IH]; simpl; trivial. now rewrite IH. Qed.

Lemma parse_literal pattern stack alts seq fresh :
  literal pattern = true ->
  Re.parse_from (Re.mkPstate stack (Re.mkFrame alts seq fresh) false) pattern =
  Re.parse_from
    (Re.mkPstate stack
       (Re.mkFrame alts
          (rev (map (fun c => Re.Simple (Re.Lit c)) (list_ascii_of_string pattern)) ++ seq)
          (match pattern with EmptyString => fresh | _ => false end))
       false) EmptyString.
Proof.
  revert seq fresh. induction pattern as [|c p IH]; intros seq fresh H; trivial.
  simpl in H. apply andb_prop in H. destruct H as [Hc Hp].
  cbn [Re.parse_from]. rewrite step_plain; [| exact Hc | reflexivity]. cbn [obind].
  unfold Re.push_item. cbn [Re.p_cur Re.p_stack Re.f_alts Re.f_seq].
  rewrite (IH _ _ Hp). cbn [list_ascii_of_string map rev].
  rewrite <- app_assoc. simpl app.
  destruct p; reflexivity.
Qed.

Lemma compile_literal pattern :
  literal pattern = true -> Re.compile pattern = Ok (lits pattern).
Proof.
  intro H. unfold Re.compile. rewrite (parse_literal _ _ _ _ _ H).
  cbn [Re.parse_from Re.p_esc Re.p_stack Re.p_cur].
  unfold Re.regex_of_frame, Re.regex_of_seq. cbn [Re.f_alts Re.f_seq fold_left].
  rewrite app_nil_r, regex_of_seq_cons. now rewrite lits_fold.
Qed.

(** A pattern without special characters is searched for as a substring. *)
Lemma search_literal pattern s :
  literal pattern = true -> Re.search pattern s = Ok (contains pattern s).
Proof.
  intro H. rewrite (search_of_compiled _ _ _ (compile_literal _ H)).
  now rewrite search_regex_lits.
Qed.

Lemma prefix_append p s : String.prefix p (p ++ s) = true.
Proof.
  induction p as [|c p IH]; simpl; [now destruct s|].
  destruct (ascii_dec c c); [exact IH | congruence].
Qed.

Lemma prefix_split p s : String.prefix p s = true -> exists b, s = p ++ b.
Proof.
  revert s. induction p as [|c p IH]; intros s H; [now exists s|].
  destruct s as [|d s]; simpl in H; [discriminate|].
  destruct (ascii_dec c d) as [->|]; [|discriminate].
  destruct (IH _ H) as [b ->]. now exists b.
Qed.

Lemma append_assoc (a b c : string) : (a ++ b) ++ c = a ++ (b ++ c).
Proof. induction a as [|x a IH]; simpl; trivial. now rewrite IH. Qed.

Lemma contains_iff sub s :
  contains sub s = true <-> exists a b, s = a ++ sub ++ b.
Proof.
  split.
  - induction s as [|c s IH]; cbn [contains]; intro H.
    + destruct (prefix_split _ _ H) as [b Hb]. now exists EmptyString, b.
    + apply orb_prop in H. destruct H as [H|H].
      * destruct (prefix_split _ _ H) as [b Hb]. now exists EmptyString, b.
      * destruct (IH H) as (a & b & ->). now exists (String c a), b.
  - intros (a & b & ->). induction a as [|c a IH].
    + change (EmptyString ++ sub ++ b) with (sub ++ b).
      destruct (sub ++ b) as [|c r] eqn:E.
      * destruct sub; [reflexivity | discriminate].
      * cbn [contains]. rewrite <- E, prefix_append. reflexivity.
    + change (String c a ++ sub ++ b) with (String c (a ++ sub ++ b)).
      cbn [contains]. rewrite IH. apply orb_true_r.
Qed.

Lemma contains_trans p t s :
  contains p t = true -> contains t s = true -> contains p s = true.
Proof.
  rewrite !contains_iff. intros (a & b & ->) (a' & b' & ->).
  exists (a' ++ a), (b ++ b'). now rewrite !append_assoc.
Qed.

Lemma py_split_cons c s :
  py_split (String c s) =
    if isspace c then py_split s
    else match s with
         | EmptyString => [String c EmptyString]
         | String c' _ =>
             if isspace c' then String c EmptyString :: py_split s
             else match py_split s with
                  | t :: ts => String c t :: ts
                  | [] => [String c EmptyString]
                  end
         end.
Proof. reflexivity. Qed.

(** The first field of a line that starts with a field starts the line. *)
Lemma first_field_prefix c s :
  isspace c = false ->
  exists t ts, py_split (String c s) = t :: ts /\ String.prefix t (String c s) = true.
Proof.
  revert c. induction s as [|d s IH]; intros c Hc; rewrite py_split_cons, Hc.
  - exists (String c EmptyString), []. split; trivial.
    simpl. now destruct (ascii_dec c c).
  - destruct (isspace d) eqn:Hd.
    + exists (String c EmptyString), (py_split (String d s)). split; trivial.
      simpl. now destruct (ascii_dec c c).
    + destruct (IH d Hd) as (t & ts & -> & Hp).
      exists (String c t), ts. split; trivial.
      simpl. now destruct (ascii_dec c c).
Qed.

(** Every field of a line occurs in the line. *)
Lemma field_in_line t s : In t (py_split s) -> contains t s = true.
Proof.
  induction s as [|c s IH]; [intros []|].
  intro H. cbn [contains].
  destruct (isspace c) eqn:Hc.
  - rewrite py_split_cons, Hc in H. rewrite (IH H). apply orb_true_r.
  - destruct (first_field_prefix c s Hc) as (t0 & ts & E & Hp).
    rewrite E in H. destruct H as [<-|H]; [now rewrite Hp|].
    assert (Hs : In t (py_split s)).
    { rewrite py_split_cons, Hc in E. destruct s as [|d s']; [now inversion E; subst|].
      destruct (isspace d); [now inversion E; subst|].
      destruct (py_split (String d s')); inversion E; subst; [destruct H | now right]. }
    rewrite (IH Hs). apply orb_true_r.
Qed.

Lemma no_match_literal pattern lines :
  literal pattern = true ->
  Forall (fun l => Re.search pattern l = Ok false) lines ->
  Forall (fun l => contains pattern l = false) lines.
Proof.
  intros L H. induction H as [|l lines Hl _ IH]; constructor; trivial.
  rewrite (search_literal _ _ L) in Hl. congruence.
Qed.

(** The line of an interface is one a search for its name selects. *)
Lemma interface_line_selected name line :
  literal name = true ->
  interface_line name line ->
  Re.search name line = Ok true.
Proof.
  intros Hl [fields Hf]. rewrite (search_literal _ _ Hl). f_equal.
  apply contains_trans with (name ++ ":").
  - apply contains_iff. now exists EmptyString, ":".
  - apply field_in_line. rewrite Hf. now left.
Qed.

(** ** The network sampler *)

(** Two scans that both give a reading: the sampler returns their
    difference, with its file object closed. *)
Lemma get_network_interface_traffic_run
      w interface sleep_time text1 text2 stats1 stats2 reading1 reading2 :
  text_at w "/proc/net/dev" 0 = Some text1 ->
  text_at w "/proc/net/dev" 1 = Some text2 ->
  scan_interface interface (split_lines text1) (split_lines text1) = Ok stats1 ->
  scan_interface interface (split_lines text2) (split_lines text2) = Ok stats2 ->
  int_item stats1 9 = Ok reading1 ->
  int_item stats2 9 = Ok reading2 ->
  0 <= sleep_time ->
  exists w',
    lookup_handle (next_fd w) (handles w') = None /\
    get_network_interface_traffic interface sleep_time w = (Ok (reading2 - reading1), w').
Proof.
  intros T1 T2 S1 S2 R1 R2 Hs.
  unfold get_network_interface_traffic.
  unfold bind at 1. rewrite (open_existing _ _ _ _ T1).
  unfold bind at 1.
  rewrite (readlines_at_start _ (next_fd w) "/proc/net/dev" text1);
    [| apply lookup_handle_head | exact T1].
  unfold lift, bind at 1 2. rewrite S1, R1.
  unfold bind at 1. rewrite (time_sleep_ok _ _ Hs).
  unfold bind at 1.
  rewrite (seek0_open _ (next_fd w) "/proc/net/dev" (Some EmptyString));
    [| apply lookup_handle_head].
  unfold bind at 1.
  rewrite (readlines_at_start _ (next_fd w) "/proc/net/dev" text2);
    [| apply lookup_handle_head | later_text T2].
  unfold bind at 1 2. rewrite S2, R2.
  unfold bind, close, ret.
  eexists. split; [| reflexivity].
  cbn [handles with_handles]. apply lookup_handle_removed.
Qed.

(** A first scan that gives no reading: the sampler ends there, before its
    [f.close()]. *)
Lemma get_network_interface_traffic_no_reading
      w interface sleep_time text1 stats1 e :
  text_at w "/proc/net/dev" 0 = Some text1 ->
  scan_interface interface (split_lines text1) (split_lines text1) = Ok stats1 ->
  int_item stats1 9 = Raise e ->
  exists w',
    lookup_handle (next_fd w) (handles w')
      = Some (mkHandle "/proc/net/dev" (Some EmptyString)) /\
    get_network_interface_traffic interface sleep_time w = (Raise e, w').
Proof.
  intros T1 S1 R1.
  unfold get_network_interface_traffic.
  unfold bind at 1. rewrite (open_existing _ _ _ _ T1).
  unfold bind at 1.
  rewrite (readlines_at_start _ (next_fd w) "/proc/net/dev" text1);
    [| apply lookup_handle_head | exact T1].
  unfold lift, bind at 1 2. rewrite S1, R1.
  eexists. split; [| reflexivity].
  apply lookup_handle_head.
Qed.

(** The fields the loop leaves when [line] is the last line selected. *)
Lemma scan_interface_selects interface pre line post network_stats :
  Re.search interface line = Ok true ->
  Forall (fun l => Re.search interface l = Ok false) post ->
  scan_interface interface (pre ++ line :: post) network_stats = Ok (py_split line).
Proof.
  intros Hl Hp. destruct (search_compiled _ _ _ Hl) as (r & C & Hr).
  rewrite (scan_interface_last _ r _ _ C).
  rewrite (last_matching_last _ pre line post); [reflexivity | now symmetry |].
  apply Forall_forall. intros l Hin.
  rewrite Forall_forall in Hp. specialize (Hp l Hin).
  rewrite (search_of_compiled _ _ _ C) in Hp. now inversion Hp.
Qed.

(** The fields the loop leaves when [line] is the only line selected. *)
Lemma scan_interface_only interface lines line network_stats :
  In line lines ->
  Re.search interface line = Ok true ->
  (forall l, In l lines -> Re.search interface l = Ok true -> l = line) ->
  scan_interface interface lines network_stats = Ok (py_split line).
Proof.
  intros Hin Hl Hu. destruct (search_compiled _ _ _ Hl) as (r & C & Hr).
  rewrite (scan_interface_last _ r _ _ C).
  rewrite (last_matching_only _ lines line); [reflexivity | exact Hin | now symmetry |].
  intros l Hi Ht. apply Hu; trivial.
  rewrite (search_of_compiled _ _ _ C). now rewrite Ht.
Qed.

(** C2, refuted as worded: with a third interface [veth0] listed after
    [eth0], the source still has its [eth0] line, reading 1000 and then
    1500, and its [lo] line, and the sampler returns 99 - 70 = 29.  The
    search for [eth0] selects the [veth0] line too, the loop has no
    [break], and the last line selected is the one that is read. *)
Lemma eth0_traffic_counterexample : ~ eth0_traffic_as_worded.
Proof.
  intro H.
  assert (E : fst (get_network_interface_traffic "eth0" 1
                     (kernel stat_scenario dev_with_veth0 meminfo_scenario)) = Ok 500).
  { apply (H _ 1
             (universal_newlines (dev_with_veth0 0))
             (universal_newlines (dev_with_veth0 1))
             ("  eth0: 812345 7000 0 0 0 0 0 0 1000 40 0 0 0 0 0 0" ++ nl)
             ("  eth0: 812345 7000 0 0 0 0 0 0 1500 40 0 0 0 0 0 0" ++ nl)
             ("    lo: 533834 5554 0 0 0 0 0 0 533834 5554 0 0 0 0 0 0" ++ nl)
             ("    lo: 533834 5554 0 0 0 0 0 0 533834 5554 0 0 0 0 0 0" ++ nl)
             "1000" "1500").
    - vm_compute; reflexivity.
    - vm_compute; reflexivity.
    - apply among_sound. vm_compute; reflexivity.
    - eexists. vm_compute; reflexivity.
    - vm_compute; reflexivity.
    - vm_compute; reflexivity.
    - apply among_sound. vm_compute; reflexivity.
    - eexists. vm_compute; reflexivity.
    - apply among_sound. vm_compute; reflexivity.
    - eexists. vm_compute; reflexivity.
    - vm_compute; reflexivity.
    - vm_compute; reflexivity.
    - apply among_sound. vm_compute; reflexivity.
    - eexists. vm_compute; reflexivity.
    - lia. }
  assert (E' : fst (get_network_interface_traffic "eth0" 1
                      (kernel stat_scenario dev_with_veth0 meminfo_scenario)) = Ok 29)
    by (vm_compute; reflexivity).
  rewrite E' in E. discriminate E.
Qed.

(** C2, amended. With a line for [eth0] whose field 9 reads 1000 at the
    first scan and 1500 at the second, a line for [lo] present, and [eth0]
    occurring in no other line of either scan,
    [get_network_interface_traffic("eth0")] returns 500, whatever the [lo]
    line and the other lines hold. *)
Theorem eth0_traffic w sleep_time text1 text2 eth1 eth2 lo1 lo2 field1 field2 :
  text_at w "/proc/net/dev" 0 = Some text1 ->
  text_at w "/proc/net/dev" 1 = Some text2 ->
  In eth1 (split_lines text1) -> interface_line "eth0" eth1 ->
  nth_error (py_split eth1) 9 = Some field1 -> py_int field1 = Ok 1000 ->
  In lo1 (split_lines text1) -> interface_line "lo" lo1 ->
  (forall l, In l (split_lines text1) -> l <> eth1 -> contains "eth0" l = false) ->
  In eth2 (split_lines text2) -> interface_line "eth0" eth2 ->
  nth_error (py_split eth2) 9 = Some field2 -> py_int field2 = Ok 1500 ->
  In lo2 (split_lines text2) -> interface_line "lo" lo2 ->
  (forall l, In l (split_lines text2) -> l <> eth2 -> contains "eth0" l = false) ->
  0 <= sleep_time ->
  fst (get_network_interface_traffic "eth0" sleep_time w) = Ok 500.
Proof.
  intros T1 T2 I1 E1 N1 P1 _ _ U1 I2 E2 N2 P2 _ _ U2 Hs.
  assert (L : literal "eth0" = true) by reflexivity.
  assert (only : forall lines eth,
             In eth lines -> interface_line "eth0" eth ->
             (forall l, In l lines -> l <> eth -> contains "eth0" l = false) ->
             scan_interface "eth0" lines lines = Ok (py_split eth)).
  { intros lines eth Hin He Hu. apply scan_interface_only; trivial.
    - now apply interface_line_selected.
    - intros l Hl Hm. rewrite (search_literal _ _ L) in Hm.
      destruct (string_dec l eth) as [|Hne]; trivial.
      rewrite (Hu l Hl Hne) in Hm. discriminate. }
  destruct (get_network_interface_traffic_run w "eth0" sleep_time text1 text2
              (py_split eth1) (py_split eth2) 1000 1500) as (w' & _ & ->); trivial.
  - now apply only.
  - now apply only.
  - unfold int_item, item_at. now rewrite N1.
  - unfold int_item, item_at. now rewrite N2.
Qed.

(** C2 amended, at a source with [lo] and [eth0]. *)
Lemma eth0_traffic_witness :
  fst (get_network_interface_traffic "eth0" 1
         (kernel stat_scenario dev_scenario meminfo_scenario)) = Ok 500.
Proof.
  refine (eth0_traffic _ 1
            (universal_newlines (dev_scenario 0)) (universal_newlines (dev_scenario 1))
            ("  eth0: 812345 7000 0 0 0 0 0 0 1000 40 0 0 0 0 0 0" ++ nl)
            ("  eth0: 812345 7000 0 0 0 0 0 0 1500 40 0 0 0 0 0 0" ++ nl)
            ("    lo: 533834 5554 0 0 0 0 0 0 533834 5554 0 0 0 0 0 0" ++ nl)
            ("    lo: 533834 5554 0 0 0 0 0 0 533834 5554 0 0 0 0 0 0" ++ nl)
            "1000" "1500" _ _ _ _ _ _ _ _ _ _ _ _ _ _ _ _ _).
  - vm_compute; reflexivity.
  - vm_compute; reflexivity.
  - apply among_sound. vm_compute; reflexivity.
  - eexists. vm_compute; reflexivity.
  - vm_compute; reflexivity.
  - vm_compute; reflexivity.
  - apply among_sound. vm_compute; reflexivity.
  - eexists. vm_compute; reflexivity.
  - apply occurs_only_in_others. vm_compute; reflexivity.
  - apply among_sound. vm_compute; reflexivity.
  - eexists. vm_compute; reflexivity.
  - vm_compute; reflexivity.
  - vm_compute; reflexivity.
  - apply among_sound. vm_compute; reflexivity.
  - eexists. vm_compute; reflexivity.
  - apply occurs_only_in_others. vm_compute; reflexivity.
  - lia.
Defined.

(** ** The memory sampler *)

(** The sampler as a function of the text it reads; its file object is
    open to the end of the body and gone from the table after the return. *)
Lemma get_memory_usage_run w text total_line free_line total free :
  text_at w "/proc/meminfo" 0 = Some text ->
  scan_meminfo (split_lines text) None None
    = Ok (Some (py_split total_line), Some (py_split free_line)) ->
  int_item (py_split total_line) 1 = Ok total ->
  int_item (py_split free_line) 1 = Ok free ->
  get_memory_usage w =
    (Ok [("memory_in_use", total - free); ("free_memory", free)],
     with_handles
       (remove_handle (next_fd w)
          (handles (set_handle (next_fd w) (mkHandle "/proc/meminfo" (Some EmptyString))
                               (fetched "/proc/meminfo" (opened "/proc/meminfo" w)))))
       (set_handle (next_fd w) (mkHandle "/proc/meminfo" (Some EmptyString))
                   (fetched "/proc/meminfo" (opened "/proc/meminfo" w)))).
Proof.
  intros T S Rt Rf.
  unfold get_memory_usage.
  unfold bind at 1. rewrite (open_existing _ _ _ _ T).
  unfold bind at 1.
  rewrite (readlines_at_start _ (next_fd w) "/proc/meminfo" text);
    [| apply lookup_handle_head | exact T].
  unfold lift, bind at 1. rewrite S.
  unfold bind, local, ret, dealloc, close. cbn [obind]. rewrite Rt, Rf. reflexivity.
Qed.

Lemma compile_MemTotal : Re.compile "MemTotal:" = Ok (lits "MemTotal:").
Proof. now apply compile_literal. Qed.

Lemma compile_MemFree : Re.compile "MemFree" = Ok (lits "MemFree").
Proof. now apply compile_literal. Qed.

(** What the loop of the memory sampler leaves in its two variables. *)
Lemma scan_meminfo_contains lines :
  scan_meminfo lines None None =
    Ok (option_map py_split (last_matching (contains "MemTotal:") lines None),
        option_map py_split (last_matching (contains "MemFree") lines None)).
Proof.
  rewrite (scan_meminfo_last _ _ _ _ _ compile_MemTotal compile_MemFree).
  assert (E : forall p, last_matching (Re.search_regex (lits p)) lines None
                        = last_matching (contains p) lines None).
  { intro p. generalize (@None string).
    induction lines as [|l lines IH]; intro found; simpl; trivial.
    now rewrite search_regex_lits, IH. }
  rewrite !E.
  now destruct (last_matching (contains "MemTotal:") lines None),
               (last_matching (contains "MemFree") lines None).
Qed.



(** C5, refuted: asked for [wlan0] on a source with [lo] and [eth0] only,
    the sampler raises [IndexError], which is what a line with too few
    fields raises, and which carries no name. *)
Lemma interface_not_found_counterexample : ~ interface_not_found_reported.
Proof.
  intro H.
  destruct (H (kernel stat_scenario dev_scenario meminfo_scenario) "wlan0" 1
              (universal_newlines (dev_scenario 0)) eq_refl) as (e & He & Hp & _).
  - apply none_selected_sound. vm_compute; reflexivity.
  - vm_compute in He. apply Hp. left. now inversion He.
Qed.

(** C5, amended. When no line matches, [network_stats] is still the list of
    lines and the sampler reads [int()] of the tenth line: any failure of
    that is the failure of the sampler, [IndexError] with fewer than ten
    lines, else the [ValueError] of [int()] on the tenth line; both are
    parse failures. *)
Theorem interface_absent w interface sleep_time text e :
  text_at w "/proc/net/dev" 0 = Some text ->
  Forall (fun l => Re.search interface l = Ok false) (split_lines text) ->
  int_item (split_lines text) 9 = Raise e ->
  fst (get_network_interface_traffic interface sleep_time w) = Raise e /\
  parse_failure e /\
  ((List.length (split_lines text) < 10)%nat -> e = IndexError) /\
  (forall line, nth_error (split_lines text) 9 = Some line ->
                e = ValueError int_literal line).
Proof.
  intros T Hn He.
  destruct (get_network_interface_traffic_no_reading w interface sleep_time text
              (split_lines text) e T) as (w' & _ & ->); trivial.
  { now apply scan_interface_no_match. }
  split; [reflexivity|].
  unfold int_item, item_at in He.
  destruct (nth_error (split_lines text) 9) as [line|] eqn:N.
  - cbn [obind] in He. unfold py_int in He.
    destruct (split_sign (strip line)) as [neg body].
    destruct (digits body); [discriminate|]. inversion He; subst.
    repeat split.
    + right. eauto.
    + intro Hlen.
      assert (nth_error (split_lines text) 9 = None) by (apply nth_error_None; lia).
      congruence.
    + intros l Hl. now inversion Hl.
  - cbn [obind] in He. inversion He; subst.
    repeat split.
    + now left.
    + discriminate.
Qed.

(** C5 amended, at the source with [lo] and [eth0] only. *)
Lemma interface_absent_witness :
  fst (get_network_interface_traffic "wlan0" 1
         (kernel stat_scenario dev_scenario meminfo_scenario)) = Raise IndexError.
Proof.
  refine (proj1 (interface_absent _ "wlan0" 1 (universal_newlines (dev_scenario 0))
                   IndexError _ _ _)).
  - vm_compute; reflexivity.
  - apply none_selected_sound. vm_compute; reflexivity.
  - vm_compute; reflexivity.
Defined.


(** C10. Both loops keep the last line that matches: the network sampler
    returns the difference of field 9 of the last matching line of each
    scan, the memory sampler the values of the last line matching
    [MemTotal:] and of the last line matching [MemFree]; lines before the
    last match, matching or not, do not count. *)
Theorem last_match_wins :
  (forall w interface sleep_time text1 text2
          pre1 line1 post1 pre2 line2 post2 reading1 reading2,
      text_at w "/proc/net/dev" 0 = Some text1 ->
      text_at w "/proc/net/dev" 1 = Some text2 ->
      split_lines text1 = (pre1 ++ line1 :: post1)%list ->
      split_lines text2 = (pre2 ++ line2 :: post2)%list ->
      Re.search interface line1 = Ok true ->
      Re.search interface line2 = Ok true ->
      Forall (fun l => Re.search interface l = Ok false) post1 ->
      Forall (fun l => Re.search interface l = Ok false) post2 ->
      int_item (py_split line1) 9 = Ok reading1 ->
      int_item (py_split line2) 9 = Ok reading2 ->
      0 <= sleep_time ->
      fst (get_network_interface_traffic interface sleep_time w)
        = Ok (reading2 - reading1))
  /\
  (forall w text pre_t total_line post_t pre_f free_line post_f total free,
      text_at w "/proc/meminfo" 0 = Some text ->
      split_lines text = (pre_t ++ total_line :: post_t)%list ->
      split_lines text = (pre_f ++ free_line :: post_f)%list ->
      Re.search "MemTotal:" total_line = Ok true ->
      Re.search "MemFree" free_line = Ok true ->
      Forall (fun l => Re.search "MemTotal:" l = Ok false) post_t ->
      Forall (fun l => Re.search "MemFree" l = Ok false) post_f ->
      int_item (py_split total_line) 1 = Ok total ->
      int_item (py_split free_line) 1 = Ok free ->
      fst (get_memory_usage w)
        = Ok [("memory_in_use", total - free); ("free_memory", free)]).
Proof.
  split.
  - intros w interface st text1 text2 pre1 l1 post1 pre2 l2 post2 r1 r2
           T1 T2 S1 S2 M1 M2 N1 N2 R1 R2 Hs.
    destruct (get_network_interface_traffic_run w interface st text1 text2
                (py_split l1) (py_split l2) r1 r2) as (w' & _ & ->); trivial.
    + rewrite S1. now apply scan_interface_selects.
    + rewrite S2. now apply scan_interface_selects.
  - intros w text pre_t lt post_t pre_f lf post_f total free T St Sf Mt Mf Nt Nf Rt Rf.
    rewrite (get_memory_usage_run w text lt lf total free); trivial.
    rewrite scan_meminfo_contains.
    assert (L1 : literal "MemTotal:" = true) by reflexivity.
    assert (L2 : literal "MemFree" = true) by reflexivity.
    rewrite (search_literal _ _ L1) in Mt. rewrite (search_literal _ _ L2) in Mf.
    assert (Et : last_matching (contains "MemTotal:") (split_lines text) None = Some lt).
    { rewrite St. apply last_matching_last; [congruence|].
      now apply no_match_literal. }
    assert (Ef : last_matching (contains "MemFree") (split_lines text) None = Some lf).
    { rewrite Sf. apply last_matching_last; [congruence|].
      now apply no_match_literal. }
    now rewrite Et, Ef.
Qed.

(** C10, at sources with two matching lines: [eth0] then [veth0], and
    [MemFree] then [HugeMemFree].  The first matches would give 500 and
    8123456. *)
Lemma last_match_wins_witness :
  fst (get_network_interface_traffic "eth0" 1
         (kernel stat_scenario dev_two_matches meminfo_two_matches)) = Ok 29 /\
  fst (get_memory_usage (kernel stat_scenario dev_two_matches meminfo_two_matches))
    = Ok [("memory_in_use", 16382208); ("free_memory", 2048)].
Proof.
  split.
  - refine (proj1 last_match_wins _ "eth0" 1
              (universal_newlines (dev_two_matches 0))
              (universal_newlines (dev_two_matches 1))
              [fst (cut_line dev_header); fst (cut_line (snd (cut_line dev_header)));
               "  eth0: 1 0 0 0 0 0 0 0 1000 0 0 0 0 0 0 0" ++ nl]
              (" veth0: 2 0 0 0 0 0 0 0 70 0 0 0 0 0 0 0" ++ nl) []
              [fst (cut_line dev_header); fst (cut_line (snd (cut_line dev_header)));
               "  eth0: 1 0 0 0 0 0 0 0 1500 0 0 0 0 0 0 0" ++ nl]
              (" veth0: 2 0 0 0 0 0 0 0 99 0 0 0 0 0 0 0" ++ nl) []
              70 99 _ _ _ _ _ _ _ _ _ _ _);
      try constructor; try lia; vm_compute; reflexivity.
  - refine (proj2 last_match_wins _ (universal_newlines (meminfo_two_matches 0))
              [] ("MemTotal:       16384256 kB" ++ nl)
              ["MemFree:         8123456 kB" ++ nl; "HugeMemFree:        2048 kB" ++ nl]
              ["MemTotal:       16384256 kB" ++ nl; "MemFree:         8123456 kB" ++ nl]
              ("HugeMemFree:        2048 kB" ++ nl) []
              16384256 2048 _ _ _ _ _ _ _ _ _);
      try (apply none_selected_sound); vm_compute; reflexivity.
Defined.

(** ** Runs of monadic programs, step by step *)

Lemma bind_ok {A B} (m : Py A) (k : A -> Py B) w b w2 :
  bind m k w = (Ok b, w2) ->
  exists a w1, m w = (Ok a, w1) /\ k a w1 = (Ok b, w2).
Proof.
  unfold bind. destruct (m w) as [[a|e|] w1]; try discriminate. eauto.
Qed.

Lemma bind_raise {A B} (m : Py A) (k : A -> Py B) w e w2 :
  bind m k w = (Raise e, w2) ->
  m w = (Raise e, w2) \/ exists a w1, m w = (Ok a, w1) /\ k a w1 = (Raise e, w2).
Proof.
  unfold bind. destruct (m w) as [[a|e'|] w1]; intro H; try discriminate.
  - right. eauto.
  - left. now inversion H.
Qed.

Lemma run_eq {A} (m : Py A) w o : fst (m w) = o -> m w = (o, snd (m w)).
Proof. intros <-. apply surjective_pairing. Qed.

Lemma lift_inv {A} (o r : outcome A) w w' : lift o w = (r, w') -> r = o /\ w' = w.
Proof. unfold lift. intro H. now inversion H. Qed.

Lemma ret_inv {A} (a : A) r w w' : ret a w = (r, w') -> r = Ok a /\ w' = w.
Proof. unfold ret. intro H. now inversion H. Qed.

Lemma reads_only_refl path w : reads_only path w w.
Proof. repeat split. Qed.

Lemma reads_only_trans path w1 w2 w3 :
  reads_only path w1 w2 -> reads_only path w2 w3 -> reads_only path w1 w3.
Proof.
  intros (F1 & O1 & S1) (F2 & O2 & S2). repeat split; try congruence.
  intros q Hq. now rewrite S2, S1.
Qed.

Lemma open_inv path w o w' :
  open path w = (o, w') ->
  (o = Raise (IOError path) /\ w' = w) \/
  (o = Ok (next_fd w) /\ w' = opened path w).
Proof.
  unfold open. destruct (files w path); intro H; inversion H; auto.
Qed.

Lemma pending_inv fd path w o w' :
  open_on fd path w ->
  pending fd w = (o, w') ->
  handles w' = handles w /\ reads_only path w w' /\
  forall e, o = Raise e -> io_failure e.
Proof.
  intros [rest Hh]. unfold pending. rewrite Hh. cbn [h_rest h_path].
  destruct rest as [r|].
  - intro H. inversion H; subst. repeat split. discriminate.
  - destruct (files w path) as [f|].
    + destruct (all_ascii7 _); intro H; inversion H; subst;
        (repeat split; try discriminate);
        intros q Hq; cbn [served fetched]; unfold upd;
        destruct (String.eqb_spec q path); congruence.
    + intro H. inversion H; subst. repeat split.
      intros e He. inversion He. right. right. eauto.
Qed.

Lemma set_rest_inv fd path rest w o w' :
  open_on fd path w ->
  set_rest fd rest w = (o, w') ->
  o = Ok tt /\ w' = set_handle fd (mkHandle path rest) w.
Proof.
  intros [r Hh]. unfold set_rest. rewrite Hh. cbn [h_path].
  intro H. now inversion H.
Qed.

Lemma open_on_set_handle fd path rest w :
  open_on fd path (set_handle fd (mkHandle path rest) w).
Proof. exists rest. apply lookup_handle_head. Qed.

Lemma reads_only_set_handle path fd h w : reads_only path w (set_handle fd h w).
Proof. repeat split. Qed.

Lemma readline_inv fd path w o w' :
  open_on fd path w ->
  readline fd w = (o, w') ->
  open_on fd path w' /\ reads_only path w w' /\
  forall e, o = Raise e -> io_failure e.
Proof.
  intros Ho. unfold readline, bind.
  destruct (pending fd w) as [[text|e|] w1] eqn:P;
    destruct (pending_inv _ _ _ _ _ Ho P) as (Hh & Hr & He).
  - destruct (cut_line text) as [line rest].
    assert (Ho1 : open_on fd path w1).
    { destruct Ho as [r Hl]. exists r. now rewrite Hh. }
    destruct (set_rest fd (Some rest) w1) as [[[]|e|] w2] eqn:S;
      destruct (set_rest_inv _ _ _ _ _ _ Ho1 S) as (E & ->); try discriminate.
    unfold ret. intro H. inversion H; subst. split; [apply open_on_set_handle|].
    split; [| discriminate].
    eapply reads_only_trans; [exact Hr | apply reads_only_set_handle].
  - intro H. inversion H; subst.
    split; [| split; [exact Hr | intros e0 E0; inversion E0; subst; now apply He]].
    destruct Ho as [r Hl]. exists r. now rewrite Hh.
  - intro H. inversion H; subst. split; [| split; [exact Hr | discriminate]].
    destruct Ho as [r Hl]. exists r. now rewrite Hh.
Qed.

Lemma readlines_inv fd path w o w' :
  open_on fd path w ->
  readlines fd w = (o, w') ->
  open_on fd path w' /\ reads_only path w w' /\
  forall e, o = Raise e -> io_failure e.
Proof.
  intros Ho. unfold readlines, bind.
  destruct (pending fd w) as [[text|e|] w1] eqn:P;
    destruct (pending_inv _ _ _ _ _ Ho P) as (Hh & Hr & He).
  - assert (Ho1 : open_on fd path w1).
    { destruct Ho as [r Hl]. exists r. now rewrite Hh. }
    destruct (set_rest fd (Some EmptyString) w1) as [[[]|e|] w2] eqn:S;
      destruct (set_rest_inv _ _ _ _ _ _ Ho1 S) as (E & ->); try discriminate.
    unfold ret. intro H. inversion H; subst. split; [apply open_on_set_handle|].
    split; [| discriminate].
    eapply reads_only_trans; [exact Hr | apply reads_only_set_handle].
  - intro H. inversion H; subst.
    split; [| split; [exact Hr | intros e0 E0; inversion E0; subst; now apply He]].
    destruct Ho as [r Hl]. exists r. now rewrite Hh.
  - intro H. inversion H; subst. split; [| split; [exact Hr | discriminate]].
    destruct Ho as [r Hl]. exists r. now rewrite Hh.
Qed.

Lemma seek0_inv fd path w o w' :
  open_on fd path w ->
  seek0 fd w = (o, w') ->
  o = Ok tt /\ open_on fd path w' /\ reads_only path w w'.
Proof.
  intros Ho H. destruct (set_rest_inv _ _ _ _ _ _ Ho H) as (-> & ->).
  split; trivial. split; [apply open_on_set_handle | apply reads_only_set_handle].
Qed.

Lemma time_sleep_inv secs w o w' :
  time_sleep secs w = (o, w') ->
  handles w' = handles w /\ (forall path, reads_only path w w') /\
  forall e, o = Raise e -> io_failure e.
Proof.
  unfold time_sleep. destruct (secs <? 0); intro H; inversion H; subst;
    repeat split; try discriminate.
  intros e He. inversion He. right. now left.
Qed.

Lemma float_item_raises l n e : float_item l n = Raise e -> parse_failure e.
Proof.
  unfold float_item, item_at. destruct (nth_error l n) as [s|]; cbn [obind].
  - unfold py_float. destruct (split_sign (strip s)) as [neg body].
    destruct (_ || _); [discriminate|]. destruct (String.eqb _ _); [discriminate|].
    destruct (parse_decimal body) as [[m e10]|]; [discriminate|].
    intro H. inversion H. right. eauto.
  - intro H. inversion H. now left.
Qed.

Lemma int_item_raises l n e : int_item l n = Raise e -> parse_failure e.
Proof.
  unfold int_item, item_at. destruct (nth_error l n) as [s|]; cbn [obind].
  - unfold py_int. destruct (split_sign (strip s)) as [neg body].
    destruct (digits body); [discriminate|].
    intro H. inversion H. right. eauto.
  - intro H. inversion H. now left.
Qed.

Lemma f_div_raises x y e : f_div x y = Raise e -> e = ZeroDivisionError.
Proof. unfold f_div. destruct (is_zero y); intro H; now inversion H. Qed.

Lemma io_not_parse e : io_failure e -> ~ parse_failure e.
Proof.
  intros [->|[->|[p ->]]] [H|(c & l & H)]; discriminate.
Qed.

Lemma io_not_zero_division e : io_failure e -> e <> ZeroDivisionError.
Proof. intros [->|[->|[p ->]]]; discriminate. Qed.

Lemma parse_not_zero_division e : parse_failure e -> e <> ZeroDivisionError.
Proof. intros [->|(c & l & ->)]; discriminate. Qed.

Lemma reads_only_opened path q w : reads_only path w (opened q w).
Proof. repeat split. Qed.

Lemma open_on_opened path w : open_on (next_fd w) path (opened path w).
Proof. exists None. apply lookup_handle_head. Qed.

Lemma closed_after_close fd w o w' :
  close fd w = (o, w') ->
  o = Ok tt /\ lookup_handle fd (handles w') = None /\
  forall path, reads_only path w w'.
Proof.
  unfold close. intro H. inversion H; subst. repeat split.
  cbn [handles with_handles]. apply lookup_handle_removed.
Qed.

(** ** Every way the CPU sampler can end *)

(** One [x <- lift (float_item ...) ;; ...] of a run that raises: either
    the item is what raises, with the world as it is, or the run goes on. *)
Ltac float_item_step H fd path :=
  apply bind_raise in H;
  destruct H as [H | (? & ? & Hstep & H)];
  [ apply lift_inv in H; destruct H as [E ->]; symmetry in E;
    right; left; split; [exact (float_item_raises _ _ _ E) | assumption]
  | apply lift_inv in Hstep; destruct Hstep as [_ ->] ].

Lemma get_cpu_utilisation_raise sleep_time w e w' :
  get_cpu_utilisation sleep_time w = (Raise e, w') ->
  io_failure e \/
  (parse_failure e /\ open_on (next_fd w) "/proc/stat" w') \/
  (e = ZeroDivisionError /\ lookup_handle (next_fd w) (handles w') = None).
Proof.
  unfold get_cpu_utilisation. intro H.
  apply bind_raise in H. destruct H as [H | (fd & w1 & Ho & H)].
  { apply open_inv in H. destruct H as [[E _]|[E _]]; [|discriminate].
    inversion E. left. right. right. eauto. }
  apply open_inv in Ho. destruct Ho as [[E _]|[E ->]]; [discriminate|].
  inversion E; subst fd. clear E.
  pose proof (open_on_opened "/proc/stat" w) as O1.
  apply bind_raise in H. destruct H as [H | (line1 & w2 & Hr & H)].
  { left. now apply (readline_inv _ _ _ _ _ O1 H). }
  destruct (readline_inv _ _ _ _ _ O1 Hr) as (O2 & _ & _).
  do 6 float_item_step H (next_fd w) "/proc/stat".
  apply bind_raise in H. destruct H as [H | ([] & w3 & Hs & H)].
  { left. now apply (time_sleep_inv _ _ _ _ H). }
  assert (O3 : open_on (next_fd w) "/proc/stat" w3).
  { destruct (time_sleep_inv _ _ _ _ Hs) as (Hh & _). destruct O2 as [r Hl].
    exists r. now rewrite Hh. }
  apply bind_raise in H. destruct H as [H | ([] & w4 & Hk & H)].
  { apply (seek0_inv _ _ _ _ _ O3) in H. destruct H; discriminate. }
  destruct (seek0_inv _ _ _ _ _ O3 Hk) as (_ & O4 & _).
  apply bind_raise in H. destruct H as [H | (line2 & w5 & Hr2 & H)].
  { left. now apply (readline_inv _ _ _ _ _ O4 H). }
  destruct (readline_inv _ _ _ _ _ O4 Hr2) as (O5 & _ & _).
  do 6 float_item_step H (next_fd w) "/proc/stat".
  apply bind_raise in H. destruct H as [H | ([] & w6 & Hc & H)].
  { apply closed_after_close in H. destruct H; discriminate. }
  destruct (closed_after_close _ _ _ _ Hc) as (_ & C6 & _).
  apply bind_raise in H. destruct H as [H | (q & w7 & Hd & H)].
  { apply lift_inv in H. destruct H as [E ->]. symmetry in E.
    right. right. split; [exact (f_div_raises _ _ _ E) | exact C6]. }
  apply ret_inv in H. destruct H; discriminate.
Qed.

Ltac ok_lift H :=
  apply bind_ok in H; destruct H as (? & ? & Hstep & H);
  apply lift_inv in Hstep; destruct Hstep as [_ ->].

Lemma get_cpu_utilisation_ok sleep_time w v w' :
  get_cpu_utilisation sleep_time w = (Ok v, w') ->
  lookup_handle (next_fd w) (handles w') = None /\ reads_only "/proc/stat" w w'.
Proof.
  unfold get_cpu_utilisation. intro H.
  apply bind_ok in H. destruct H as (fd & w1 & Ho & H).
  apply open_inv in Ho. destruct Ho as [[E _]|[E ->]]; [discriminate|].
  inversion E; subst fd. clear E.
  pose proof (open_on_opened "/proc/stat" w) as O1.
  apply bind_ok in H. destruct H as (line1 & w2 & Hr & H).
  destruct (readline_inv _ _ _ _ _ O1 Hr) as (O2 & R2 & _).
  do 6 ok_lift H.
  apply bind_ok in H. destruct H as ([] & w3 & Hs & H).
  destruct (time_sleep_inv _ _ _ _ Hs) as (Hh & R3 & _).
  assert (O3 : open_on (next_fd w) "/proc/stat" w3).
  { destruct O2 as [r Hl]. exists r. now rewrite Hh. }
  apply bind_ok in H. destruct H as ([] & w4 & Hk & H).
  destruct (seek0_inv _ _ _ _ _ O3 Hk) as (_ & O4 & R4).
  apply bind_ok in H. destruct H as (line2 & w5 & Hr2 & H).
  destruct (readline_inv _ _ _ _ _ O4 Hr2) as (O5 & R5 & _).
  do 6 ok_lift H.
  apply bind_ok in H. destruct H as ([] & w6 & Hc & H).
  destruct (closed_after_close _ _ _ _ Hc) as (_ & C6 & R6).
  ok_lift H. apply ret_inv in H. destruct H as [_ ->].
  split; [exact C6|].
  apply reads_only_trans with (opened "/proc/stat" w); [apply reads_only_opened|].
  apply reads_only_trans with w2; trivial.
  apply reads_only_trans with w3; [apply R3|].
  apply reads_only_trans with w4; trivial.
  apply reads_only_trans with w5; trivial.
Qed.

(** ** Every way the network sampler can end *)

Lemma repeat_last_raises op st e :
  Re.repeat_last op st = Raise e -> e = re_error.
Proof.
  unfold Re.repeat_last. destruct (Re.f_seq (Re.p_cur st)) as [|[r|r] seq];
    intro H; now inversion H.
Qed.

Lemma step_raises st c e : Re.step st c = Raise e -> e = re_error.
Proof.
  unfold Re.step. destruct (negb (is_ascii7 c)); [discriminate|].
  destruct (Re.p_esc st); [destruct (Re.is_alnum c); discriminate|].
  destruct c as [[] [] [] [] [] [] [] []]; try discriminate;
    try apply repeat_last_raises.
  - destruct (Re.f_fresh (Re.p_cur st)); [discriminate | apply repeat_last_raises].
  - destruct (Re.p_stack st); intro H; now inversion H.
Qed.

Lemma compile_raises pattern e : Re.compile pattern = Raise e -> e = re_error.
Proof.
  unfold Re.compile. generalize (Re.mkPstate [] (Re.mkFrame [] [] false) false).
  induction pattern as [|c p IH]; intro st; cbn [Re.parse_from].
  - destruct (Re.p_esc st); [intro H; now inversion H|].
    destruct (Re.p_stack st); intro H; now inversion H.
  - destruct (Re.step st c) as [st'|e'|] eqn:S; cbn [obind].
    + apply IH.
    + intro H. inversion H; subst. exact (step_raises _ _ _ S).
    + discriminate.
Qed.

Lemma scan_interface_raises interface lines network_stats e :
  scan_interface interface lines network_stats = Raise e -> e = re_error.
Proof.
  revert network_stats. induction lines as [|l lines IH]; intro stats; simpl.
  - discriminate.
  - unfold Re.search. destruct (Re.compile interface) as [r|e'|] eqn:C; cbn [obind].
    + apply IH.
    + intro H. inversion H; subst. exact (compile_raises _ _ C).
    + discriminate.
Qed.

Lemma get_network_interface_traffic_raise interface sleep_time w e w' :
  get_network_interface_traffic interface sleep_time w = (Raise e, w') ->
  io_failure e \/ e = re_error \/
  (parse_failure e /\ open_on (next_fd w) "/proc/net/dev" w').
Proof.
  unfold get_network_interface_traffic. intro H.
  apply bind_raise in H. destruct H as [H | (fd & w1 & Ho & H)].
  { apply open_inv in H. destruct H as [[E _]|[E _]]; [|discriminate].
    inversion E. left. right. right. eauto. }
  apply open_inv in Ho. destruct Ho as [[E _]|[E ->]]; [discriminate|].
  inversion E; subst fd. clear E.
  pose proof (open_on_opened "/proc/net/dev" w) as O1.
  apply bind_raise in H. destruct H as [H | (lines1 & w2 & Hr & H)].
  { left. now apply (readlines_inv _ _ _ _ _ O1 H). }
  destruct (readlines_inv _ _ _ _ _ O1 Hr) as (O2 & _ & _).
  apply bind_raise in H. destruct H as [H | (stats1 & w2' & Hl & H)].
  { apply lift_inv in H. destruct H as [E ->]. symmetry in E.
    right. left. exact (scan_interface_raises _ _ _ _ E). }
  apply lift_inv in Hl. destruct Hl as [_ ->].
  apply bind_raise in H. destruct H as [H | (r1 & w2' & Hl & H)].
  { apply lift_inv in H. destruct H as [E ->]. symmetry in E.
    right. right. split; [exact (int_item_raises _ _ _ E) | exact O2]. }
  apply lift_inv in Hl. destruct Hl as [_ ->].
  apply bind_raise in H. destruct H as [H | ([] & w3 & Hs & H)].
  { left. now apply (time_sleep_inv _ _ _ _ H). }
  assert (O3 : open_on (next_fd w) "/proc/net/dev" w3).
  { destruct (time_sleep_inv _ _ _ _ Hs) as (Hh & _). destruct O2 as [r Hl].
    exists r. now rewrite Hh. }
  apply bind_raise in H. destruct H as [H | ([] & w4 & Hk & H)].
  { apply (seek0_inv _ _ _ _ _ O3) in H. destruct H; discriminate. }
  destruct (seek0_inv _ _ _ _ _ O3 Hk) as (_ & O4 & _).
  apply bind_raise in H. destruct H as [H | (lines2 & w5 & Hr2 & H)].
  { left. now apply (readlines_inv _ _ _ _ _ O4 H). }
  destruct (readlines_inv _ _ _ _ _ O4 Hr2) as (O5 & _ & _).
  apply bind_raise in H. destruct H as [H | (stats2 & w5' & Hl & H)].
  { apply lift_inv in H. destruct H as [E ->]. symmetry in E.
    right. left. exact (scan_interface_raises _ _ _ _ E). }
  apply lift_inv in Hl. destruct Hl as [_ ->].
  apply bind_raise in H. destruct H as [H | (r2 & w5' & Hl & H)].
  { apply lift_inv in H. destruct H as [E ->]. symmetry in E.
    right. right. split; [exact (int_item_raises _ _ _ E) | exact O5]. }
  apply lift_inv in Hl. destruct Hl as [_ ->].
  apply bind_raise in H. destruct H as [H | ([] & w6 & Hc & H)].
  { apply closed_after_close in H. destruct H; discriminate. }
  apply ret_inv in H. destruct H; discriminate.
Qed.

Lemma get_network_interface_traffic_ok interface sleep_time w v w' :
  get_network_interface_traffic interface sleep_time w = (Ok v, w') ->
  lookup_handle (next_fd w) (handles w') = None /\ reads_only "/proc/net/dev" w w'.
Proof.
  unfold get_network_interface_traffic. intro H.
  apply bind_ok in H. destruct H as (fd & w1 & Ho & H).
  apply open_inv in Ho. destruct Ho as [[E _]|[E ->]]; [discriminate|].
  inversion E; subst fd. clear E.
  pose proof (open_on_opened "/proc/net/dev" w) as O1.
  apply bind_ok in H. destruct H as (lines1 & w2 & Hr & H).
  destruct (readlines_inv _ _ _ _ _ O1 Hr) as (O2 & R2 & _).
  do 2 ok_lift H.
  apply bind_ok in H. destruct H as ([] & w3 & Hs & H).
  destruct (time_sleep_inv _ _ _ _ Hs) as (Hh & R3 & _).
  assert (O3 : open_on (next_fd w) "/proc/net/dev" w3).
  { destruct O2 as [r Hl]. exists r. now rewrite Hh. }
  apply bind_ok in H. destruct H as ([] & w4 & Hk & H).
  destruct (seek0_inv _ _ _ _ _ O3 Hk) as (_ & O4 & R4).
  apply bind_ok in H. destruct H as (lines2 & w5 & Hr2 & H).
  destruct (readlines_inv _ _ _ _ _ O4 Hr2) as (O5 & R5 & _).
  do 2 ok_lift H.
  apply bind_ok in H. destruct H as ([] & w6 & Hc & H).
  destruct (closed_after_close _ _ _ _ Hc) as (_ & C6 & R6).
  apply ret_inv in H. destruct H as [_ ->].
  split; [exact C6|].
  apply reads_only_trans with (opened "/proc/net/dev" w); [apply reads_only_opened|].
  apply reads_only_trans with w2; trivial.
  apply reads_only_trans with w3; [apply R3|].
  apply reads_only_trans with w4; trivial.
  apply reads_only_trans with w5; trivial.
Qed.

(** C8, refuted: on a [/proc/stat] cut short [get_cpu_utilisation] raises
    [IndexError] at its first reading and the file object it opened is
    still in the table of open file objects. *)
Lemma sources_released_counterexample : ~ sources_released.
Proof.
  intros (H & _ & _).
  specialize (H 1 (kernel stat_truncated dev_scenario meminfo_scenario) eq_refl).
  revert H. vm_compute. discriminate.
Qed.

(** C8, amended. [get_cpu_utilisation] and [get_network_interface_traffic]
    have closed the file object they opened when they return a value, and
    [get_cpu_utilisation] also when it raises [ZeroDivisionError]; when
    either ends in a parse failure the file object is left open. *)
Theorem sources_released_on_return w :
  (forall sleep_time v w',
      get_cpu_utilisation sleep_time w = (Ok v, w') ->
      lookup_handle (next_fd w) (handles w') = None) /\
  (forall sleep_time w',
      get_cpu_utilisation sleep_time w = (Raise ZeroDivisionError, w') ->
      lookup_handle (next_fd w) (handles w') = None) /\
  (forall interface sleep_time v w',
      get_network_interface_traffic interface sleep_time w = (Ok v, w') ->
      lookup_handle (next_fd w) (handles w') = None) /\
  (forall sleep_time e w',
      get_cpu_utilisation sleep_time w = (Raise e, w') -> parse_failure e ->
      open_on (next_fd w) "/proc/stat" w') /\
  (forall interface sleep_time e w',
      get_network_interface_traffic interface sleep_time w = (Raise e, w') ->
      parse_failure e ->
      open_on (next_fd w) "/proc/net/dev" w').
Proof.
  repeat split.
  - intros st v w' H. now apply (get_cpu_utilisation_ok _ _ _ _ H).
  - intros st w' H.
    destruct (get_cpu_utilisation_raise _ _ _ _ H) as [F|[[F _]|[_ C]]]; trivial.
    + now elim (io_not_zero_division _ F).
    + now elim (parse_not_zero_division _ F).
  - intros i st v w' H. now apply (get_network_interface_traffic_ok _ _ _ _ _ H).
  - intros st e w' H P.
    destruct (get_cpu_utilisation_raise _ _ _ _ H) as [F|[[_ O]|[-> _]]]; trivial.
    + now elim (io_not_parse _ F).
    + now elim (parse_not_zero_division _ P).
  - intros i st e w' H P.
    destruct (get_network_interface_traffic_raise _ _ _ _ _ H) as [F|[->|[_ O]]];
      trivial.
    + now elim (io_not_parse _ F).
    + destruct P as [P|(c & l & P)]; discriminate.
Qed.

(** C8 amended, at the example sources: closed after a value and after
    [ZeroDivisionError], open after [IndexError]. *)
Lemma sources_released_on_return_witness :
  lookup_handle 3
    (handles (snd (get_cpu_utilisation 1
                     (kernel stat_scenario dev_scenario meminfo_scenario)))) = None /\
  lookup_handle 3
    (handles (snd (get_cpu_utilisation 1
                     (kernel stat_frozen dev_scenario meminfo_scenario)))) = None /\
  open_on 3 "/proc/stat"
    (snd (get_cpu_utilisation 1 (kernel stat_truncated dev_scenario meminfo_scenario))).
Proof.
  split; [| split].
  - refine (proj1 (sources_released_on_return
                     (kernel stat_scenario dev_scenario meminfo_scenario))
                  1 (S754_finite false 5404319552844595 (-53)) _ _).
    apply run_eq. vm_compute; reflexivity.
  - refine (proj1 (proj2 (sources_released_on_return
                     (kernel stat_frozen dev_scenario meminfo_scenario))) 1 _ _).
    apply run_eq. vm_compute; reflexivity.
  - refine (proj1 (proj2 (proj2 (proj2 (sources_released_on_return
                     (kernel stat_truncated dev_scenario meminfo_scenario)))))
                  1 IndexError _ _ _).
    + apply run_eq. vm_compute; reflexivity.
    + now left.
Defined.

(** ** Every way the memory sampler can return *)

Lemma readlines_fresh_inv path w lines w2 :
  readlines (next_fd w) (opened path w) = (Ok lines, w2) ->
  exists text,
    text_at w path 0 = Some text /\ lines = split_lines text /\
    w2 = set_handle (next_fd w) (mkHandle path (Some EmptyString))
                    (fetched path (opened path w)).
Proof.
  unfold readlines, bind, pending, text_at.
  change (handles (opened path w))
    with ((next_fd w, mkHandle path None) :: handles w).
  rewrite lookup_handle_head. cbn [h_rest h_path].
  change (files (opened path w)) with (files w).
  change (served (opened path w)) with (served w).
  destruct (files w path) as [f|]; [|discriminate].
  rewrite Nat.add_0_r.
  destruct (all_ascii7 (f (served w path))); [|discriminate].
  unfold set_rest.
  change (handles (fetched path (opened path w)))
    with ((next_fd w, mkHandle path None) :: handles w).
  rewrite lookup_handle_head. cbn [h_path]. unfold ret.
  intro H. inversion H; subst. eauto.
Qed.

Lemma get_memory_usage_ok w usage w' :
  get_memory_usage w = (Ok usage, w') ->
  exists text total free,
    text_at w "/proc/meminfo" 0 = Some text /\
    meminfo_reading text = Ok (total, free) /\
    usage = [("memory_in_use", total - free); ("free_memory", free)] /\
    served w' "/proc/meminfo" = S (served w "/proc/meminfo") /\
    reads_only "/proc/meminfo" w w' /\
    lookup_handle (next_fd w) (handles w') = None.
Proof.
  unfold get_memory_usage. intro H.
  apply bind_ok in H. destruct H as (fd & w1 & Ho & H).
  apply open_inv in Ho. destruct Ho as [[E _]|[E ->]]; [discriminate|].
  inversion E; subst fd. clear E.
  apply bind_ok in H. destruct H as (lines & w2 & Hr & H).
  destruct (readlines_fresh_inv _ _ _ _ Hr) as (text & T & -> & ->).
  apply bind_ok in H. destruct H as ([t f] & w3 & Hl & H).
  apply lift_inv in Hl. destruct Hl as [Hscan ->].
  apply bind_ok in H. destruct H as (in_use & w3 & Hl & H).
  apply lift_inv in Hl. destruct Hl as [Hin ->].
  apply bind_ok in H. destruct H as (free & w3 & Hl & H).
  apply lift_inv in Hl. destruct Hl as [Hfree ->].
  apply bind_ok in H. destruct H as ([] & w3 & Hd & H).
  unfold dealloc, close in Hd. inversion Hd; subst w3. clear Hd.
  apply ret_inv in H. destruct H as [E ->]. inversion E; subst usage. clear E.
  destruct t as [t|]; [|discriminate]. destruct f as [f|]; [|discriminate].
  cbn [local obind] in Hin, Hfree.
  destruct (int_item t 1) as [total| |] eqn:It; try discriminate.
  cbn [obind] in Hin. rewrite <- Hfree in Hin. cbn [obind] in Hin.
  inversion Hin; subst in_use.
  exists text, total, free. split; [exact T|]. split.
  { unfold meminfo_reading. rewrite <- Hscan. cbn [obind fst snd local].
    rewrite It. cbn [obind]. rewrite <- Hfree. reflexivity. }
  split; [reflexivity|]. split.
  { cbn [served set_handle with_handles fetched opened]. unfold upd.
    now rewrite String.eqb_refl. }
  split; [| cbn; rewrite ?Nat.eqb_refl; apply lookup_handle_removed].
  repeat split. intros q Hq. cbn [served set_handle with_handles fetched opened].
  unfold upd. destruct (String.eqb_spec q "/proc/meminfo"); congruence.
Qed.

(** ** The text of the report *)

Lemma format_text lit rest args out :
  no_percent lit = true ->
  format_from Text (lit ++ rest) args out = format_from Text rest args (out ++ lit).
Proof.
  revert out. induction lit as [|c lit IH]; intros out H.
  - cbn [append]. f_equal. clear. induction out as [|c out IH]; simpl; congruence.
  - simpl in H. apply andb_prop in H. destruct H as [Hc Hl].
    change (String c lit ++ rest) with (String c (lit ++ rest)).
    cbn [format_from]. apply negb_true_iff in Hc. rewrite Hc.
    rewrite (IH _ Hl). f_equal. rewrite append_assoc. reflexivity.
Qed.

Lemma py_format_report cpu traffic memory_used free_memory :
  py_format report_format
            [PyFloat cpu; PyInt traffic; PyFloat memory_used; PyFloat free_memory]
  = Ok (report_text cpu traffic memory_used free_memory).
Proof.
  unfold py_format.
  change report_format with
    (("Current System Status is:" ++ nl ++ "CPU Utilisation: ")
       ++ "%0.2f% %" ++ (" " ++ nl ++ "Network Interface load: ")
       ++ "%s" ++ (" bytes per second" ++ nl ++ "Memory in use: ")
       ++ "%s" ++ (" MB" ++ nl ++ "Memory free: ")
       ++ "%s" ++ " MB").
  rewrite format_text by reflexivity.
  match goal with
  | |- format_from Text ("%0.2f% %" ++ ?rest) (PyFloat ?x :: ?args) ?out = _ =>
      change (format_from Text ("%0.2f% %" ++ rest) (PyFloat x :: args) out)
        with (format_from Text rest args ((out ++ format_f 2 x) ++ "%"))
  end.
  rewrite format_text by reflexivity.
  match goal with
  | |- format_from Text ("%s" ++ ?rest) (PyInt ?n :: ?args) ?out = _ =>
      change (format_from Text ("%s" ++ rest) (PyInt n :: args) out)
        with (format_from Text rest args (out ++ str_int n))
  end.
  rewrite format_text by reflexivity.
  match goal with
  | |- format_from Text ("%s" ++ ?rest) (PyFloat ?x :: ?args) ?out = _ =>
      change (format_from Text ("%s" ++ rest) (PyFloat x :: args) out)
        with (format_from Text rest args (out ++ str_float x))
  end.
  rewrite format_text by reflexivity.
  match goal with
  | |- format_from Text ("%s" ++ ?rest) (PyFloat ?x :: ?args) ?out = _ =>
      change (format_from Text ("%s" ++ rest) (PyFloat x :: args) out)
        with (format_from Text rest args (out ++ str_float x))
  end.
  rewrite (format_text " MB" EmptyString) by reflexivity.
  cbn [format_from]. f_equal. unfold report_text.
  rewrite !append_assoc. reflexivity.
Qed.

Lemma two_digits r :
  0 <= r < 100 -> zero_padded 2 r = str_int (r / 10) ++ str_int (r mod 10).
Proof.
  intro H. rewrite <- (Z2Nat.id r) by lia.
  assert (K : (Z.to_nat r < 100)%nat) by lia.
  generalize dependent (Z.to_nat r). clear. intros k K.
  do 100 (destruct k as [|k]; [reflexivity|]). lia.
Qed.

Lemma div_nearest_even_nonneg num den :
  0 <= num -> 0 < den -> 0 <= div_nearest_even num den.
Proof.
  intros Hn Hd. unfold div_nearest_even.
  pose proof (Z.div_pos num den Hn Hd).
  destruct (2 * (num mod den) ?= den); [destruct (Z.even (num / den))| |]; lia.
Qed.

(** ["%0.2f"] of a finite float is a numeral with two decimals. *)
Lemma format_f_two_decimals x :
  is_finite x = true -> two_decimals (format_f 2 x).
Proof.
  destruct x as [neg|neg| |neg m e]; try discriminate; intros _.
  - exists neg, 0, 0, 0. repeat split; lia.
  - cbn [format_f]. unfold fixed_digits.
    set (n := if 0 <=? e then Z.pos m * 2 ^ e * 10 ^ Z.of_nat 2
              else div_nearest_even (Z.pos m * 10 ^ Z.of_nat 2) (2 ^ (- e))).
    assert (Hn : 0 <= n).
    { subst n. destruct (Z.leb_spec 0 e).
      - pose proof (Z.pow_nonneg 2 e). lia.
      - apply div_nearest_even_nonneg; [lia|]. apply Z.pow_pos_nonneg; lia. }
    change (10 ^ Z.of_nat 2) with 100 in *.
    exists neg, (n / 100), (n mod 100 / 10), (n mod 100 mod 10).
    pose proof (Z.mod_pos_bound n 100 ltac:(lia)) as Hr.
    split; [apply Z.div_pos; lia|].
    split; [split; [apply Z.div_pos; lia | apply Z.div_lt_upper_bound; lia]|].
    split; [apply Z.mod_pos_bound; lia|].
    now rewrite (two_digits _ Hr).
Qed.

(** ** The reporter, step by step *)

Lemma f_div_1000 x : f_div x f_1000 = Ok (SFdiv prec emax x f_1000).
Proof. reflexivity. Qed.

(** A report that is printed: the four sampler calls behind it, in the
    order the reporter makes them, and the text. *)
Lemma print_stats_ok network_adaptor w w' :
  print_stats network_adaptor w = (Ok tt, w') ->
  exists u w1 usage1 w2 usage2 w3 traffic w4 in_use free fi ff,
    get_cpu_utilisation 1 w = (Ok u, w1) /\
    get_memory_usage w1 = (Ok usage1, w2) /\
    dict_get usage1 "memory_in_use" = Ok in_use /\
    float_of_int in_use = Ok fi /\
    get_memory_usage w2 = (Ok usage2, w3) /\
    dict_get usage2 "free_memory" = Ok free /\
    float_of_int free = Ok ff /\
    get_network_interface_traffic network_adaptor 1 w3 = (Ok traffic, w4) /\
    w' = printed (report_text (f_mul u f_100) traffic
                    (SFdiv prec emax fi f_1000) (SFdiv prec emax ff f_1000)) w4.
Proof.
  unfold print_stats. intro H.
  apply bind_ok in H. destruct H as (u & w1 & Hc & H).
  apply bind_ok in H. destruct H as (usage1 & w2 & Hm1 & H).
  apply bind_ok in H. destruct H as (in_use & w2' & Hl & H).
  apply lift_inv in Hl. destruct Hl as [D1 ->].
  apply bind_ok in H. destruct H as (fi & w2' & Hl & H).
  apply lift_inv in Hl. destruct Hl as [F1 ->].
  apply bind_ok in H. destruct H as (mu & w2' & Hl & H).
  apply lift_inv in Hl. destruct Hl as [Q1 ->].
  apply bind_ok in H. destruct H as (usage2 & w3 & Hm2 & H).
  apply bind_ok in H. destruct H as (free & w3' & Hl & H).
  apply lift_inv in Hl. destruct Hl as [D2 ->].
  apply bind_ok in H. destruct H as (ff & w3' & Hl & H).
  apply lift_inv in Hl. destruct Hl as [F2 ->].
  apply bind_ok in H. destruct H as (mf & w3' & Hl & H).
  apply lift_inv in Hl. destruct Hl as [Q2 ->].
  apply bind_ok in H. destruct H as (traffic & w4 & Hn & H).
  apply bind_ok in H. destruct H as (text & w4' & Hl & H).
  apply lift_inv in Hl. destruct Hl as [Ht ->].
  rewrite py_format_report in Ht. inversion Ht; subst text.
  rewrite f_div_1000 in Q1, Q2. inversion Q1; subst mu. inversion Q2; subst mf.
  unfold print in H. inversion H; subst w'.
  exists u, w1, usage1, w2, usage2, w3, traffic, w4, in_use, free, fi, ff.
  repeat split; auto.
Qed.

(** C7. From the results of the samplers the reporter prints the CPU
    utilisation times 100 with ["%0.2f"], a numeral with exactly two
    decimals when it is finite, followed by a percent sign; the traffic as
    the decimal numeral of the integer; and each memory figure as the float
    of the kilobytes divided by [1000.0]. *)
Theorem report_formats network_adaptor w u w1 usage1 w2 usage2 w3 traffic w4
        in_use free fi ff :
  get_cpu_utilisation 1 w = (Ok u, w1) ->
  get_memory_usage w1 = (Ok usage1, w2) ->
  dict_get usage1 "memory_in_use" = Ok in_use ->
  float_of_int in_use = Ok fi ->
  get_memory_usage w2 = (Ok usage2, w3) ->
  dict_get usage2 "free_memory" = Ok free ->
  float_of_int free = Ok ff ->
  get_network_interface_traffic network_adaptor 1 w3 = (Ok traffic, w4) ->
  is_finite (f_mul u f_100) = true ->
  print_stats network_adaptor w =
    (Ok tt,
     printed ("Current System Status is:" ++ nl
              ++ "CPU Utilisation: " ++ format_f 2 (f_mul u f_100) ++ "% " ++ nl
              ++ "Network Interface load: " ++ str_int traffic
              ++ " bytes per second" ++ nl
              ++ "Memory in use: " ++ str_float (SFdiv prec emax fi f_1000) ++ " MB" ++ nl
              ++ "Memory free: " ++ str_float (SFdiv prec emax ff f_1000) ++ " MB")
             w4) /\
  two_decimals (format_f 2 (f_mul u f_100)) /\
  py_float "100" = Ok f_100 /\
  py_float "1000.0" = Ok f_1000.
Proof.
  intros Hc Hm1 D1 F1 Hm2 D2 F2 Hn Hf.
  split; [| split; [now apply format_f_two_decimals | split; vm_compute; reflexivity]].
  unfold print_stats.
  unfold bind at 1. rewrite Hc.
  unfold bind at 1. rewrite Hm1.
  unfold lift, bind at 1. rewrite D1.
  unfold bind at 1. rewrite F1.
  unfold bind at 1. rewrite f_div_1000.
  unfold bind at 1. rewrite Hm2.
  unfold bind at 1. rewrite D2.
  unfold bind at 1. rewrite F2.
  unfold bind at 1. rewrite f_div_1000.
  unfold bind at 1. rewrite Hn.
  unfold bind at 1. rewrite py_format_report.
  reflexivity.
Qed.

(** C7, at the end-to-end scenario of the specification: the report shows
    [60.00%]. *)
Lemma report_formats_witness :
  stdout (snd (print_stats "eth0" (kernel stat_scenario dev_scenario meminfo_scenario)))
  = "Current System Status is:" ++ nl
    ++ "CPU Utilisation: 60.00% " ++ nl
    ++ "Network Interface load: 500 bytes per second" ++ nl
    ++ "Memory in use: 8260.8 MB" ++ nl
    ++ "Memory free: 8000.0 MB" ++ nl.
Proof.
  pose (w := kernel stat_scenario dev_scenario meminfo_scenario).
  pose (c := get_cpu_utilisation 1 w).
  pose (m1 := get_memory_usage (snd c)).
  pose (m2 := get_memory_usage (snd m1)).
  pose (n := get_network_interface_traffic "eth0" 1 (snd m2)).
  destruct (report_formats "eth0" w
              (S754_finite false 5404319552844595 (-53)) (snd c)
              [("memory_in_use", 8260800); ("free_memory", 8123456)] (snd m1)
              [("memory_in_use", 8384256); ("free_memory", 8000000)] (snd m2)
              500 (snd n) 8260800 8000000
              (S754_finite false 8869966459699200 (-30))
              (S754_finite false 8589934592000000 (-30)))
    as (E & _).
  - apply run_eq. vm_compute; reflexivity.
  - apply run_eq. vm_compute; reflexivity.
  - vm_compute; reflexivity.
  - vm_compute; reflexivity.
  - apply run_eq. vm_compute; reflexivity.
  - vm_compute; reflexivity.
  - vm_compute; reflexivity.
  - apply run_eq. vm_compute; reflexivity.
  - vm_compute; reflexivity.
  - fold w. rewrite E. vm_compute; reflexivity.
Defined.

(** ** How often the reporter reads the memory source *)

Lemma text_at_elsewhere path q w w' k :
  reads_only path w w' -> q <> path -> text_at w' q k = text_at w q k.
Proof.
  intros (F & _ & S) Hq. unfold text_at. now rewrite F, (S q Hq).
Qed.

Lemma text_at_next path w w' k :
  reads_only path w w' -> served w' path = S (served w path) ->
  text_at w' path k = text_at w path (S k).
Proof.
  intros (F & _ & _) E. unfold text_at. rewrite F, E.
  now rewrite Nat.add_succ_r.
Qed.

(** C6, refuted: in the example world a report is printed and
    [/proc/meminfo] has been read twice for it, not once. *)
Lemma memory_sampled_once_counterexample : ~ memory_sampled_once.
Proof.
  intro H.
  assert (R : print_stats "eth0" (kernel stat_scenario dev_scenario meminfo_scenario)
              = (Ok tt, snd (print_stats "eth0"
                               (kernel stat_scenario dev_scenario meminfo_scenario)))).
  { apply run_eq. vm_compute; reflexivity. }
  specialize (H _ _ _ R).
  revert H. vm_compute. discriminate.
Qed.

(** C6, amended. For each report that is printed the memory sampler has
    been called twice, each call reading [/proc/meminfo] anew: the figure
    for the memory in use is that of the first snapshot, the figure for the
    free memory is that of the second. *)
Theorem memory_sampled_twice network_adaptor w w' :
  print_stats network_adaptor w = (Ok tt, w') ->
  served w' "/proc/meminfo" = S (S (served w "/proc/meminfo")) /\
  exists text1 text2 total1 free1 total2 free2 cpu traffic fi ff,
    text_at w "/proc/meminfo" 0 = Some text1 /\
    text_at w "/proc/meminfo" 1 = Some text2 /\
    meminfo_reading text1 = Ok (total1, free1) /\
    meminfo_reading text2 = Ok (total2, free2) /\
    float_of_int (total1 - free1) = Ok fi /\
    float_of_int free2 = Ok ff /\
    stdout w' =
      stdout w ++ report_text cpu traffic (SFdiv prec emax fi f_1000)
                                          (SFdiv prec emax ff f_1000) ++ nl.
Proof.
  intro H.
  destruct (print_stats_ok _ _ _ H)
    as (u & w1 & usage1 & w2 & usage2 & w3 & traffic & w4 & in_use & free & fi & ff
        & Hc & Hm1 & D1 & F1 & Hm2 & D2 & F2 & Hn & ->).
  destruct (get_cpu_utilisation_ok _ _ _ _ Hc) as (_ & Rc).
  destruct (get_memory_usage_ok _ _ _ Hm1)
    as (text1 & total1 & free1 & T1 & M1 & -> & S1 & R1 & _).
  destruct (get_memory_usage_ok _ _ _ Hm2)
    as (text2 & total2 & free2 & T2 & M2 & -> & S2 & R2 & _).
  destruct (get_network_interface_traffic_ok _ _ _ _ _ Hn) as (_ & Rn).
  assert (Ns : "/proc/meminfo" <> "/proc/stat") by discriminate.
  assert (Nd : "/proc/meminfo" <> "/proc/net/dev") by discriminate.
  split.
  - cbn [served printed].
    destruct Rn as (_ & _ & Sn). destruct Rc as (_ & _ & Sc).
    now rewrite (Sn _ Nd), S2, S1, (Sc _ Ns).
  - cbn [dict_get] in D1, D2. simpl String.eqb in D1, D2. cbn in D1, D2.
    inversion D1; subst in_use. inversion D2; subst free.
    exists text1, text2, total1, free1, total2, free2, (f_mul u f_100), traffic, fi, ff.
    rewrite (text_at_next _ _ _ _ R1 S1) in T2.
    rewrite (text_at_elsewhere _ _ _ _ _ Rc Ns) in T1.
    rewrite (text_at_elsewhere _ _ _ _ _ Rc Ns) in T2.
    repeat split; trivial.
    cbn [stdout printed].
    destruct Rn as (_ & On & _). destruct R2 as (_ & O2 & _).
    destruct R1 as (_ & O1 & _). destruct Rc as (_ & Oc & _).
    now rewrite On, O2, O1, Oc.
Qed.

(** C6 amended, at the example world: two reads, and a report whose two
    memory figures come from two snapshots: 8260.8 MB in use is
    16384256 - 8123456 kB of the first, 8000.0 MB free is the second. *)
Lemma memory_sampled_twice_witness :
  served (snd (print_stats "eth0" (kernel stat_scenario dev_scenario meminfo_scenario)))
         "/proc/meminfo" = 2%nat.
Proof.
  refine (proj1 (memory_sampled_twice "eth0"
                   (kernel stat_scenario dev_scenario meminfo_scenario) _ _)).
  apply run_eq. vm_compute; reflexivity.
Defined.

(** * Further properties of the module *)

(** ** Relations kept by every run *)

Lemma bind_inv {A B} (m : Py A) (k : A -> Py B) w o w2 :
  bind m k w = (o, w2) ->
  (exists a w1, m w = (Ok a, w1) /\ k a w1 = (o, w2)) \/
  (exists e, m w = (Raise e, w2) /\ o = Raise e) \/
  (m w = (OutOfScope, w2) /\ o = OutOfScope).
Proof.
  unfold bind. destruct (m w) as [[a|e|] w1]; intro H.
  - left. eauto.
  - right. left. exists e. now inversion H.
  - right. right. now inversion H.
Qed.

Section Keeps.
Variable R : World -> World -> Prop.
Hypothesis R_refl : forall w, R w w.
Hypothesis R_trans : forall w1 w2 w3, R w1 w2 -> R w2 w3 -> R w1 w3.

Lemma keeps_bind {A B} (m : Py A) (k : A -> Py B) :
  keeps R m -> (forall a, keeps R (k a)) -> keeps R (bind m k).
Proof.
  intros Hm Hk w o w' H.
  destruct (bind_inv _ _ _ _ _ H) as [(a & w1 & H1 & H2)|[(e & H1 & _)|(H1 & _)]].
  - eapply R_trans; [exact (Hm _ _ _ H1) | exact (Hk _ _ _ _ H2)].
  - exact (Hm _ _ _ H1).
  - exact (Hm _ _ _ H1).
Qed.

Lemma keeps_ret {A} (a : A) : keeps R (ret a).
Proof. intros w o w' H. inversion H; subst. apply R_refl. Qed.

Lemma keeps_lift {A} (o : outcome A) : keeps R (lift o).
Proof. intros w r w' H. inversion H; subst. apply R_refl. Qed.

(** The primitives, for a relation that file objects, reads and sleep
    respect. *)
Hypothesis R_opened : forall path w, R w (opened path w).
Hypothesis R_fetched : forall path w, R w (fetched path w).
Hypothesis R_slept : forall secs w, R w (slept secs w).
Hypothesis R_handles : forall hs w, R w (with_handles hs w).

Lemma keeps_open path : keeps R (open path).
Proof.
  intros w o w' H. unfold open in H.
  destruct (files w path); inversion H; subst; auto.
Qed.

Lemma keeps_pending fd : keeps R (pending fd).
Proof.
  intros w o w' H. unfold pending in H.
  destruct (lookup_handle fd (handles w)) as [h|]; [|inversion H; subst; auto].
  destruct (h_rest h); [inversion H; subst; auto|].
  destruct (files w (h_path h)); [|inversion H; subst; auto].
  destruct (all_ascii7 _); inversion H; subst; auto.
Qed.

Lemma keeps_set_rest fd rest : keeps R (set_rest fd rest).
Proof.
  intros w o w' H. unfold set_rest in H.
  destruct (lookup_handle fd (handles w)); inversion H; subst; auto.
  apply R_handles.
Qed.

Lemma keeps_readline fd : keeps R (readline fd).
Proof.
  unfold readline. apply keeps_bind; [apply keeps_pending|]. intro text.
  destruct (cut_line text) as [line rest].
  apply keeps_bind; [apply keeps_set_rest | intro; apply keeps_ret].
Qed.

Lemma keeps_readlines fd : keeps R (readlines fd).
Proof.
  unfold readlines. apply keeps_bind; [apply keeps_pending|]. intro text.
  apply keeps_bind; [apply keeps_set_rest | intro; apply keeps_ret].
Qed.

Lemma keeps_seek0 fd : keeps R (seek0 fd).
Proof. apply keeps_set_rest. Qed.

Lemma keeps_close fd : keeps R (close fd).
Proof. intros w o w' H. inversion H; subst. apply R_handles. Qed.

Lemma keeps_time_sleep secs : keeps R (time_sleep secs).
Proof.
  intros w o w' H. unfold time_sleep in H.
  destruct (secs <? 0); inversion H; subst; auto.
Qed.

(** The three samplers keep any such relation. *)
Ltac keeps_steps :=
  repeat first
    [ apply keeps_ret | apply keeps_lift | apply keeps_open | apply keeps_readline
    | apply keeps_readlines | apply keeps_seek0 | apply keeps_close
    | apply keeps_time_sleep
    | apply keeps_bind; [| intro] ].

Lemma keeps_get_cpu_utilisation sleep_time :
  keeps R (get_cpu_utilisation sleep_time).
Proof. unfold get_cpu_utilisation. keeps_steps. Qed.

Lemma keeps_get_network_interface_traffic interface sleep_time :
  keeps R (get_network_interface_traffic interface sleep_time).
Proof. unfold get_network_interface_traffic. keeps_steps. Qed.

Lemma keeps_get_memory_usage : keeps R get_memory_usage.
Proof.
  unfold get_memory_usage. keeps_steps.
  match goal with |- keeps R (let (_, _) := ?v in _) => destruct v end.
  keeps_steps.
Qed.
End Keeps.

(** ** What is printed, and when *)

Lemma silent_refl w : silent w w.
Proof. reflexivity. Qed.

Lemma silent_trans w1 w2 w3 : silent w1 w2 -> silent w2 w3 -> silent w1 w3.
Proof. unfold silent. congruence. Qed.

Lemma silent_get_cpu_utilisation sleep_time :
  keeps silent (get_cpu_utilisation sleep_time).
Proof.
  apply keeps_get_cpu_utilisation; try reflexivity. exact silent_trans.
Qed.

Lemma silent_get_network_interface_traffic interface sleep_time :
  keeps silent (get_network_interface_traffic interface sleep_time).
Proof.
  apply keeps_get_network_interface_traffic; try reflexivity. exact silent_trans.
Qed.

Lemma silent_get_memory_usage : keeps silent get_memory_usage.
Proof.
  apply keeps_get_memory_usage; try reflexivity. exact silent_trans.
Qed.

Lemma silent_unless_returns_bind {A B} (m : Py A) (k : A -> Py B) :
  keeps silent m ->
  (forall a, silent_unless_returns (k a)) ->
  silent_unless_returns (bind m k).
Proof.
  intros Hm Hk w o w' H Ho.
  destruct (bind_inv _ _ _ _ _ H) as [(a & w1 & H1 & H2)|[(e & H1 & _)|(H1 & _)]].
  - eapply silent_trans; [exact (Hm _ _ _ H1) | exact (Hk _ _ _ _ H2 Ho)].
  - exact (Hm _ _ _ H1).
  - exact (Hm _ _ _ H1).
Qed.

(** X1. A report is printed whole or not at all: the samplers print
    nothing, and when [print_stats] ends in any way other than returning,
    standard output is as it was before the call. *)
Theorem report_all_or_nothing network_adaptor w o w' :
  print_stats network_adaptor w = (o, w') ->
  o <> Ok tt ->
  stdout w' = stdout w.
Proof.
  intros H Ho.
  assert (S : silent_unless_returns (print_stats network_adaptor)).
  { unfold print_stats.
    repeat first
      [ apply silent_unless_returns_bind;
        [ first [ apply silent_get_cpu_utilisation
                | apply silent_get_memory_usage
                | apply silent_get_network_interface_traffic
                | apply keeps_lift; [exact silent_refl] ]
        | intro ] ].
    intros w0 o0 w0' H0 Hn. unfold print in H0. inversion H0; subst.
    now elim (Hn tt). }
  apply (S _ _ _ H). intros [] E. now apply Ho.
Qed.

(** X1, at a source without the interface asked for: the CPU and the
    memory were sampled, the network sampler failed, nothing is printed. *)
Lemma report_all_or_nothing_witness :
  stdout (snd (print_stats "wlan0" (kernel stat_scenario dev_scenario meminfo_scenario)))
  = EmptyString.
Proof.
  refine (report_all_or_nothing "wlan0"
            (kernel stat_scenario dev_scenario meminfo_scenario)
            (Raise IndexError) _ _ _).
  - apply run_eq. vm_compute; reflexivity.
  - discriminate.
Defined.

(** ** Time slept and file objects opened by a run that returns *)

Lemma sleeps_bind {A B} d1 d2 d (m : Py A) (k : A -> Py B) :
  sleeps d1 m -> (forall a, sleeps d2 (k a)) -> d = d1 + d2 ->
  sleeps d (bind m k).
Proof.
  intros Hm Hk -> w b w' H.
  destruct (bind_ok _ _ _ _ _ H) as (a & w1 & H1 & H2).
  rewrite (Hk _ _ _ _ H2), (Hm _ _ _ H1). lia.
Qed.

Lemma opens_bind {A B} n1 n2 n (m : Py A) (k : A -> Py B) :
  opens n1 m -> (forall a, opens n2 (k a)) -> n = (n1 + n2)%nat ->
  opens n (bind m k).
Proof.
  intros Hm Hk -> w b w' H.
  destruct (bind_ok _ _ _ _ _ H) as (a & w1 & H1 & H2).
  rewrite (Hk _ _ _ _ H2), (Hm _ _ _ H1). lia.
Qed.

Lemma sleeps_ret {A} (a : A) : sleeps 0 (ret a).
Proof. intros w b w' H. inversion H; subst. lia. Qed.

Lemma opens_ret {A} (a : A) : opens 0 (ret a).
Proof. intros w b w' H. inversion H; subst. lia. Qed.

Lemma sleeps_lift {A} (o : outcome A) : sleeps 0 (lift o).
Proof. intros w b w' H. inversion H; subst. lia. Qed.

Lemma opens_lift {A} (o : outcome A) : opens 0 (lift o).
Proof. intros w b w' H. inversion H; subst. lia. Qed.

Lemma sleeps_open path : sleeps 0 (open path).
Proof.
  intros w b w' H. unfold open in H.
  destruct (files w path); inversion H; subst. cbn [clock opened]. lia.
Qed.

Lemma opens_open path : opens 1 (open path).
Proof.
  intros w b w' H. unfold open in H.
  destruct (files w path); inversion H; subst. cbn [next_fd opened]. lia.
Qed.

Lemma pending_clock_fd fd w o w' :
  pending fd w = (o, w') -> clock w' = clock w /\ next_fd w' = next_fd w.
Proof.
  unfold pending.
  destruct (lookup_handle fd (handles w)) as [h|]; [|intro H; now inversion H].
  destruct (h_rest h); [intro H; now inversion H|].
  destruct (files w (h_path h)); [|intro H; now inversion H].
  destruct (all_ascii7 _); intro H; now inversion H.
Qed.

Lemma set_rest_clock_fd fd rest w o w' :
  set_rest fd rest w = (o, w') -> clock w' = clock w /\ next_fd w' = next_fd w.
Proof.
  unfold set_rest.
  destruct (lookup_handle fd (handles w)); intro H; now inversion H.
Qed.

Lemma sleeps_pending fd : sleeps 0 (pending fd).
Proof. intros w b w' H. rewrite (proj1 (pending_clock_fd _ _ _ _ H)). lia. Qed.

Lemma opens_pending fd : opens 0 (pending fd).
Proof. intros w b w' H. rewrite (proj2 (pending_clock_fd _ _ _ _ H)). lia. Qed.

Lemma sleeps_set_rest fd rest : sleeps 0 (set_rest fd rest).
Proof. intros w b w' H. rewrite (proj1 (set_rest_clock_fd _ _ _ _ _ H)). lia. Qed.

Lemma opens_set_rest fd rest : opens 0 (set_rest fd rest).
Proof. intros w b w' H. rewrite (proj2 (set_rest_clock_fd _ _ _ _ _ H)). lia. Qed.

Lemma sleeps_readline fd : sleeps 0 (readline fd).
Proof.
  unfold readline. eapply sleeps_bind; [apply sleeps_pending | | reflexivity].
  intro text. destruct (cut_line text).
  eapply sleeps_bind; [apply sleeps_set_rest | intro; apply sleeps_ret | reflexivity].
Qed.

Lemma opens_readline fd : opens 0 (readline fd).
Proof.
  unfold readline. eapply opens_bind; [apply opens_pending | | reflexivity].
  intro text. destruct (cut_line text).
  eapply opens_bind; [apply opens_set_rest | intro; apply opens_ret | reflexivity].
Qed.

Lemma sleeps_readlines fd : sleeps 0 (readlines fd).
Proof.
  unfold readlines. eapply sleeps_bind; [apply sleeps_pending | | reflexivity].
  intro text.
  eapply sleeps_bind; [apply sleeps_set_rest | intro; apply sleeps_ret | reflexivity].
Qed.

Lemma opens_readlines fd : opens 0 (readlines fd).
Proof.
  unfold readlines. eapply opens_bind; [apply opens_pending | | reflexivity].
  intro text.
  eapply opens_bind; [apply opens_set_rest | intro; apply opens_ret | reflexivity].
Qed.

Lemma sleeps_close fd : sleeps 0 (close fd).
Proof. intros w b w' H. inversion H; subst. cbn [clock with_handles]. lia. Qed.

Lemma opens_close fd : opens 0 (close fd).
Proof. intros w b w' H. inversion H; subst. cbn [next_fd with_handles]. lia. Qed.

Lemma sleeps_time_sleep secs : sleeps secs (time_sleep secs).
Proof.
  intros w b w' H. unfold time_sleep in H.
  destruct (secs <? 0); inversion H; subst. reflexivity.
Qed.

Lemma opens_time_sleep secs : opens 0 (time_sleep secs).
Proof.
  intros w b w' H. unfold time_sleep in H.
  destruct (secs <? 0); inversion H; subst. cbn [next_fd slept]. lia.
Qed.

Lemma sleeps_print text : sleeps 0 (print text).
Proof. intros w b w' H. inversion H; subst. cbn [clock printed]. lia. Qed.

Lemma opens_print text : opens 0 (print text).
Proof. intros w b w' H. inversion H; subst. cbn [next_fd printed]. lia. Qed.

Ltac sleeps_steps :=
  first
    [ apply sleeps_ret | apply sleeps_lift | apply sleeps_print
    | eapply sleeps_bind;
      [ first [ apply sleeps_open | apply sleeps_readline | apply sleeps_readlines
              | apply sleeps_set_rest | apply sleeps_close | apply sleeps_time_sleep
              | apply sleeps_lift ]
      | intro; sleeps_steps
      | first [reflexivity | lia] ] ].

Ltac opens_steps :=
  first
    [ apply opens_ret | apply opens_lift | apply opens_print
    | eapply opens_bind;
      [ first [ apply opens_open | apply opens_readline | apply opens_readlines
              | apply opens_set_rest | apply opens_close | apply opens_time_sleep
              | apply opens_lift ]
      | intro; opens_steps
      | first [reflexivity | lia] ] ].

Lemma sleeps_get_cpu_utilisation sleep_time :
  sleeps sleep_time (get_cpu_utilisation sleep_time).
Proof.
  unfold get_cpu_utilisation. unfold seek0. sleeps_steps.
Qed.

Lemma opens_get_cpu_utilisation sleep_time :
  opens 1 (get_cpu_utilisation sleep_time).
Proof. unfold get_cpu_utilisation. unfold seek0. opens_steps. Qed.

Lemma sleeps_get_network_interface_traffic interface sleep_time :
  sleeps sleep_time (get_network_interface_traffic interface sleep_time).
Proof. unfold get_network_interface_traffic. unfold seek0. sleeps_steps. Qed.

Lemma opens_get_network_interface_traffic interface sleep_time :
  opens 1 (get_network_interface_traffic interface sleep_time).
Proof. unfold get_network_interface_traffic. unfold seek0. opens_steps. Qed.

Lemma sleeps_get_memory_usage : sleeps 0 get_memory_usage.
Proof.
  unfold get_memory_usage.
  eapply sleeps_bind; [apply sleeps_open | intro | reflexivity].
  eapply sleeps_bind; [apply sleeps_readlines | intro | reflexivity].
  eapply sleeps_bind; [apply sleeps_lift | intros [t f] | reflexivity].
  sleeps_steps.
Qed.

Lemma opens_get_memory_usage : opens 1 get_memory_usage.
Proof.
  unfold get_memory_usage.
  eapply opens_bind; [apply opens_open | intro | reflexivity].
  eapply opens_bind; [apply opens_readlines | intro | reflexivity].
  eapply opens_bind; [apply opens_lift | intros [t f] | reflexivity].
  opens_steps.
Qed.

(** X2. The two timed samplers wait on their own: a call of
    [get_cpu_utilisation] or [get_network_interface_traffic] that returns
    has slept [sleep_time] seconds, a call of [get_memory_usage] none, and
    a report that is printed has cost two seconds of sleep, one for each
    timed sampler. *)
Theorem report_sleeps_twice :
  (forall sleep_time, sleeps sleep_time (get_cpu_utilisation sleep_time)) /\
  (forall interface sleep_time,
      sleeps sleep_time (get_network_interface_traffic interface sleep_time)) /\
  sleeps 0 get_memory_usage /\
  (forall network_adaptor, sleeps 2 (print_stats network_adaptor)).
Proof.
  split; [exact sleeps_get_cpu_utilisation|].
  split; [exact sleeps_get_network_interface_traffic|].
  split; [exact sleeps_get_memory_usage|].
  intro a. unfold print_stats.
  eapply sleeps_bind; [apply sleeps_get_cpu_utilisation | intro | ].
  eapply sleeps_bind; [apply sleeps_get_memory_usage | intro | reflexivity].
  do 3 (eapply sleeps_bind; [apply sleeps_lift | intro | reflexivity]).
  eapply sleeps_bind; [apply sleeps_get_memory_usage | intro | reflexivity].
  do 3 (eapply sleeps_bind; [apply sleeps_lift | intro | reflexivity]).
  eapply sleeps_bind;
    [apply sleeps_get_network_interface_traffic | intro | reflexivity].
  eapply sleeps_bind; [apply sleeps_lift | intro; apply sleeps_print | reflexivity].
  reflexivity.
Qed.

(** X2, at the example world: the clock has advanced by two seconds. *)
Lemma report_sleeps_twice_witness :
  clock (snd (print_stats "eth0" (kernel stat_scenario dev_scenario meminfo_scenario)))
  = 2.
Proof.
  refine (proj2 (proj2 (proj2 report_sleeps_twice)) "eth0"
            (kernel stat_scenario dev_scenario meminfo_scenario) tt _ _).
  apply run_eq. vm_compute; reflexivity.
Defined.

(** ** File objects left behind *)

Lemma stays_open_refl fd path w : stays_open fd path w w.
Proof. now intro. Qed.

Lemma stays_open_trans fd path w1 w2 w3 :
  stays_open fd path w1 w2 -> stays_open fd path w2 w3 -> stays_open fd path w1 w3.
Proof. unfold stays_open. auto. Qed.

Lemma stays_open_readlines fd path : keeps (stays_open fd path) (readlines fd).
Proof. intros w o w' H Ho. now apply (readlines_inv _ _ _ _ _ Ho H). Qed.

Lemma keeps_unless_returns_bind {A B} R (m : Py A) (k : A -> Py B) :
  (forall w1 w2 w3, R w1 w2 -> R w2 w3 -> R w1 w3) ->
  keeps R m ->
  (forall a, keeps_unless_returns R (k a)) ->
  keeps_unless_returns R (bind m k).
Proof.
  intros Rt Hm Hk w o w' H Ho.
  destruct (bind_inv _ _ _ _ _ H) as [(a & w1 & H1 & H2)|[(e & H1 & _)|(H1 & _)]].
  - eapply Rt; [exact (Hm _ _ _ H1) | exact (Hk _ _ _ _ H2 Ho)].
  - exact (Hm _ _ _ H1).
  - exact (Hm _ _ _ H1).
Qed.

(** The return itself: the file object is let go and the value handed
    over; this cannot fail. *)
Lemma dealloc_returns {A} R fd (a : A) : keeps_unless_returns R (dealloc fd ;;; ret a).
Proof.
  intros w o w' H Ho. unfold bind, dealloc, close, ret in H.
  inversion H; subst. now elim (Ho a).
Qed.

(** X3. [get_memory_usage] has no [f.close()], so its file object is
    closed by the return and by nothing else: after a call that returns the
    dict the file object it opened is gone from the table, and after a call
    that opened [/proc/meminfo] and then failed, the file object is still
    open. *)
Theorem memory_source_closed_by_return w o w' :
  get_memory_usage w = (o, w') ->
  files w "/proc/meminfo" <> None ->
  (forall usage, o = Ok usage -> lookup_handle (next_fd w) (handles w') = None) /\
  ((forall usage, o <> Ok usage) -> open_on (next_fd w) "/proc/meminfo" w').
Proof.
  intros H Hf. split.
  { intros usage ->.
    now destruct (get_memory_usage_ok _ _ _ H) as (? & ? & ? & _ & _ & _ & _ & _ & C). }
  intro Ho. revert H. unfold get_memory_usage.
  destruct (files w "/proc/meminfo") as [f|] eqn:F; [clear Hf | now elim Hf].
  unfold bind at 1. unfold open. rewrite F.
  generalize (open_on_opened "/proc/meminfo" w).
  generalize (opened "/proc/meminfo" w). intros w1 O1 H.
  refine (_ O1). revert H.
  match goal with
  | |- ?m w1 = (o, w') -> _ =>
      enough (K : keeps_unless_returns (stays_open (next_fd w) "/proc/meminfo") m)
        by (intro H2; exact (K _ _ _ H2 Ho))
  end.
  apply keeps_unless_returns_bind;
    [exact (stays_open_trans _ _) | apply stays_open_readlines | intro lines].
  apply keeps_unless_returns_bind;
    [exact (stays_open_trans _ _)
    | apply keeps_lift; exact (stays_open_refl _ _) | intros [t f']].
  repeat (apply keeps_unless_returns_bind;
          [exact (stays_open_trans _ _)
          | apply keeps_lift; exact (stays_open_refl _ _) | intro]).
  apply dealloc_returns.
Qed.

(** X3, at two sources: after the call that returns, descriptor 3 is gone;
    after the call that finds no [MemTotal:] line and raises, descriptor 3
    is open on [/proc/meminfo]. *)
Lemma memory_source_closed_by_return_witness :
  lookup_handle 3
    (handles (snd (get_memory_usage
                     (kernel stat_scenario dev_scenario meminfo_scenario)))) = None /\
  open_on 3 "/proc/meminfo"
    (snd (get_memory_usage (kernel stat_scenario dev_scenario (fun _ => EmptyString)))).
Proof.
  split.
  - refine (proj1 (memory_source_closed_by_return
                     (kernel stat_scenario dev_scenario meminfo_scenario) _ _
                     (surjective_pairing _) _)
                  [("memory_in_use", 8260800); ("free_memory", 8123456)] _).
    + discriminate.
    + vm_compute; reflexivity.
  - refine (proj2 (memory_source_closed_by_return
                     (kernel stat_scenario dev_scenario (fun _ => EmptyString)) _ _
                     (surjective_pairing _) _) _).
    + discriminate.
    + intros usage E.
      assert (E' : fst (get_memory_usage
                          (kernel stat_scenario dev_scenario (fun _ => EmptyString)))
                   = Raise (UnboundLocalError "total_memory"))
        by (vm_compute; reflexivity).
      rewrite E in E'. discriminate E'.
Defined.

Lemma lookup_handle_other fd fd' h hs :
  fd' <> fd -> lookup_handle fd' ((fd, h) :: hs) = lookup_handle fd' hs.
Proof.
  intro H. simpl. destruct (Nat.eqb_spec fd fd'); [congruence | reflexivity].
Qed.

Lemma lookup_handle_remove_other fd fd' hs :
  fd' <> fd -> lookup_handle fd' (remove_handle fd hs) = lookup_handle fd' hs.
Proof.
  intro H. induction hs as [|[n h] hs IH]; simpl; trivial.
  destruct (Nat.eqb_spec n fd) as [->|Hn].
  - rewrite IH. destruct (Nat.eqb_spec fd fd'); [congruence | reflexivity].
  - simpl. now rewrite IH.
Qed.

Lemma older_untouched_refl n w : older_untouched n w w.
Proof. split; [lia | reflexivity]. Qed.

Lemma older_untouched_trans n w1 w2 w3 :
  older_untouched n w1 w2 -> older_untouched n w2 w3 -> older_untouched n w1 w3.
Proof.
  intros [N1 H1] [N2 H2]. split; [lia|].
  intros fd Hfd. now rewrite H2, H1.
Qed.

Lemma older_untouched_pending n fd : keeps (older_untouched n) (pending fd).
Proof.
  intros w o w' H. unfold pending in H.
  destruct (lookup_handle fd (handles w)) as [h|];
    [|inversion H; subst; apply older_untouched_refl].
  destruct (h_rest h); [inversion H; subst; apply older_untouched_refl|].
  destruct (files w (h_path h)); [|inversion H; subst; apply older_untouched_refl].
  destruct (all_ascii7 _); inversion H; subst; split; cbn; trivial; lia.
Qed.

Lemma older_untouched_set_rest n fd rest :
  (n <= fd)%nat -> keeps (older_untouched n) (set_rest fd rest).
Proof.
  intros Hn w o w' H. unfold set_rest in H.
  destruct (lookup_handle fd (handles w)) as [h|];
    inversion H; subst; [|apply older_untouched_refl].
  split; [cbn; lia|]. intros fd' Hfd.
  cbn [handles set_handle with_handles].
  rewrite lookup_handle_other, lookup_handle_remove_other; trivial; lia.
Qed.

Lemma older_untouched_close n fd :
  (n <= fd)%nat -> keeps (older_untouched n) (close fd).
Proof.
  intros Hn w o w' H. inversion H; subst.
  split; [cbn; lia|]. intros fd' Hfd.
  cbn [handles with_handles]. apply lookup_handle_remove_other. lia.
Qed.

Lemma older_untouched_time_sleep n secs :
  keeps (older_untouched n) (time_sleep secs).
Proof.
  intros w o w' H. unfold time_sleep in H.
  destruct (secs <? 0); inversion H; subst; split; cbn; trivial; lia.
Qed.

Ltac older_steps Hn :=
  repeat first
    [ apply keeps_ret; exact (older_untouched_refl _)
    | apply keeps_lift; exact (older_untouched_refl _)
    | apply older_untouched_pending
    | apply older_untouched_set_rest; exact Hn
    | apply older_untouched_close; exact Hn
    | apply older_untouched_time_sleep
    | apply keeps_bind; [exact (older_untouched_trans _) | | intro] ].

Lemma older_untouched_opened path w : older_untouched (next_fd w) w (opened path w).
Proof.
  split; [cbn; lia|]. intros fd Hfd. cbn [handles opened].
  apply lookup_handle_other. lia.
Qed.

(** A sampler touches no file object but the one it opens. *)
Ltac older_sampler H w :=
  let fd := fresh "fd" in
  let w1 := fresh "w" in
  let Ho := fresh "Ho" in
  let H2 := fresh "H" in
  let E := fresh "E" in
  let Ew := fresh "E" in
  let K := fresh "K" in
  destruct (bind_inv _ _ _ _ _ H) as [(fd & w1 & Ho & H2)|[(? & Ho & _)|(Ho & _)]];
  apply open_inv in Ho; destruct Ho as [[E Ew]|[E Ew]]; try discriminate;
  [ inversion E; subst fd; subst w1; clear E;
    eapply older_untouched_trans; [apply older_untouched_opened|];
    match type of H2 with
    | ?m _ = _ =>
        enough (K : keeps (older_untouched (next_fd w)) m) by exact (K _ _ _ H2)
    end
  | subst; apply older_untouched_refl ].

Lemma older_untouched_get_memory_usage w o w' :
  get_memory_usage w = (o, w') -> older_untouched (next_fd w) w w'.
Proof.
  unfold get_memory_usage. intro H. older_sampler H w.
  assert (Hn : (next_fd w <= next_fd w)%nat) by lia.
  unfold readlines. older_steps Hn.
  match goal with |- keeps _ (let (_, _) := ?v in _) => destruct v end.
  older_steps Hn.
Qed.

Lemma older_untouched_get_network_interface_traffic interface sleep_time w o w' :
  get_network_interface_traffic interface sleep_time w = (o, w') ->
  older_untouched (next_fd w) w w'.
Proof.
  unfold get_network_interface_traffic. intro H. older_sampler H w.
  assert (Hn : (next_fd w <= next_fd w)%nat) by lia.
  unfold readlines, seek0. older_steps Hn.
Qed.

Lemma older_untouched_get_cpu_utilisation sleep_time w o w' :
  get_cpu_utilisation sleep_time w = (o, w') ->
  older_untouched (next_fd w) w w'.
Proof.
  unfold get_cpu_utilisation. intro H. older_sampler H w.
  assert (Hn : (next_fd w <= next_fd w)%nat) by lia.
  unfold readline, seek0. older_steps Hn.
  all: match goal with |- keeps _ (let (_, _) := ?v in _) => destruct v end;
       older_steps Hn.
Qed.

(** X4. A report that is printed leaves no file object behind.  The call
    opens four: the two timed samplers close theirs, the two calls of
    [get_memory_usage] lose theirs as they return; and the file objects
    that were there before the call are as they were. *)
Theorem report_leaves_none_open network_adaptor w w' :
  print_stats network_adaptor w = (Ok tt, w') ->
  next_fd w' = (next_fd w + 4)%nat /\
  (forall fd, (next_fd w <= fd < next_fd w + 4)%nat ->
              lookup_handle fd (handles w') = None) /\
  (forall fd, (fd < next_fd w)%nat ->
              lookup_handle fd (handles w') = lookup_handle fd (handles w)).
Proof.
  intro H.
  destruct (print_stats_ok _ _ _ H)
    as (u & w1 & usage1 & w2 & usage2 & w3 & traffic & w4 & in_use & free & fi & ff
        & Hc & Hm1 & _ & _ & Hm2 & _ & _ & Hn & ->).
  pose proof (opens_get_cpu_utilisation _ _ _ _ Hc) as N1.
  pose proof (opens_get_memory_usage _ _ _ Hm1) as N2.
  pose proof (opens_get_memory_usage _ _ _ Hm2) as N3.
  pose proof (opens_get_network_interface_traffic _ _ _ _ _ Hn) as N4.
  destruct (get_cpu_utilisation_ok _ _ _ _ Hc) as (C1 & _).
  destruct (get_memory_usage_ok _ _ _ Hm1) as (? & ? & ? & _ & _ & _ & _ & _ & C2).
  destruct (get_memory_usage_ok _ _ _ Hm2) as (? & ? & ? & _ & _ & _ & _ & _ & C3).
  destruct (get_network_interface_traffic_ok _ _ _ _ _ Hn) as (C4 & _).
  destruct (older_untouched_get_cpu_utilisation _ _ _ _ Hc) as (_ & U1).
  destruct (older_untouched_get_memory_usage _ _ _ Hm1) as (_ & U2).
  destruct (older_untouched_get_memory_usage _ _ _ Hm2) as (_ & U3).
  destruct (older_untouched_get_network_interface_traffic _ _ _ _ _ Hn) as (_ & U4).
  change (handles (printed _ w4)) with (handles w4).
  change (next_fd (printed _ w4)) with (next_fd w4).
  split; [lia|]. split.
  - intros fd Hfd.
    assert (Cases : fd = next_fd w \/ fd = next_fd w1 \/ fd = next_fd w2
                    \/ fd = next_fd w3) by lia.
    destruct Cases as [E | [E | [E | E]]]; subst fd.
    + rewrite U4, U3, U2 by lia. exact C1.
    + rewrite U4, U3 by lia. exact C2.
    + rewrite U4 by lia. exact C3.
    + exact C4.
  - intros fd Hfd. rewrite U4, U3, U2, U1 by lia. reflexivity.
Qed.

(** X4, at the example world: descriptors 3 to 6 were given out and none
    of them is left in the table. *)
Lemma report_leaves_none_open_witness :
  next_fd (snd (print_stats "eth0" (kernel stat_scenario dev_scenario meminfo_scenario)))
  = 7%nat /\
  lookup_handle 4
    (handles (snd (print_stats "eth0"
                     (kernel stat_scenario dev_scenario meminfo_scenario)))) = None /\
  lookup_handle 5
    (handles (snd (print_stats "eth0"
                     (kernel stat_scenario dev_scenario meminfo_scenario)))) = None.
Proof.
  assert (R : print_stats "eth0" (kernel stat_scenario dev_scenario meminfo_scenario)
              = (Ok tt, snd (print_stats "eth0"
                               (kernel stat_scenario dev_scenario meminfo_scenario)))).
  { apply run_eq. vm_compute; reflexivity. }
  destruct (report_leaves_none_open _ _ _ R) as (N & C & _).
  split; [exact N|].
  split; apply C; cbn [next_fd kernel]; lia.
Defined.

(** ** The memory sampler as a function of one snapshot *)

(** What a call of [get_memory_usage] gives and does when the source
    serves [text]: the outcome is read off the text alone, and the world is
    left with one more read; the file object of the call is out of the
    table after a return and in it, at the end of the text, after a
    failure. *)
Lemma get_memory_usage_reads w text :
  text_at w "/proc/meminfo" 0 = Some text ->
  get_memory_usage w =
    (obind (meminfo_reading text) (fun r =>
       Ok [("memory_in_use", fst r - snd r); ("free_memory", snd r)]),
     with_handles
       (let hs := (next_fd w, mkHandle "/proc/meminfo" (Some EmptyString))
                    :: remove_handle (next_fd w) (handles (opened "/proc/meminfo" w)) in
        match meminfo_reading text with
        | Ok _ => remove_handle (next_fd w) hs
        | _ => hs
        end)
       (fetched "/proc/meminfo" (opened "/proc/meminfo" w))).
Proof.
  intro T. unfold get_memory_usage.
  unfold bind at 1. rewrite (open_existing _ _ _ _ T).
  unfold bind at 1.
  rewrite (readlines_at_start _ (next_fd w) "/proc/meminfo" text);
    [| apply lookup_handle_head | exact T].
  unfold meminfo_reading, lift, bind, ret, dealloc, close.
  destruct (scan_meminfo (split_lines text) None None) as [[t f]| |];
    [| reflexivity | reflexivity].
  cbn [obind fst snd].
  destruct t as [t|]; cbn [local obind]; [| reflexivity].
  destruct (int_item t 1) as [total| |]; cbn [obind]; [| reflexivity | reflexivity].
  destruct f as [f|]; cbn [local obind]; [| reflexivity].
  destruct (int_item f 1) as [free| |]; cbn [obind fst snd]; reflexivity.
Qed.

(** X5. [get_memory_usage] is a plain read: when [/proc/meminfo] serves
    the same text to two calls in a row, the second call ends as the first
    did, with the same dict or the same exception. *)
Theorem get_memory_usage_idempotent w text :
  text_at w "/proc/meminfo" 0 = Some text ->
  text_at w "/proc/meminfo" 1 = Some text ->
  fst (get_memory_usage (snd (get_memory_usage w))) = fst (get_memory_usage w).
Proof.
  intros T0 T1.
  rewrite (get_memory_usage_reads w text T0). cbn [fst snd].
  rewrite (get_memory_usage_reads _ text); [reflexivity|].
  later_text T1.
Qed.

(** X5, at a source that does not change. *)
Lemma get_memory_usage_idempotent_witness :
  fst (get_memory_usage
         (snd (get_memory_usage
                 (kernel stat_scenario dev_scenario meminfo_two_matches))))
  = Ok [("memory_in_use", 16382208); ("free_memory", 2048)].
Proof.
  refine (eq_trans
            (get_memory_usage_idempotent
               (kernel stat_scenario dev_scenario meminfo_two_matches)
               (universal_newlines (meminfo_two_matches 0)) _ _) _);
    vm_compute; reflexivity.
Defined.

(** X6. The loop variables of [get_memory_usage] are bound only by a
    matching line.  On a source in which [MemTotal:] occurs in no line,
    the empty source included, the call raises [UnboundLocalError] for
    [total_memory], whatever else the source holds; on a source whose last
    [MemTotal:] line gives an integer but in which [MemFree] occurs in no
    line, it raises [UnboundLocalError] for [free_memory]. *)
Theorem get_memory_usage_unbound w text :
  text_at w "/proc/meminfo" 0 = Some text ->
  (Forall (fun l => contains "MemTotal:" l = false) (split_lines text) ->
   fst (get_memory_usage w) = Raise (UnboundLocalError "total_memory")) /\
  (forall pre total_line post total,
      split_lines text = (pre ++ total_line :: post)%list ->
      contains "MemTotal:" total_line = true ->
      Forall (fun l => contains "MemTotal:" l = false) post ->
      int_item (py_split total_line) 1 = Ok total ->
      Forall (fun l => contains "MemFree" l = false) (split_lines text) ->
      fst (get_memory_usage w) = Raise (UnboundLocalError "free_memory")).
Proof.
  intro T. rewrite (get_memory_usage_reads w text T). cbn [fst].
  unfold meminfo_reading. rewrite scan_meminfo_contains. cbn [obind fst snd].
  split.
  - intro Hn. now rewrite (last_matching_none _ _ _ Hn).
  - intros pre lt post total S Ct Np It Nf.
    rewrite (last_matching_none _ _ _ Nf).
    rewrite S at 1. rewrite (last_matching_last _ pre lt post None Ct Np).
    cbn [option_map local obind]. rewrite It. reflexivity.
Qed.

(** X6, at an empty [/proc/meminfo]. *)
Lemma get_memory_usage_unbound_witness :
  fst (get_memory_usage (kernel stat_scenario dev_scenario (fun _ => EmptyString)))
  = Raise (UnboundLocalError "total_memory").
Proof.
  refine (proj1 (get_memory_usage_unbound
                   (kernel stat_scenario dev_scenario (fun _ => EmptyString))
                   EmptyString _) _).
  - vm_compute; reflexivity.
  - constructor.
Defined.

(** ** A report from a source that holds still *)

(** X7. When [/proc/meminfo] serves the same text to the two calls behind
    a report, the two memory figures of the report belong together: they
    are the floats of [total - free] and of [free] kilobytes of that one
    snapshot, each divided by [1000.0]. *)
Theorem report_consistent_when_stable network_adaptor w w' text :
  print_stats network_adaptor w = (Ok tt, w') ->
  text_at w "/proc/meminfo" 0 = Some text ->
  text_at w "/proc/meminfo" 1 = Some text ->
  exists total free cpu traffic fi ff,
    meminfo_reading text = Ok (total, free) /\
    float_of_int (total - free) = Ok fi /\
    float_of_int free = Ok ff /\
    (total - free) + free = total /\
    stdout w' =
      stdout w ++ report_text cpu traffic (SFdiv prec emax fi f_1000)
                                          (SFdiv prec emax ff f_1000) ++ nl.
Proof.
  intros H T0 T1.
  destruct (print_stats_ok _ _ _ H)
    as (u & w1 & usage1 & w2 & usage2 & w3 & traffic & w4 & in_use & free & fi & ff
        & Hc & Hm1 & D1 & F1 & Hm2 & D2 & F2 & Hn & ->).
  destruct (get_cpu_utilisation_ok _ _ _ _ Hc) as (_ & Rc).
  assert (Ns : "/proc/meminfo" <> "/proc/stat") by discriminate.
  rewrite <- (text_at_elsewhere _ _ _ _ 0 Rc Ns) in T0.
  rewrite <- (text_at_elsewhere _ _ _ _ 1 Rc Ns) in T1.
  rewrite (get_memory_usage_reads _ _ T0) in Hm1.
  destruct (meminfo_reading text) as [[total free0]| |] eqn:M; try discriminate.
  cbn [obind fst snd] in Hm1. inversion Hm1; subst usage1. clear Hm1.
  rewrite (get_memory_usage_reads w2 text) in Hm2 by (subst w2; later_text T1).
  rewrite M in Hm2. cbn [obind fst snd] in Hm2. inversion Hm2; subst usage2.
  cbn in D1, D2. inversion D1; subst in_use. inversion D2; subst free.
  exists total, free0, (f_mul u f_100), traffic, fi, ff.
  repeat split; trivial; [lia|].
  destruct (get_network_interface_traffic_ok _ _ _ _ _ Hn) as (_ & (_ & On & _)).
  destruct Rc as (_ & Oc & _).
  cbn [stdout printed]. rewrite On. subst w3 w2. cbn [stdout set_handle with_handles
    fetched opened]. now rewrite Oc.
Qed.

(** X7, at a source that does not change: 16382.208 MB in use and
    2.048 MB free are the two parts of 16384256 kB. *)
Lemma report_consistent_when_stable_witness :
  exists total free cpu traffic fi ff,
    meminfo_reading (universal_newlines (meminfo_two_matches 0)) = Ok (total, free) /\
    float_of_int (total - free) = Ok fi /\
    float_of_int free = Ok ff /\
    (total - free) + free = total /\
    stdout (snd (print_stats "eth0"
                   (kernel stat_scenario dev_scenario meminfo_two_matches))) =
      EmptyString ++ report_text cpu traffic (SFdiv prec emax fi f_1000)
                                             (SFdiv prec emax ff f_1000) ++ nl.
Proof.
  apply (report_consistent_when_stable "eth0"
           (kernel stat_scenario dev_scenario meminfo_two_matches)).
  - apply run_eq. vm_compute; reflexivity.
  - vm_compute; reflexivity.
  - vm_compute; reflexivity.
Defined.

(** ** Sources that are missing or cut short *)

(** X8. A source that cannot be opened: each sampler raises [IOError] for
    its own path and leaves the world as it was, and so does the reporter
    when [/proc/stat] is the missing one, before any sampling or sleep. *)
Theorem source_unavailable w :
  (files w "/proc/stat" = None ->
   forall sleep_time,
     get_cpu_utilisation sleep_time w = (Raise (IOError "/proc/stat"), w)) /\
  (files w "/proc/net/dev" = None ->
   forall interface sleep_time,
     get_network_interface_traffic interface sleep_time w
       = (Raise (IOError "/proc/net/dev"), w)) /\
  (files w "/proc/meminfo" = None ->
   get_memory_usage w = (Raise (IOError "/proc/meminfo"), w)) /\
  (files w "/proc/stat" = None ->
   forall network_adaptor,
     print_stats network_adaptor w = (Raise (IOError "/proc/stat"), w)).
Proof.
  repeat split; intro F; intros.
  - unfold get_cpu_utilisation, bind, open. now rewrite F.
  - unfold get_network_interface_traffic, bind, open. now rewrite F.
  - unfold get_memory_usage, bind, open. now rewrite F.
  - unfold print_stats, bind at 1. unfold get_cpu_utilisation, bind, open.
    now rewrite F.
Qed.

(** X8, in a world without [/proc/stat]. *)
Lemma source_unavailable_witness :
  fst (print_stats "eth0" (mkWorld (fun _ => None) (fun _ => O) [] 3 0 EmptyString))
  = Raise (IOError "/proc/stat").
Proof.
  refine (f_equal fst
            (proj2 (proj2 (proj2
               (source_unavailable (mkWorld (fun _ => None) (fun _ => O) [] 3 0 EmptyString))))
               _ "eth0")).
  reflexivity.
Defined.

(** X9. The idle field is read first: when the first line of [/proc/stat]
    has fewer than five fields, the empty line included,
    [get_cpu_utilisation] raises [IndexError] whatever the fields hold,
    without sleeping and without a second read, and leaves its file object
    open. *)
Theorem get_cpu_utilisation_short_line w sleep_time text :
  text_at w "/proc/stat" 0 = Some text ->
  (List.length (py_split (fst (cut_line text))) <= 4)%nat ->
  fst (get_cpu_utilisation sleep_time w) = Raise IndexError /\
  clock (snd (get_cpu_utilisation sleep_time w)) = clock w /\
  served (snd (get_cpu_utilisation sleep_time w)) "/proc/stat"
    = S (served w "/proc/stat") /\
  open_on (next_fd w) "/proc/stat" (snd (get_cpu_utilisation sleep_time w)).
Proof.
  intros T Hlen.
  assert (E : float_item (py_split (fst (cut_line text))) 4 = Raise IndexError).
  { unfold float_item, item_at.
    now rewrite (proj2 (nth_error_None _ _) Hlen). }
  assert (R : get_cpu_utilisation sleep_time w =
              (Raise IndexError,
               set_handle (next_fd w)
                 (mkHandle "/proc/stat" (Some (snd (cut_line text))))
                 (fetched "/proc/stat" (opened "/proc/stat" w)))).
  { unfold get_cpu_utilisation.
    unfold bind at 1. rewrite (open_existing _ _ _ _ T).
    unfold bind at 1.
    rewrite (readline_at_start _ (next_fd w) "/proc/stat" text);
      [| apply lookup_handle_head | exact T].
    unfold lift, bind at 1. now rewrite E. }
  rewrite R. cbn [fst snd].
  split; [reflexivity|]. split; [reflexivity|].
  split; [| apply open_on_set_handle].
  cbn [served set_handle with_handles fetched opened]. unfold upd.
  now rewrite String.eqb_refl.
Qed.

(** X9, at a [/proc/stat] with three counters. *)
Lemma get_cpu_utilisation_short_line_witness :
  fst (get_cpu_utilisation 1 (kernel stat_truncated dev_scenario meminfo_scenario))
  = Raise IndexError.
Proof.
  refine (proj1 (get_cpu_utilisation_short_line
                   (kernel stat_truncated dev_scenario meminfo_scenario) 1
                   (universal_newlines (stat_truncated 0)) _ _)).
  - vm_compute; reflexivity.
  - vm_compute. lia.
Defined.

(** What the network sampler does when its first scan gives no reading. *)
Lemma get_network_interface_traffic_stops
      w interface sleep_time text1 stats1 e :
  text_at w "/proc/net/dev" 0 = Some text1 ->
  scan_interface interface (split_lines text1) (split_lines text1) = Ok stats1 ->
  int_item stats1 9 = Raise e ->
  get_network_interface_traffic interface sleep_time w =
    (Raise e,
     set_handle (next_fd w) (mkHandle "/proc/net/dev" (Some EmptyString))
                (fetched "/proc/net/dev" (opened "/proc/net/dev" w))).
Proof.
  intros T1 S1 R1.
  unfold get_network_interface_traffic.
  unfold bind at 1. rewrite (open_existing _ _ _ _ T1).
  unfold bind at 1.
  rewrite (readlines_at_start _ (next_fd w) "/proc/net/dev" text1);
    [| apply lookup_handle_head | exact T1].
  unfold lift, bind at 1 2. now rewrite S1, R1.
Qed.

(** X10. A line that is selected but cut short or garbled: when field 9 of
    the last line that matches the interface cannot be read as an integer,
    the network sampler ends with that failure, [IndexError] when the line
    has fewer than ten fields and else the [ValueError] of [int()] on the
    field, before any sleep and with its file object left open. *)
Theorem get_network_interface_traffic_malformed
        w interface sleep_time text pre line post e :
  text_at w "/proc/net/dev" 0 = Some text ->
  split_lines text = (pre ++ line :: post)%list ->
  Re.search interface line = Ok true ->
  Forall (fun l => Re.search interface l = Ok false) post ->
  int_item (py_split line) 9 = Raise e ->
  fst (get_network_interface_traffic interface sleep_time w) = Raise e /\
  ((List.length (py_split line) <= 9)%nat -> e = IndexError) /\
  (forall field, nth_error (py_split line) 9 = Some field ->
                 e = ValueError int_literal field) /\
  clock (snd (get_network_interface_traffic interface sleep_time w)) = clock w /\
  open_on (next_fd w) "/proc/net/dev"
          (snd (get_network_interface_traffic interface sleep_time w)).
Proof.
  intros T S M N He.
  assert (Sc : scan_interface interface (split_lines text) (split_lines text)
               = Ok (py_split line)).
  { rewrite S at 1. now apply scan_interface_selects. }
  rewrite (get_network_interface_traffic_stops _ _ _ _ _ _ T Sc He).
  cbn [fst snd].
  split; [reflexivity|].
  split; [| split; [| split; [reflexivity | apply open_on_set_handle]]].
  - intro Hlen. unfold int_item, item_at in He.
    rewrite (proj2 (nth_error_None _ _) Hlen) in He. now inversion He.
  - intros field Hf. unfold int_item, item_at in He. rewrite Hf in He.
    cbn [obind] in He. unfold py_int in He.
    destruct (split_sign (strip field)) as [neg body].
    destruct (digits body); [discriminate | now inversion He].
Qed.

(** X10, at a source where the [eth0] line has lost its last fields. *)
Lemma get_network_interface_traffic_malformed_witness :
  fst (get_network_interface_traffic "eth0" 1
         (kernel stat_scenario dev_truncated meminfo_scenario)) = Raise IndexError.
Proof.
  refine (proj1 (get_network_interface_traffic_malformed
                   (kernel stat_scenario dev_truncated meminfo_scenario) "eth0" 1
                   (universal_newlines (dev_truncated 0))
                   [fst (cut_line dev_header); fst (cut_line (snd (cut_line dev_header)))]
                   ("  eth0: 812345 7000 0" ++ nl) [] IndexError _ _ _ _ _)).
  - vm_compute; reflexivity.
  - vm_compute; reflexivity.
  - vm_compute; reflexivity.
  - constructor.
  - vm_compute; reflexivity.
Defined.

(** ** Arguments that are off *)

(** X11. A negative [sleep_time] is found out only by [time.sleep], after
    the first reading was taken: each timed sampler whose first reading
    succeeds raises the [ValueError] of [time.sleep], has read its source
    once, and leaves its file object open. *)
Theorem negative_sleep_time w sleep_time :
  sleep_time < 0 ->
  (forall text u n s i io,
      text_at w "/proc/stat" 0 = Some text ->
      cpu_line (fst (cut_line text)) u n s i io ->
      fst (get_cpu_utilisation sleep_time w) = Raise ValueError_sleep /\
      served (snd (get_cpu_utilisation sleep_time w)) "/proc/stat"
        = S (served w "/proc/stat") /\
      open_on (next_fd w) "/proc/stat" (snd (get_cpu_utilisation sleep_time w))) /\
  (forall interface text stats reading,
      text_at w "/proc/net/dev" 0 = Some text ->
      scan_interface interface (split_lines text) (split_lines text) = Ok stats ->
      int_item stats 9 = Ok reading ->
      fst (get_network_interface_traffic interface sleep_time w)
        = Raise ValueError_sleep /\
      served (snd (get_network_interface_traffic interface sleep_time w))
             "/proc/net/dev" = S (served w "/proc/net/dev") /\
      open_on (next_fd w) "/proc/net/dev"
              (snd (get_network_interface_traffic interface sleep_time w))).
Proof.
  intro Hs. apply Z.ltb_lt in Hs. split.
  - intros text u n s i io T (lb & a & b & c & d & e & m & S1 & A & B & C & D & E).
    assert (R : get_cpu_utilisation sleep_time w =
                (Raise ValueError_sleep,
                 set_handle (next_fd w)
                   (mkHandle "/proc/stat" (Some (snd (cut_line text))))
                   (fetched "/proc/stat" (opened "/proc/stat" w)))).
    { unfold get_cpu_utilisation.
      unfold bind at 1. rewrite (open_existing _ _ _ _ T).
      unfold bind at 1.
      rewrite (readline_at_start _ (next_fd w) "/proc/stat" text);
        [| apply lookup_handle_head | exact T].
      rewrite S1. unfold float_item, lift, bind at 1 2 3 4 5 6.
      simpl item_at. simpl obind. rewrite A, B, C, D, E.
      unfold bind at 1. unfold time_sleep. now rewrite Hs. }
    rewrite R. cbn [fst snd].
    split; [reflexivity|]. split; [| apply open_on_set_handle].
    cbn [served set_handle with_handles fetched opened]. unfold upd.
    now rewrite String.eqb_refl.
  - intros interface text stats reading T Sc It.
    assert (R : get_network_interface_traffic interface sleep_time w =
                (Raise ValueError_sleep,
                 set_handle (next_fd w)
                   (mkHandle "/proc/net/dev" (Some EmptyString))
                   (fetched "/proc/net/dev" (opened "/proc/net/dev" w)))).
    { unfold get_network_interface_traffic.
      unfold bind at 1. rewrite (open_existing _ _ _ _ T).
      unfold bind at 1.
      rewrite (readlines_at_start _ (next_fd w) "/proc/net/dev" text);
        [| apply lookup_handle_head | exact T].
      unfold lift, bind at 1 2. rewrite Sc, It.
      unfold bind at 1. unfold time_sleep. now rewrite Hs. }
    rewrite R. cbn [fst snd].
    split; [reflexivity|]. split; [| apply open_on_set_handle].
    cbn [served set_handle with_handles fetched opened]. unfold upd.
    now rewrite String.eqb_refl.
Qed.

(** X11, at the example world with an interval of -1 second. *)
Lemma negative_sleep_time_witness :
  fst (get_cpu_utilisation (-1) (kernel stat_scenario dev_scenario meminfo_scenario))
  = Raise ValueError_sleep.
Proof.
  assert (L : cpu_line (fst (cut_line (universal_newlines (stat_scenario 0))))
                f_100 (S754_zero false) f_100
                (S754_finite false 6157265115545600 (-43)) f_100).
  { exists "cpu", "100", "0", "100", "700", "100", ["0"; "0"; "0"; "0"; "0"].
    repeat split; vm_compute; reflexivity. }
  refine (proj1 (proj1 (negative_sleep_time
                          (kernel stat_scenario dev_scenario meminfo_scenario) (-1) _)
                   (universal_newlines (stat_scenario 0)) _ _ _ _ _ _ L)).
  - lia.
  - vm_compute; reflexivity.
Defined.

Lemma scan_interface_rejected interface line lines network_stats :
  Re.compile interface = Raise re_error ->
  scan_interface interface (line :: lines) network_stats = Raise re_error.
Proof.
  intro C. cbn [scan_interface]. unfold Re.search. now rewrite C.
Qed.

(** X12. The interface name goes to [re.search] as it is: with a name that
    [re] rejects as a pattern the network sampler raises [re.error] at the
    first line of a source that has one, before any reading or sleep, and
    leaves its file object open. *)
Theorem interface_name_rejected w interface sleep_time text line lines :
  text_at w "/proc/net/dev" 0 = Some text ->
  split_lines text = line :: lines ->
  Re.compile interface = Raise re_error ->
  fst (get_network_interface_traffic interface sleep_time w) = Raise re_error /\
  clock (snd (get_network_interface_traffic interface sleep_time w)) = clock w /\
  open_on (next_fd w) "/proc/net/dev"
          (snd (get_network_interface_traffic interface sleep_time w)).
Proof.
  intros T S C.
  assert (R : get_network_interface_traffic interface sleep_time w =
              (Raise re_error,
               set_handle (next_fd w)
                 (mkHandle "/proc/net/dev" (Some EmptyString))
                 (fetched "/proc/net/dev" (opened "/proc/net/dev" w)))).
  { unfold get_network_interface_traffic.
    unfold bind at 1. rewrite (open_existing _ _ _ _ T).
    unfold bind at 1.
    rewrite (readlines_at_start _ (next_fd w) "/proc/net/dev" text);
      [| apply lookup_handle_head | exact T].
    unfold lift, bind at 1. rewrite S.
    now rewrite (scan_interface_rejected _ _ _ _ C). }
  rewrite R. cbn [fst snd].
  split; [reflexivity|]. split; [reflexivity | apply open_on_set_handle].
Qed.

(** X12, for the name [eth(0]. *)
Lemma interface_name_rejected_witness :
  fst (get_network_interface_traffic "eth(0" 1
         (kernel stat_scenario dev_scenario meminfo_scenario)) = Raise re_error.
Proof.
  refine (proj1 (interface_name_rejected
                   (kernel stat_scenario dev_scenario meminfo_scenario) "eth(0" 1
                   (universal_newlines (dev_scenario 0))
                   (fst (cut_line dev_header))
                   (tl (split_lines (universal_newlines (dev_scenario 0)))) _ _ _));
    vm_compute; reflexivity.
Defined.

(** X13. A name without pattern characters is looked up as a substring of
    the whole line: the network sampler takes field 9 of the last line in
    which the name occurs anywhere, in the first field or not, as a whole
    interface name or as a part of one. *)
Theorem interface_name_as_substring
        w interface sleep_time text1 text2
        pre1 line1 post1 pre2 line2 post2 reading1 reading2 :
  literal interface = true ->
  text_at w "/proc/net/dev" 0 = Some text1 ->
  text_at w "/proc/net/dev" 1 = Some text2 ->
  split_lines text1 = (pre1 ++ line1 :: post1)%list ->
  split_lines text2 = (pre2 ++ line2 :: post2)%list ->
  contains interface line1 = true ->
  contains interface line2 = true ->
  Forall (fun l => contains interface l = false) post1 ->
  Forall (fun l => contains interface l = false) post2 ->
  int_item (py_split line1) 9 = Ok reading1 ->
  int_item (py_split line2) 9 = Ok reading2 ->
  0 <= sleep_time ->
  fst (get_network_interface_traffic interface sleep_time w)
    = Ok (reading2 - reading1).
Proof.
  intros L T1 T2 S1 S2 C1 C2 N1 N2 R1 R2 Hs.
  assert (sel : forall pre line post stats,
             contains interface line = true ->
             Forall (fun l => contains interface l = false) post ->
             scan_interface interface (pre ++ line :: post) stats = Ok (py_split line)).
  { intros pre line post stats Hc Hn. apply scan_interface_selects.
    - rewrite (search_literal _ _ L). now rewrite Hc.
    - eapply Forall_impl; [| exact Hn]. intros l Hl. cbv beta in Hl.
      rewrite (search_literal _ _ L). now rewrite Hl. }
  destruct (get_network_interface_traffic_run w interface sleep_time text1 text2
              (py_split line1) (py_split line2) reading1 reading2)
    as (w' & _ & ->); trivial.
  - rewrite S1. now apply sel.
  - rewrite S2. now apply sel.
Qed.

(** X13, at a source with [eth0] and then [veth0]: asked for [eth0], the
    sampler reports the traffic of [veth0]. *)
Lemma interface_name_as_substring_witness :
  fst (get_network_interface_traffic "eth0" 1
         (kernel stat_scenario dev_two_matches meminfo_scenario)) = Ok 29.
Proof.
  refine (interface_name_as_substring
            (kernel stat_scenario dev_two_matches meminfo_scenario) "eth0" 1
            (universal_newlines (dev_two_matches 0))
            (universal_newlines (dev_two_matches 1))
            [fst (cut_line dev_header); fst (cut_line (snd (cut_line dev_header)));
             "  eth0: 1 0 0 0 0 0 0 0 1000 0 0 0 0 0 0 0" ++ nl]
            (" veth0: 2 0 0 0 0 0 0 0 70 0 0 0 0 0 0 0" ++ nl) []
            [fst (cut_line dev_header); fst (cut_line (snd (cut_line dev_header)));
             "  eth0: 1 0 0 0 0 0 0 0 1500 0 0 0 0 0 0 0" ++ nl]
            (" veth0: 2 0 0 0 0 0 0 0 99 0 0 0 0 0 0 0" ++ nl) []
            70 99 _ _ _ _ _ _ _ _ _ _ _ _);
    try constructor; try lia; vm_compute; reflexivity.
Defined.

(** ** The reporter and an interface that is not there *)

(** X14. The network sampler is called last.  When the CPU and the memory
    samples succeed and no line of [/proc/net/dev], a source of fewer than
    ten lines, matches the adaptor, [print_stats] raises [IndexError] after
    the one second of the CPU sample, and prints nothing. *)
Theorem report_without_interface
        network_adaptor w u w1 usage1 w2 usage2 w3 in_use free fi ff text :
  get_cpu_utilisation 1 w = (Ok u, w1) ->
  get_memory_usage w1 = (Ok usage1, w2) ->
  dict_get usage1 "memory_in_use" = Ok in_use ->
  float_of_int in_use = Ok fi ->
  get_memory_usage w2 = (Ok usage2, w3) ->
  dict_get usage2 "free_memory" = Ok free ->
  float_of_int free = Ok ff ->
  text_at w3 "/proc/net/dev" 0 = Some text ->
  Forall (fun l => Re.search network_adaptor l = Ok false) (split_lines text) ->
  (List.length (split_lines text) < 10)%nat ->
  fst (print_stats network_adaptor w) = Raise IndexError /\
  stdout (snd (print_stats network_adaptor w)) = stdout w /\
  clock (snd (print_stats network_adaptor w)) = clock w + 1.
Proof.
  intros Hc Hm1 D1 F1 Hm2 D2 F2 T Hn Hlen.
  assert (It : int_item (split_lines text) 9 = Raise IndexError).
  { unfold int_item, item_at.
    now rewrite (proj2 (nth_error_None (split_lines text) 9) ltac:(lia)). }
  pose proof (get_network_interface_traffic_stops w3 network_adaptor 1 text
                (split_lines text) IndexError T
                (scan_interface_no_match _ _ _ Hn) It) as Hnet.
  assert (R : print_stats network_adaptor w =
              (Raise IndexError,
               set_handle (next_fd w3) (mkHandle "/proc/net/dev" (Some EmptyString))
                          (fetched "/proc/net/dev" (opened "/proc/net/dev" w3)))).
  { unfold print_stats.
    unfold bind at 1. rewrite Hc.
    unfold bind at 1. rewrite Hm1.
    unfold lift, bind at 1. rewrite D1.
    unfold bind at 1. rewrite F1.
    unfold bind at 1. rewrite f_div_1000.
    unfold bind at 1. rewrite Hm2.
    unfold bind at 1. rewrite D2.
    unfold bind at 1. rewrite F2.
    unfold bind at 1. rewrite f_div_1000.
    unfold bind at 1. now rewrite Hnet. }
  rewrite R. cbn [fst snd stdout clock set_handle with_handles fetched opened].
  split; [reflexivity|]. split.
  - rewrite (silent_get_memory_usage _ _ _ Hm2), (silent_get_memory_usage _ _ _ Hm1).
    exact (silent_get_cpu_utilisation _ _ _ _ Hc).
  - rewrite (sleeps_get_memory_usage _ _ _ Hm2), (sleeps_get_memory_usage _ _ _ Hm1),
      (sleeps_get_cpu_utilisation _ _ _ _ Hc). lia.
Qed.

(** X14, asking for [wlan0] in the example world. *)
Lemma report_without_interface_witness :
  fst (print_stats "wlan0" (kernel stat_scenario dev_scenario meminfo_scenario))
  = Raise IndexError.
Proof.
  pose (w := kernel stat_scenario dev_scenario meminfo_scenario).
  pose (c := get_cpu_utilisation 1 w).
  pose (m1 := get_memory_usage (snd c)).
  pose (m2 := get_memory_usage (snd m1)).
  refine (proj1 (report_without_interface "wlan0" w
              (S754_finite false 5404319552844595 (-53)) (snd c)
              [("memory_in_use", 8260800); ("free_memory", 8123456)] (snd m1)
              [("memory_in_use", 8384256); ("free_memory", 8000000)] (snd m2)
              8260800 8000000
              (S754_finite false 8869966459699200 (-30))
              (S754_finite false 8589934592000000 (-30))
              (universal_newlines (dev_scenario 0)) _ _ _ _ _ _ _ _ _ _)).
  - apply run_eq. vm_compute; reflexivity.
  - apply run_eq. vm_compute; reflexivity.
  - vm_compute; reflexivity.
  - vm_compute; reflexivity.
  - apply run_eq. vm_compute; reflexivity.
  - vm_compute; reflexivity.
  - vm_compute; reflexivity.
  - vm_compute; reflexivity.
  - apply none_selected_sound. vm_compute; reflexivity.
  - vm_compute. lia.
Defined.
